(** * AESinkASIO: the ASIO audio sink of Kodi

    A shallow embedding of [xbmc/cores/AudioEngine/Sinks/AESinkASIO.cpp]
    and [AESinkASIO.h]: the native sample catalogue, the per-sample
    converter, the silence writer, the negotiation in [Initialize], the
    producer entry [AddPackets] and the driver callback [bufferSwitch].

    Conventions.
    - A byte is a [Z] in [0, 256); memory is a [list Z] of bytes.  A
      pointer into a buffer is the suffix of the list that starts there.
    - [unsigned int] is a [Z] reduced modulo [2^32] after every operation
      that can leave the range.
    - The sink only builds for Windows, whose targets store integers and
      IEEE floats least-significant byte first; [le_bits]/[le_bytes] are
      that memory layout. *)

From stdpp Require Import base list.
From Stdlib Require Import ZArith QArith Qround Qabs Lia Lqa.

Open Scope Z_scope.

(** ** Machine integers and memory *)

Definition wrap (w : Z) (x : Z) : Z := x mod 2 ^ w.

(** [unsigned int] arithmetic of the source. *)
Definition u32 (x : Z) : Z := wrap 32 x.

(** The value of a run of bytes read least-significant first. *)
Fixpoint le_bits (bs : list Z) : Z :=
  match bs with
  | [] => 0
  | b :: bs' => b mod 256 + 256 * le_bits bs'
  end.

(** The [n] bytes of [v], least-significant first (two's complement for a
    negative [v]). *)
Fixpoint le_bytes (n : nat) (v : Z) : list Z :=
  match n with
  | O => []
  | S n' => v mod 256 :: le_bytes n' (v / 256)
  end.

(** [_byteswap_ushort], [_byteswap_ulong], [_byteswap_uint64]: the value
    whose [n] bytes are those of [v] in reverse order. *)
Definition byteswap (n : nat) (v : Z) : Z := le_bits (rev (le_bytes n v)).

Definition byteswap_ushort : Z -> Z := byteswap 2.
Definition byteswap_ulong : Z -> Z := byteswap 4.
Definition byteswap_uint64 : Z -> Z := byteswap 8.

(** Writing the bytes [bs] at a pointer whose pointee memory is [out]. *)
Definition store (out bs : list Z) : list Z := bs ++ drop (length bs) out.

(** Writing [bs] at byte offset [off] of the buffer [mem]. *)
Definition store_at (mem : list Z) (off : nat) (bs : list Z) : list Z :=
  take off mem ++ store (drop off mem) bs.

(** [std::memset (ptr, c, n)]. *)
Definition memset (out : list Z) (c : Z) (n : Z) : list Z :=
  store out (replicate (Z.to_nat n) c).

(** [std::vector<uint8_t>::resize]: keeps the leading elements and
    value-initialises the new ones. *)
Definition resize (v : list Z) (n : Z) : list Z :=
  take (Z.to_nat n) v ++ replicate (Z.to_nat n - length v) 0.

(** Signed reading of an [n]-byte little-endian or big-endian integer, as
    the driver reads a native sample. *)
Definition to_signed (w : Z) (u : Z) : Z :=
  if u <? 2 ^ (w - 1) then u else u - 2 ^ w.

Definition decode_lsb (bs : list Z) : Z :=
  to_signed (8 * Z.of_nat (length bs)) (le_bits bs).

Definition decode_msb (bs : list Z) : Z := decode_lsb (rev bs).

(** ** ASIO sample types and host data formats *)

(** [ASIOSampleType] is a [long]; [ASIOSTOther] stands for every value
    outside the list, among them the [-1] of the constructor. *)
Inductive ASIOSampleType : Type :=
  | ASIOSTInt16MSB | ASIOSTInt24MSB | ASIOSTInt32MSB
  | ASIOSTFloat32MSB | ASIOSTFloat64MSB
  | ASIOSTInt32MSB16 | ASIOSTInt32MSB18 | ASIOSTInt32MSB20 | ASIOSTInt32MSB24
  | ASIOSTInt16LSB | ASIOSTInt24LSB | ASIOSTInt32LSB
  | ASIOSTFloat32LSB | ASIOSTFloat64LSB
  | ASIOSTInt32LSB16 | ASIOSTInt32LSB18 | ASIOSTInt32LSB20 | ASIOSTInt32LSB24
  | ASIOSTDSDInt8LSB1 | ASIOSTDSDInt8MSB1 | ASIOSTDSDInt8NER8
  | ASIOSTOther.

Inductive AEDataFormat : Type :=
  | AE_FMT_INVALID
  | AE_FMT_U8
  | AE_FMT_S16BE | AE_FMT_S16LE
  | AE_FMT_S32BE | AE_FMT_S32LE
  | AE_FMT_S24BE3 | AE_FMT_S24LE3
  | AE_FMT_DOUBLE | AE_FMT_FLOAT
  | AE_FMT_RAW.

Definition DSD_MIN_SAMPLERATE : Z := 2822400.
Definition DSD_SILENCE_BYTE : Z := 0x69.

Definition GetASIOSampleSizeInBits (sampleType : ASIOSampleType) : Z :=
  match sampleType with
  | ASIOSTDSDInt8MSB1 | ASIOSTDSDInt8LSB1 => 1
  | ASIOSTDSDInt8NER8 => 8
  | ASIOSTInt16MSB | ASIOSTInt16LSB => 16
  | ASIOSTInt24MSB | ASIOSTInt24LSB => 24
  | ASIOSTInt32MSB | ASIOSTInt32MSB16 | ASIOSTInt32MSB18
  | ASIOSTInt32MSB20 | ASIOSTInt32MSB24
  | ASIOSTInt32LSB | ASIOSTInt32LSB16 | ASIOSTInt32LSB18
  | ASIOSTInt32LSB20 | ASIOSTInt32LSB24
  | ASIOSTFloat32MSB | ASIOSTFloat32LSB => 32
  | ASIOSTFloat64MSB | ASIOSTFloat64LSB => 64
  | ASIOSTOther => 0
  end.

Definition GetAEDataFormatForASIOSampleType (sampleType : ASIOSampleType)
  : AEDataFormat :=
  match sampleType with
  | ASIOSTInt16MSB => AE_FMT_S16BE
  | ASIOSTInt24MSB => AE_FMT_S24BE3
  | ASIOSTInt32MSB => AE_FMT_S32BE
  | ASIOSTFloat32MSB => AE_FMT_FLOAT
  | ASIOSTFloat64MSB => AE_FMT_DOUBLE
  | ASIOSTInt32MSB16 | ASIOSTInt32MSB18
  | ASIOSTInt32MSB20 | ASIOSTInt32MSB24 => AE_FMT_S32BE
  | ASIOSTInt16LSB => AE_FMT_S16LE
  | ASIOSTInt24LSB => AE_FMT_S24LE3
  | ASIOSTInt32LSB => AE_FMT_S32LE
  | ASIOSTFloat32LSB => AE_FMT_FLOAT
  | ASIOSTFloat64LSB => AE_FMT_DOUBLE
  | ASIOSTInt32LSB16 | ASIOSTInt32LSB18
  | ASIOSTInt32LSB20 | ASIOSTInt32LSB24 => AE_FMT_S32LE
  | ASIOSTDSDInt8LSB1 | ASIOSTDSDInt8MSB1 => AE_FMT_U8
  | ASIOSTDSDInt8NER8 => AE_FMT_RAW
  | ASIOSTOther => AE_FMT_INVALID
  end.

(** Modelled from the spec: [CAEUtil::DataFormatToBits] (AEUtil.cpp is not
    part of the sources at hand).  The spec's host representations are
    unsigned 8-bit, IEEE float32 and float64, and signed 16/24/32-bit
    integers in either byte order; each has the bit width of its name. *)
Definition DataFormatToBits (dataFormat : AEDataFormat) : Z :=
  match dataFormat with
  | AE_FMT_INVALID => 0
  | AE_FMT_U8 | AE_FMT_RAW => 8
  | AE_FMT_S16BE | AE_FMT_S16LE => 16
  | AE_FMT_S24BE3 | AE_FMT_S24LE3 => 24
  | AE_FMT_S32BE | AE_FMT_S32LE | AE_FMT_FLOAT => 32
  | AE_FMT_DOUBLE => 64
  end.

(** ** IEEE 754 host samples *)

(** The value of a [float] or [double] object. *)
Inductive real_t : Type :=
  | RNaN
  | RInf (negative : bool)
  | RFinite (q : Q).

(** The two instantiations of the template parameter [real_t]. *)
Inductive real_kind : Type := Float | Double.

Definition exponent_bits (k : real_kind) : Z :=
  match k with Float => 8 | Double => 11 end.

Definition mantissa_bits (k : real_kind) : Z :=
  match k with Float => 23 | Double => 52 end.

Definition sizeof_real (k : real_kind) : nat :=
  match k with Float => 4%nat | Double => 8%nat end.

(** Binary exponent above which a product overflows to infinity. *)
Definition emax (k : real_kind) : Z := 2 ^ (exponent_bits k - 1).

Definition pow2 (e : Z) : Q := Qpower (2 # 1) e.

(** The value held by the bit pattern [bits] of an IEEE 754 binary32 or
    binary64 object. *)
Definition decode_real (k : real_kind) (bits : Z) : real_t :=
  let ebits := exponent_bits k in
  let mbits := mantissa_bits k in
  let sign := Z.testbit bits (ebits + mbits) in
  let e := Z.land (Z.shiftr bits mbits) (Z.ones ebits) in
  let m := Z.land bits (Z.ones mbits) in
  let bias := 2 ^ (ebits - 1) - 1 in
  if e =? Z.ones ebits then
    if m =? 0 then RInf sign else RNaN
  else
    let mag :=
      if e =? 0 then (inject_Z m * pow2 (1 - bias - mbits))%Q
      else (inject_Z (2 ^ mbits + m) * pow2 (e - bias - mbits))%Q in
    RFinite (if sign then (- mag)%Q else mag).

(** [*reinterpret_cast<real_t*>(inpPtr)]: the object representation read
    at the pointer. *)
Definition load_bits (k : real_kind) (inp : list Z) : Z :=
  le_bits (take (sizeof_real k) inp).

Definition load_real (k : real_kind) (inp : list Z) : real_t :=
  decode_real k (load_bits k inp).

(** [inp_value * scale] for a [scale] that is a power of two: the product
    is exact, or infinite when it leaves the exponent range of the type. *)
Definition fmul_pow2 (k : real_kind) (x : real_t) (scale : Z) : real_t :=
  match x with
  | RFinite q =>
      let p := (q * inject_Z scale)%Q in
      if Qle_bool (pow2 (emax k)) (Qabs p)
      then RInf (negb (Qle_bool 0 q))
      else RFinite p
  | RInf s => RInf s
  | RNaN => RNaN
  end.

(** Nearest integer, halfway cases away from zero. *)
Definition round_half_away (q : Q) : Z :=
  if Qle_bool 0 q then Qfloor (q + (1 # 2)) else - Qfloor (- q + (1 # 2)).

Definition LLONG_MIN : Z := - 2 ^ 63.
Definition LLONG_MAX : Z := 2 ^ 63 - 1.

(** What the platform leaves open: the result of [std::llround] when the
    rounded value does not fit [long long] (C++ leaves it unspecified), and
    the hardware conversions between binary32 and binary64 bit patterns. *)
Record Platform : Type := {
  llround_unspecified : real_t -> Z;
  float_to_double : Z -> Z;
  double_to_float : Z -> Z
}.

(** [std::numeric_limits<int_t>::min ()] and [max ()] for an [int_t] of
    [size] bytes. *)
Definition int_min (size : Z) : Z := - 2 ^ (Z.shiftl size 3 - 1).
Definition int_max (size : Z) : Z := 2 ^ (Z.shiftl size 3 - 1) - 1.

(** ** The sample converter *)

Section Converter.

Context (P : Platform).

(** [std::llround]: defined when the rounded value fits [long long]. *)
Definition llround (x : real_t) : Z :=
  match x with
  | RFinite q =>
      let r := round_half_away q in
      if (LLONG_MIN <=? r) && (r <=? LLONG_MAX) then r
      else llround_unspecified P x
  | _ => llround_unspecified P x
  end.

(** [ConvertRealToInt<real_t, int_t>], with [sizeof_int_t] the size of
    [int_t] in bytes: 2 for [short], 4 for [int]. *)
Definition ConvertRealToInt (k : real_kind) (sizeof_int_t : Z)
    (inp_value : real_t) : Z :=
  let scale := Z.shiftl 1 (Z.shiftl sizeof_int_t 3 - 1) in
  let min_value := int_min sizeof_int_t in
  let max_value := int_max sizeof_int_t in
  let int_value := llround (fmul_pow2 k inp_value scale) in
  if int_value <? min_value then min_value
  else if int_value <? max_value then int_value
  else max_value.

(** [(float)x] and [(double)x] read back as a bit pattern. *)
Definition cast_bits (from to : real_kind) (bits : Z) : Z :=
  match from, to with
  | Float, Float | Double, Double => bits
  | Float, Double => float_to_double P bits
  | Double, Float => double_to_float P bits
  end.

(** The inner [switch (outType)] of [ConvertSample], shared by the
    [AE_FMT_FLOAT] ([k = Float]) and [AE_FMT_DOUBLE] ([k = Double])
    branches, which differ only in the type read at [inpPtr]. *)
Definition ConvertReal (k : real_kind) (out : list Z)
    (outType : ASIOSampleType) (inp : list Z) : list Z :=
  match outType with
  | ASIOSTInt16MSB =>
      let value := ConvertRealToInt k 2 (load_real k inp) in
      store out (le_bytes 2 (byteswap_ushort (wrap 16 value)))
  | ASIOSTInt16LSB =>
      let value := ConvertRealToInt k 2 (load_real k inp) in
      store out (le_bytes 2 value)
  | ASIOSTInt24MSB =>
      let value := le_bytes 4 (ConvertRealToInt k 4 (load_real k inp)) in
      store out [nth 3 value 0; nth 2 value 0; nth 1 value 0]
  | ASIOSTInt24LSB =>
      let value := le_bytes 4 (ConvertRealToInt k 4 (load_real k inp)) in
      store out [nth 1 value 0; nth 2 value 0; nth 3 value 0]
  | ASIOSTInt32MSB | ASIOSTInt32MSB16 | ASIOSTInt32MSB18
  | ASIOSTInt32MSB20 | ASIOSTInt32MSB24 =>
      let value := ConvertRealToInt k 4 (load_real k inp) in
      store out (le_bytes 4 (byteswap_ulong (wrap 32 value)))
  | ASIOSTInt32LSB | ASIOSTInt32LSB16 | ASIOSTInt32LSB18
  | ASIOSTInt32LSB20 | ASIOSTInt32LSB24 =>
      let value := ConvertRealToInt k 4 (load_real k inp) in
      store out (le_bytes 4 value)
  | ASIOSTFloat32MSB =>
      let value := cast_bits k Float (load_bits k inp) in
      store out (le_bytes 4 (byteswap_ulong (wrap 32 value)))
  | ASIOSTFloat64MSB =>
      let value := cast_bits k Double (load_bits k inp) in
      store out (le_bytes 8 (byteswap_uint64 (wrap 64 value)))
  | ASIOSTFloat32LSB =>
      let value := cast_bits k Float (load_bits k inp) in
      store out (le_bytes 4 value)
  | ASIOSTFloat64LSB =>
      let value := cast_bits k Double (load_bits k inp) in
      store out (le_bytes 8 value)
  | ASIOSTDSDInt8LSB1 | ASIOSTDSDInt8MSB1 | ASIOSTDSDInt8NER8
  | ASIOSTOther => out
  end.

(** [CAESinkASIO::ConvertSample]: the memory at [outPtr] after the
    call, from the memory [out] at [outPtr] before it. *)
Definition ConvertSample (out : list Z) (outType : ASIOSampleType)
    (inp : list Z) (inpType : AEDataFormat) : list Z :=
  match inpType with
  | AE_FMT_U8 => out
  | AE_FMT_FLOAT => ConvertReal Float out outType inp
  | AE_FMT_DOUBLE => ConvertReal Double out outType inp
  | _ => out
  end.

(** The body of the loop of [ConvertSamples] for one [sample]. *)
Definition ConvertSamples_step (outType : ASIOSampleType)
    (outSampleSize : Z) (inp : list Z) (channel channels : Z)
    (inpType : AEDataFormat) (inpSampleSize : Z)
    (sample : Z) (out : list Z) : list Z :=
  let inpSamplePtr :=
    drop (Z.to_nat (u32 (u32 (u32 (sample * channels) + channel)
                         * inpSampleSize))) inp in
  let off := Z.to_nat (u32 (sample * outSampleSize)) in
  take off out ++ ConvertSample (drop off out) outType inpSamplePtr inpType.

(** [CAESinkASIO::ConvertSamples]: [n] more iterations from [sample]. *)
Fixpoint ConvertSamples_from (n : nat) (sample : Z) (out : list Z)
    (outType : ASIOSampleType) (outSampleSize : Z) (inp : list Z)
    (channel channels : Z) (inpType : AEDataFormat) (inpSampleSize : Z)
    : list Z :=
  match n with
  | O => out
  | S n' =>
      ConvertSamples_from n' (sample + 1)
        (ConvertSamples_step outType outSampleSize inp channel channels
           inpType inpSampleSize sample out)
        outType outSampleSize inp channel channels inpType inpSampleSize
  end.

Definition ConvertSamples (out : list Z) (outType : ASIOSampleType)
    (outSampleSize : Z) (inp : list Z) (channel channels : Z)
    (inpType : AEDataFormat) (inpSampleSize : Z) (samples : Z) : list Z :=
  ConvertSamples_from (Z.to_nat samples) 0 out outType outSampleSize inp
    channel channels inpType inpSampleSize.

End Converter.

(** ** Silence *)

(** The byte the [ASIOSTDSDInt8NER8] loop stores at index [sample]. *)
Definition ner8_silence (sample : Z) : Z :=
  Z.land (Z.shiftr DSD_SILENCE_BYTE (7 - sample mod 8)) 1.

Fixpoint ZeroSamples_ner8 (n : nat) (sample : Z) (out : list Z) : list Z :=
  match n with
  | O => out
  | S n' =>
      ZeroSamples_ner8 n' (sample + 1)
        (store_at out (Z.to_nat sample) [ner8_silence sample])
  end.

(** [CAESinkASIO::ZeroSamples]. *)
Definition ZeroSamples (out : list Z) (outType : ASIOSampleType)
    (outSampleSize : Z) (samples : Z) : list Z :=
  match outType with
  | ASIOSTDSDInt8MSB1 | ASIOSTDSDInt8LSB1 =>
      memset out DSD_SILENCE_BYTE samples
  | ASIOSTDSDInt8NER8 =>
      ZeroSamples_ner8 (Z.to_nat samples) 0 out
  | _ =>
      memset out 0 (u32 (samples * outSampleSize))
  end.

(** ** The staging queue *)

(** Modelled from the spec: the class [AERingBuffer] (AERingBuffer.h is
    not part of the sources at hand).  The spec describes it as a bounded
    byte queue per plane, with a capacity fixed at construction, where
    [write] beyond the space available truncates to that space, [read] of
    more than is available is a precondition violation, and
    [availableToRead] may be asked of any plane.  The sink calls [Write]
    once per plane, in plane order, without naming the plane: the queue
    takes the writes of a round for its planes in turn ([cursor]). *)
Record AERingBuffer : Type := {
  capacity : Z;
  planes : list (list Z);
  cursor : nat
}.

Definition Create (size : Z) (nplanes : Z) : AERingBuffer :=
  {| capacity := size;
     planes := replicate (Z.to_nat nplanes) [];
     cursor := 0 |}.

Definition NumPlanes (q : AERingBuffer) : Z := Z.of_nat (length (planes q)).

Definition GetMaxSize (q : AERingBuffer) : Z := capacity q.

Definition plane_bytes (q : AERingBuffer) (plane : nat) : list Z :=
  default [] (planes q !! plane).

Definition availableToRead (q : AERingBuffer) (plane : nat) : Z :=
  Z.of_nat (length (plane_bytes q plane)).

Definition availableToWrite (q : AERingBuffer) (plane : nat) : Z :=
  capacity q - availableToRead q plane.

Definition GetReadSize (q : AERingBuffer) : Z := availableToRead q 0.

Definition GetWriteSize (q : AERingBuffer) : Z := availableToWrite q 0.

(** [Write (src, size)]: the first [size] bytes at [src], cut to the space
    left, join the plane under the cursor; the cursor moves on. *)
Definition Write (q : AERingBuffer) (src : list Z) (size : Z) : AERingBuffer :=
  let plane := cursor q in
  let space := availableToWrite q plane in
  let bytes := take (Z.to_nat (Z.min size space)) (take (Z.to_nat size) src) in
  {| capacity := capacity q;
     planes := <[plane := plane_bytes q plane ++ bytes]> (planes q);
     cursor := (S plane) mod (length (planes q)) |}.

(** [Read (dest, size, plane)]: the oldest [size] bytes of the plane leave
    the queue; [None] when the precondition fails. *)
Definition Read (q : AERingBuffer) (size : Z) (plane : nat)
  : option (list Z * AERingBuffer) :=
  if (size <=? availableToRead q plane) && (Z.of_nat plane <? NumPlanes q) then
    Some (take (Z.to_nat size) (plane_bytes q plane),
          {| capacity := capacity q;
             planes := <[plane := drop (Z.to_nat size) (plane_bytes q plane)]>
                         (planes q);
             cursor := cursor q |})
  else None.

(** ** The sink *)

Module AEAudioFormat.
(** The fields of [AEAudioFormat] the sink uses; [m_channelLayout] is
    represented by its [Count ()]. *)
Record t : Type := {
  m_dataFormat : AEDataFormat;
  m_sampleRate : Z;
  m_channelLayout : Z;
  m_frames : Z;
  m_frameSize : Z
}.
End AEAudioFormat.

(** One of the two halves of a driver buffer. *)
Record ASIOBufferInfo : Type := {
  isInput : bool;
  channelNum : Z;
  buffers : list Z * list Z
}.

Definition half (doubleBufferIndex : bool) (b : list Z * list Z) : list Z :=
  if doubleBufferIndex then snd b else fst b.

Definition set_half (doubleBufferIndex : bool) (b : list Z * list Z)
    (mem : list Z) : list Z * list Z :=
  if doubleBufferIndex then (fst b, mem) else (mem, snd b).

(** The state of a [CAESinkASIO], with the static [s_this] as the flag
    that it points to this sink and [m_iasio] as the flag that a driver is
    loaded. *)
Record CAESinkASIO : Type := {
  s_this : bool;
  m_iasio : bool;
  m_format : AEAudioFormat.t;
  m_planeCount : Z;
  m_planeBuffer : AERingBuffer;
  m_planePad : list Z;
  m_sampleType : ASIOSampleType;
  m_sampleSize : Z;
  m_bufferSize : Z;
  m_bufferInfos : list ASIOBufferInfo;
  m_frameSize : Z;
  m_frameCount : Z;
  m_planeBytesPerSec : Z;
  m_initialized : bool;
  m_running : bool
}.

Definition null_format : AEAudioFormat.t :=
  {| AEAudioFormat.m_dataFormat := AE_FMT_INVALID;
     AEAudioFormat.m_sampleRate := 0;
     AEAudioFormat.m_channelLayout := 0;
     AEAudioFormat.m_frames := 0;
     AEAudioFormat.m_frameSize := 0 |}.

(** The constructor. *)
Definition new_sink : CAESinkASIO :=
  {| s_this := false;
     m_iasio := false;
     m_format := null_format;
     m_planeCount := 0;
     m_planeBuffer := {| capacity := 0; planes := []; cursor := 0 |};
     m_planePad := [];
     m_sampleType := ASIOSTOther;
     m_sampleSize := 0;
     m_bufferSize := 0;
     m_bufferInfos := [];
     m_frameSize := 0;
     m_frameCount := 0;
     m_planeBytesPerSec := 0;
     m_initialized := false;
     m_running := false |}.

(** What the driver and the system answer during one [Initialize].
    [createBuffers numChannels bufferSize] answers with the two buffer
    halves the driver allocates for each channel, which the call stores
    in the [buffers] of the caller's array. *)
Record Driver : Type := {
  CoInitialize : bool;
  Load : bool;
  future : bool;
  canSampleRate : Z -> bool;
  setSampleRate : Z -> bool;
  getChannels : option (Z * Z);
  getBufferSize : option (Z * Z * Z * Z);
  getChannelInfo : option ASIOSampleType;
  createBuffers : Z -> Z -> option (nat -> list Z * list Z);
  allocate : bool;
  start : bool
}.

Definition null_info : ASIOBufferInfo :=
  {| isInput := false; channelNum := 0; buffers := ([], []) |}.

(** [m_bufferInfos.resize (m_planeCount)] followed by the loop that marks
    every plane as an output channel. *)
Definition prepare_infos (infos : list ASIOBufferInfo) (planeCount : Z)
  : list ASIOBufferInfo :=
  let n := Z.to_nat planeCount in
  imap (fun plane info =>
          {| isInput := false;
             channelNum := Z.of_nat plane;
             buffers := buffers info |})
       (take n infos ++ replicate (n - length infos) null_info).

(** The driver's buffer halves stored into the array passed to
    [createBuffers]. *)
Definition attach_buffers (allocated : nat -> list Z * list Z)
    (infos : list ASIOBufferInfo) : list ASIOBufferInfo :=
  imap (fun plane info =>
          {| isInput := isInput info;
             channelNum := channelNum info;
             buffers := allocated plane |}) infos.

(** Assignments to single members. *)
Definition set_s_this (v : bool) (s : CAESinkASIO) : CAESinkASIO :=
  {| s_this := v; m_iasio := m_iasio s; m_format := m_format s;
     m_planeCount := m_planeCount s; m_planeBuffer := m_planeBuffer s;
     m_planePad := m_planePad s; m_sampleType := m_sampleType s;
     m_sampleSize := m_sampleSize s; m_bufferSize := m_bufferSize s;
     m_bufferInfos := m_bufferInfos s; m_frameSize := m_frameSize s;
     m_frameCount := m_frameCount s;
     m_planeBytesPerSec := m_planeBytesPerSec s;
     m_initialized := m_initialized s; m_running := m_running s |}.

Definition set_m_iasio (v : bool) (s : CAESinkASIO) : CAESinkASIO :=
  {| s_this := s_this s; m_iasio := v; m_format := m_format s;
     m_planeCount := m_planeCount s; m_planeBuffer := m_planeBuffer s;
     m_planePad := m_planePad s; m_sampleType := m_sampleType s;
     m_sampleSize := m_sampleSize s; m_bufferSize := m_bufferSize s;
     m_bufferInfos := m_bufferInfos s; m_frameSize := m_frameSize s;
     m_frameCount := m_frameCount s;
     m_planeBytesPerSec := m_planeBytesPerSec s;
     m_initialized := m_initialized s; m_running := m_running s |}.

Definition set_m_format (v : AEAudioFormat.t) (s : CAESinkASIO) : CAESinkASIO :=
  {| s_this := s_this s; m_iasio := m_iasio s; m_format := v;
     m_planeCount := m_planeCount s; m_planeBuffer := m_planeBuffer s;
     m_planePad := m_planePad s; m_sampleType := m_sampleType s;
     m_sampleSize := m_sampleSize s; m_bufferSize := m_bufferSize s;
     m_bufferInfos := m_bufferInfos s; m_frameSize := m_frameSize s;
     m_frameCount := m_frameCount s;
     m_planeBytesPerSec := m_planeBytesPerSec s;
     m_initialized := m_initialized s; m_running := m_running s |}.

Definition set_m_planeCount (v : Z) (s : CAESinkASIO) : CAESinkASIO :=
  {| s_this := s_this s; m_iasio := m_iasio s; m_format := m_format s;
     m_planeCount := v; m_planeBuffer := m_planeBuffer s;
     m_planePad := m_planePad s; m_sampleType := m_sampleType s;
     m_sampleSize := m_sampleSize s; m_bufferSize := m_bufferSize s;
     m_bufferInfos := m_bufferInfos s; m_frameSize := m_frameSize s;
     m_frameCount := m_frameCount s;
     m_planeBytesPerSec := m_planeBytesPerSec s;
     m_initialized := m_initialized s; m_running := m_running s |}.

Definition set_m_planeBuffer (v : AERingBuffer) (s : CAESinkASIO) : CAESinkASIO :=
  {| s_this := s_this s; m_iasio := m_iasio s; m_format := m_format s;
     m_planeCount := m_planeCount s; m_planeBuffer := v;
     m_planePad := m_planePad s; m_sampleType := m_sampleType s;
     m_sampleSize := m_sampleSize s; m_bufferSize := m_bufferSize s;
     m_bufferInfos := m_bufferInfos s; m_frameSize := m_frameSize s;
     m_frameCount := m_frameCount s;
     m_planeBytesPerSec := m_planeBytesPerSec s;
     m_initialized := m_initialized s; m_running := m_running s |}.

Definition set_m_planePad (v : list Z) (s : CAESinkASIO) : CAESinkASIO :=
  {| s_this := s_this s; m_iasio := m_iasio s; m_format := m_format s;
     m_planeCount := m_planeCount s; m_planeBuffer := m_planeBuffer s;
     m_planePad := v; m_sampleType := m_sampleType s;
     m_sampleSize := m_sampleSize s; m_bufferSize := m_bufferSize s;
     m_bufferInfos := m_bufferInfos s; m_frameSize := m_frameSize s;
     m_frameCount := m_frameCount s;
     m_planeBytesPerSec := m_planeBytesPerSec s;
     m_initialized := m_initialized s; m_running := m_running s |}.

Definition set_m_sampleType (v : ASIOSampleType) (s : CAESinkASIO) : CAESinkASIO :=
  {| s_this := s_this s; m_iasio := m_iasio s; m_format := m_format s;
     m_planeCount := m_planeCount s; m_planeBuffer := m_planeBuffer s;
     m_planePad := m_planePad s; m_sampleType := v;
     m_sampleSize := m_sampleSize s; m_bufferSize := m_bufferSize s;
     m_bufferInfos := m_bufferInfos s; m_frameSize := m_frameSize s;
     m_frameCount := m_frameCount s;
     m_planeBytesPerSec := m_planeBytesPerSec s;
     m_initialized := m_initialized s; m_running := m_running s |}.

Definition set_m_sampleSize (v : Z) (s : CAESinkASIO) : CAESinkASIO :=
  {| s_this := s_this s; m_iasio := m_iasio s; m_format := m_format s;
     m_planeCount := m_planeCount s; m_planeBuffer := m_planeBuffer s;
     m_planePad := m_planePad s; m_sampleType := m_sampleType s;
     m_sampleSize := v; m_bufferSize := m_bufferSize s;
     m_bufferInfos := m_bufferInfos s; m_frameSize := m_frameSize s;
     m_frameCount := m_frameCount s;
     m_planeBytesPerSec := m_planeBytesPerSec s;
     m_initialized := m_initialized s; m_running := m_running s |}.

Definition set_m_bufferSize (v : Z) (s : CAESinkASIO) : CAESinkASIO :=
  {| s_this := s_this s; m_iasio := m_iasio s; m_format := m_format s;
     m_planeCount := m_planeCount s; m_planeBuffer := m_planeBuffer s;
     m_planePad := m_planePad s; m_sampleType := m_sampleType s;
     m_sampleSize := m_sampleSize s; m_bufferSize := v;
     m_bufferInfos := m_bufferInfos s; m_frameSize := m_frameSize s;
     m_frameCount := m_frameCount s;
     m_planeBytesPerSec := m_planeBytesPerSec s;
     m_initialized := m_initialized s; m_running := m_running s |}.

Definition set_m_bufferInfos (v : list ASIOBufferInfo) (s : CAESinkASIO)
  : CAESinkASIO :=
  {| s_this := s_this s; m_iasio := m_iasio s; m_format := m_format s;
     m_planeCount := m_planeCount s; m_planeBuffer := m_planeBuffer s;
     m_planePad := m_planePad s; m_sampleType := m_sampleType s;
     m_sampleSize := m_sampleSize s; m_bufferSize := m_bufferSize s;
     m_bufferInfos := v; m_frameSize := m_frameSize s;
     m_frameCount := m_frameCount s;
     m_planeBytesPerSec := m_planeBytesPerSec s;
     m_initialized := m_initialized s; m_running := m_running s |}.

Definition set_m_frameSize (v : Z) (s : CAESinkASIO) : CAESinkASIO :=
  {| s_this := s_this s; m_iasio := m_iasio s; m_format := m_format s;
     m_planeCount := m_planeCount s; m_planeBuffer := m_planeBuffer s;
     m_planePad := m_planePad s; m_sampleType := m_sampleType s;
     m_sampleSize := m_sampleSize s; m_bufferSize := m_bufferSize s;
     m_bufferInfos := m_bufferInfos s; m_frameSize := v;
     m_frameCount := m_frameCount s;
     m_planeBytesPerSec := m_planeBytesPerSec s;
     m_initialized := m_initialized s; m_running := m_running s |}.

Definition set_m_frameCount (v : Z) (s : CAESinkASIO) : CAESinkASIO :=
  {| s_this := s_this s; m_iasio := m_iasio s; m_format := m_format s;
     m_planeCount := m_planeCount s; m_planeBuffer := m_planeBuffer s;
     m_planePad := m_planePad s; m_sampleType := m_sampleType s;
     m_sampleSize := m_sampleSize s; m_bufferSize := m_bufferSize s;
     m_bufferInfos := m_bufferInfos s; m_frameSize := m_frameSize s;
     m_frameCount := v;
     m_planeBytesPerSec := m_planeBytesPerSec s;
     m_initialized := m_initialized s; m_running := m_running s |}.

Definition set_m_planeBytesPerSec (v : Z) (s : CAESinkASIO) : CAESinkASIO :=
  {| s_this := s_this s; m_iasio := m_iasio s; m_format := m_format s;
     m_planeCount := m_planeCount s; m_planeBuffer := m_planeBuffer s;
     m_planePad := m_planePad s; m_sampleType := m_sampleType s;
     m_sampleSize := m_sampleSize s; m_bufferSize := m_bufferSize s;
     m_bufferInfos := m_bufferInfos s; m_frameSize := m_frameSize s;
     m_frameCount := m_frameCount s;
     m_planeBytesPerSec := v;
     m_initialized := m_initialized s; m_running := m_running s |}.

Definition set_m_initialized (v : bool) (s : CAESinkASIO) : CAESinkASIO :=
  {| s_this := s_this s; m_iasio := m_iasio s; m_format := m_format s;
     m_planeCount := m_planeCount s; m_planeBuffer := m_planeBuffer s;
     m_planePad := m_planePad s; m_sampleType := m_sampleType s;
     m_sampleSize := m_sampleSize s; m_bufferSize := m_bufferSize s;
     m_bufferInfos := m_bufferInfos s; m_frameSize := m_frameSize s;
     m_frameCount := m_frameCount s;
     m_planeBytesPerSec := m_planeBytesPerSec s;
     m_initialized := v; m_running := m_running s |}.

Definition set_m_running (v : bool) (s : CAESinkASIO) : CAESinkASIO :=
  {| s_this := s_this s; m_iasio := m_iasio s; m_format := m_format s;
     m_planeCount := m_planeCount s; m_planeBuffer := m_planeBuffer s;
     m_planePad := m_planePad s; m_sampleType := m_sampleType s;
     m_sampleSize := m_sampleSize s; m_bufferSize := m_bufferSize s;
     m_bufferInfos := m_bufferInfos s; m_frameSize := m_frameSize s;
     m_frameCount := m_frameCount s;
     m_planeBytesPerSec := m_planeBytesPerSec s;
     m_initialized := m_initialized s; m_running := v |}.

Definition set_geometry (frameSize frames : Z) (format : AEAudioFormat.t)
  : AEAudioFormat.t :=
  {| AEAudioFormat.m_dataFormat := AEAudioFormat.m_dataFormat format;
     AEAudioFormat.m_sampleRate := AEAudioFormat.m_sampleRate format;
     AEAudioFormat.m_channelLayout := AEAudioFormat.m_channelLayout format;
     AEAudioFormat.m_frames := frames;
     AEAudioFormat.m_frameSize := frameSize |}.

(** [CAESinkASIO::Initialize]: the result, the sink after the call and the
    caller's [format], which is passed by reference. *)
Definition Initialize (s : CAESinkASIO) (drv : Driver)
    (format : AEAudioFormat.t) : bool * CAESinkASIO * AEAudioFormat.t :=
  let rate := AEAudioFormat.m_sampleRate format in
  if m_initialized s then (false, s, format) else
  if negb (CoInitialize drv) then (false, s, format) else
  let s := set_m_iasio (Load drv) s in
  if negb (m_iasio s) then (false, s, format) else
  if (DSD_MIN_SAMPLERATE <=? rate) && negb (future drv)
  then (false, s, format) else
  if negb (canSampleRate drv rate) then (false, s, format) else
  if negb (setSampleRate drv rate) then (false, s, format) else
  match getChannels drv with
  | None => (false, s, format)
  | Some (numInputChannels, numOutputChannels) =>
  let s := set_m_planeCount (u32 numOutputChannels) s in
  match getBufferSize drv with
  | None => (false, s, format)
  | Some (minSize, maxSize, preferredSize, granularity) =>
  let s := set_m_bufferSize (u32 preferredSize) s in
  match getChannelInfo drv with
  | None => (false, s, format)
  | Some type =>
  let s := set_m_sampleType type s in
  let s :=
    set_m_sampleSize ((GetASIOSampleSizeInBits (m_sampleType s) + 7) / 8) s in
  let s := set_s_this true s in
  let s :=
    set_m_bufferInfos (prepare_infos (m_bufferInfos s) (m_planeCount s)) s in
  match createBuffers drv (m_planeCount s) (m_bufferSize s) with
  | None => (false, s, format)
  | Some allocated =>
  let s := set_m_bufferInfos (attach_buffers allocated (m_bufferInfos s)) s in
  let s :=
    set_m_frameSize
      (u32 (AEAudioFormat.m_channelLayout format
            * (DataFormatToBits (AEAudioFormat.m_dataFormat format) / 8))) s in
  let s :=
    set_m_frameCount
      (rate / (if DSD_MIN_SAMPLERATE <=? rate then 8 else 1) / 75) s in
  let format := set_geometry (m_frameSize s) (m_frameCount s) format in
  let s :=
    set_m_planeBytesPerSec
      (u32 (rate * GetASIOSampleSizeInBits (m_sampleType s))) s in
  let frameBytes := m_planeBytesPerSec s / 75 in
  if negb (allocate drv) then (false, s, format) else
  let s :=
    set_m_planeBuffer
      (Create (u32 (u32 (frameBytes * 3) * 75)) (m_planeCount s)) s in
  let s := set_m_format format s in
  let s := set_m_initialized true s in
  if negb (start drv) then (false, s, format) else
  let s := set_m_running true s in
  (true, s, format)
  end end end end.

Section Streaming.

Context (P : Platform).

(** The first loop of [AddPackets]: plane [plane] is converted into the
    pad and the pad is written to the queue. *)
Definition AddPackets_convert (s : CAESinkASIO) (dataPtr : list Z)
    (frameChannels framesToConsume : Z)
    (acc : list Z * AERingBuffer) (plane : nat) : list Z * AERingBuffer :=
  let pad :=
    ConvertSamples P (fst acc) (m_sampleType s) (m_sampleSize s) dataPtr
      (Z.of_nat plane) frameChannels
      (AEAudioFormat.m_dataFormat (m_format s))
      (m_frameSize s / frameChannels) framesToConsume in
  (pad, Write (snd acc) pad (u32 (framesToConsume * m_sampleSize s))).

(** [CAESinkASIO::AddPackets], with [data] the memory at [data[0]].
    [None] stands for the division by a zero [m_sampleSize]. *)
Definition AddPackets (s : CAESinkASIO) (data : list Z)
    (frames offset : Z) : option (Z * CAESinkASIO) :=
  if negb (m_initialized s) then Some (0, s) else
  let q := m_planeBuffer s in
  let dataPtr :=
    drop (Z.to_nat (u32 (u32 offset
                         * AEAudioFormat.m_frameSize (m_format s)))) data in
  let frameChannels := AEAudioFormat.m_channelLayout (m_format s) in
  let planesToConsume := Z.min (NumPlanes q) frameChannels in
  if m_sampleSize s =? 0 then None else
  let framesToConsume :=
    Z.min (u32 frames) (GetWriteSize q / m_sampleSize s) in
  let size := u32 (framesToConsume * m_sampleSize s) in
  let pad := resize (m_planePad s) size in
  let converted :=
    foldl (AddPackets_convert s dataPtr frameChannels framesToConsume)
      (pad, q) (seq 0 (Z.to_nat planesToConsume)) in
  let padded :=
    if planesToConsume <? NumPlanes q then
      let pad :=
        ZeroSamples (fst converted) (m_sampleType s) (m_sampleSize s)
          framesToConsume in
      (pad,
       foldl (fun q' (plane : nat) => Write q' pad size) (snd converted)
         (seq (Z.to_nat planesToConsume)
            (Z.to_nat (NumPlanes q) - Z.to_nat planesToConsume)))
    else converted in
  Some (framesToConsume,
        set_m_planeBuffer (snd padded) (set_m_planePad (fst padded) s)).

End Streaming.

(** The buffers of a plane after [f] has rewritten the memory of the half
    [doubleBufferIndex]. *)
Definition update_half (doubleBufferIndex : bool) (f : list Z -> list Z)
    (info : ASIOBufferInfo) : ASIOBufferInfo :=
  {| isInput := isInput info;
     channelNum := channelNum info;
     buffers := set_half doubleBufferIndex (buffers info)
                  (f (half doubleBufferIndex (buffers info))) |}.

(** A write through [m_bufferInfos[plane].buffers[doubleBufferIndex]]. *)
Definition write_half (doubleBufferIndex : bool) (f : list Z -> list Z)
    (plane : nat) (infos : list ASIOBufferInfo) : list ASIOBufferInfo :=
  alter (update_half doubleBufferIndex f) plane infos.

(** The body of the reading loop of [bufferSwitch]. *)
Definition bufferSwitch_read (doubleBufferIndex : bool) (size : Z)
    (s : CAESinkASIO) (plane : nat) : CAESinkASIO :=
  match Read (m_planeBuffer s) size plane with
  | Some (bytes, q) =>
      set_m_planeBuffer q
        (set_m_bufferInfos
           (write_half doubleBufferIndex (fun dest => store dest bytes)
              plane (m_bufferInfos s)) s)
  | None => s
  end.

(** The body of the silence loop of [bufferSwitch]. *)
Definition bufferSwitch_zero (doubleBufferIndex : bool)
    (s : CAESinkASIO) (plane : nat) : CAESinkASIO :=
  set_m_bufferInfos
    (write_half doubleBufferIndex
       (fun dest =>
          ZeroSamples dest (m_sampleType s) (m_sampleSize s) (m_bufferSize s))
       plane (m_bufferInfos s)) s.

(** [CAESinkASIO::bufferSwitch]; [doubleBufferIndex] is 0 ([false]) or 1
    ([true]). *)
Definition bufferSwitch (s : CAESinkASIO) (doubleBufferIndex : bool)
  : CAESinkASIO :=
  let planeList := seq 0 (Z.to_nat (m_planeCount s)) in
  if u32 (m_bufferSize s * m_sampleSize s) <=? GetReadSize (m_planeBuffer s)
  then
    foldl (bufferSwitch_read doubleBufferIndex
             (u32 (m_bufferSize s * m_sampleSize s))) s planeList
  else
    foldl (bufferSwitch_zero doubleBufferIndex) s planeList.

(** The [double] quotient of two unsigned counters: the exact rational for
    a non-zero divisor (the [double] is that number correctly rounded),
    and infinity or not-a-number for a zero divisor. *)
Definition seconds (bytes bytesPerSec : Z) : real_t :=
  if bytesPerSec =? 0 then
    if bytes =? 0 then RNaN else RInf false
  else RFinite (inject_Z bytes / inject_Z bytesPerSec)%Q.

(** [CAESinkASIO::GetDelay]: the argument of [status.SetDelay]. *)
Definition GetDelay (s : CAESinkASIO) : real_t :=
  if negb (m_initialized s) then RFinite 0
  else seconds (GetReadSize (m_planeBuffer s)) (m_planeBytesPerSec s).

(** [CAESinkASIO::GetCacheTotal]. *)
Definition GetCacheTotal (s : CAESinkASIO) : real_t :=
  seconds (GetMaxSize (m_planeBuffer s)) (m_planeBytesPerSec s).

(** ** Sessions *)

(** The two operations of steady state: the producer's [AddPackets] and
    the driver's callback. *)
Inductive operation : Type :=
  | OpAddPackets (data : list Z) (frames offset : Z)
  | OpBufferSwitch (doubleBufferIndex : bool).

Definition step (P : Platform) (s : CAESinkASIO) (op : operation)
  : option CAESinkASIO :=
  match op with
  | OpAddPackets data frames offset =>
      snd <$> AddPackets P s data frames offset
  | OpBufferSwitch doubleBufferIndex => Some (bufferSwitch s doubleBufferIndex)
  end.

Fixpoint run (P : Platform) (s : CAESinkASIO) (ops : list operation)
  : option CAESinkASIO :=
  match ops with
  | [] => Some s
  | op :: ops' =>
      match step P s op with
      | Some s' => run P s' ops'
      | None => None
      end
  end.

(** ** Sample platform, driver and formats used to evaluate the model *)

(** A platform whose [llround] answers [LLONG_MIN] when the rounded value
    does not fit, and whose float conversions are left at zero. *)
Definition sample_platform : Platform :=
  {| llround_unspecified := fun _ => LLONG_MIN;
     float_to_double := fun _ => 0;
     double_to_float := fun _ => 0 |}.

(** A driver that accepts every rate, has [outputs] output channels of
    type [type], prefers buffers of [preferred] samples and hands out
    zeroed buffer halves of [preferred] samples each. *)
Definition sample_driver (outputs preferred : Z) (type : ASIOSampleType)
  : Driver :=
  {| CoInitialize := true;
     Load := true;
     future := true;
     canSampleRate := fun _ => true;
     setSampleRate := fun _ => true;
     getChannels := Some (0, outputs);
     getBufferSize := Some (preferred, preferred, preferred, 0);
     getChannelInfo := Some type;
     createBuffers := fun numChannels bufferSize =>
       let bytes :=
         Z.to_nat (bufferSize * ((GetASIOSampleSizeInBits type + 7) / 8)) in
       Some (fun _ => (replicate bytes 0, replicate bytes 0));
     allocate := true;
     start := true |}.

Definition stereo_float_48k : AEAudioFormat.t :=
  {| AEAudioFormat.m_dataFormat := AE_FMT_FLOAT;
     AEAudioFormat.m_sampleRate := 48000;
     AEAudioFormat.m_channelLayout := 2;
     AEAudioFormat.m_frames := 0;
     AEAudioFormat.m_frameSize := 0 |}.

(** ** Vocabulary of the properties *)

(** The silence of [n] bytes for a native type. *)
Definition silence (outType : ASIOSampleType) (n : Z) : list Z :=
  match outType with
  | ASIOSTDSDInt8MSB1 | ASIOSTDSDInt8LSB1 =>
      replicate (Z.to_nat n) DSD_SILENCE_BYTE
  | ASIOSTDSDInt8NER8 => ner8_silence <$> seqZ 0 n
  | _ => replicate (Z.to_nat n) 0
  end.

(** Native types whose samples are stored most-significant byte first. *)
Definition is_msb (t : ASIOSampleType) : bool :=
  match t with
  | ASIOSTInt16MSB | ASIOSTInt24MSB | ASIOSTInt32MSB
  | ASIOSTFloat32MSB | ASIOSTFloat64MSB
  | ASIOSTInt32MSB16 | ASIOSTInt32MSB18 | ASIOSTInt32MSB20
  | ASIOSTInt32MSB24 => true
  | _ => false
  end.

(** The 16-bit and 32-bit signed integer native types. *)
Definition is_int16_or_int32 (t : ASIOSampleType) : bool :=
  match t with
  | ASIOSTInt16MSB | ASIOSTInt16LSB
  | ASIOSTInt32MSB | ASIOSTInt32MSB16 | ASIOSTInt32MSB18
  | ASIOSTInt32MSB20 | ASIOSTInt32MSB24
  | ASIOSTInt32LSB | ASIOSTInt32LSB16 | ASIOSTInt32LSB18
  | ASIOSTInt32LSB20 | ASIOSTInt32LSB24 => true
  | _ => false
  end.

(** The 24-bit signed integer native types. *)
Definition is_int24 (t : ASIOSampleType) : bool :=
  match t with
  | ASIOSTInt24MSB | ASIOSTInt24LSB => true
  | _ => false
  end.

(** The floating-point host formats and the C++ type read for each. *)
Definition host_real (inpType : AEDataFormat) : option real_kind :=
  match inpType with
  | AE_FMT_FLOAT => Some Float
  | AE_FMT_DOUBLE => Some Double
  | _ => None
  end.

(** The signed integer a driver reads from the bytes of a native sample. *)
Definition decode_native (t : ASIOSampleType) (bs : list Z) : Z :=
  if is_msb t then decode_msb bs else decode_lsb bs.

(** [r] is the integer nearest to [y], the halfway cases going away from
    zero. *)
Definition nearest_ties_away (y : Q) (r : Z) : Prop :=
  (Qabs (inject_Z r - y) <= 1 # 2)%Q /\
  (Qabs (inject_Z r - y) == 1 # 2 -> Qabs y < Qabs (inject_Z r))%Q.

(** Saturation to the signed range of [bits] bits. *)
Definition clamp (bits : Z) (r : Z) : Z :=
  Z.max (- 2 ^ (bits - 1)) (Z.min (2 ^ (bits - 1) - 1) r).

(** The scaled sample rounds to a value [std::llround] can return. *)
Definition llround_specified (y : Q) : Prop :=
  LLONG_MIN <= round_half_away y <= LLONG_MAX.

(** All planes of the queue hold the same number of readable bytes. *)
Definition level (q : AERingBuffer) : bool :=
  forallb (fun bytes => Z.of_nat (length bytes) =? GetReadSize q) (planes q).

(** A session as [Initialize] leaves it for a listed native type, and as
    the streaming operations keep it: the queue has one plane per output
    channel, no round of writes is open, the planes are level and within
    the capacity, and the sample size is that of the native type. *)
Definition session_ok (s : CAESinkASIO) : bool :=
  m_initialized s
  && (NumPlanes (m_planeBuffer s) =? m_planeCount s)
  && (Z.of_nat (length (m_bufferInfos s)) =? m_planeCount s)
  && (cursor (m_planeBuffer s) =? 0)%nat
  && level (m_planeBuffer s)
  && (GetReadSize (m_planeBuffer s) <=? capacity (m_planeBuffer s))
  && (capacity (m_planeBuffer s) <? 2 ^ 32)
  && (m_sampleSize s =? (GetASIOSampleSizeInBits (m_sampleType s) + 7) / 8)
  && (0 <? m_sampleSize s)
  && (0 <=? m_bufferSize s) && (m_bufferSize s <? 2 ^ 32).

(** The buffer half [doubleBufferIndex] of plane [plane]. *)
Definition buffer_half (s : CAESinkASIO) (doubleBufferIndex : bool)
    (plane : nat) : list Z :=
  half doubleBufferIndex
    (buffers (default null_info (m_bufferInfos s !! plane))).

(** Every buffer half [doubleBufferIndex] has the size of one callback. *)
Definition halves_sized (s : CAESinkASIO) (doubleBufferIndex : bool) : bool :=
  forallb (fun info =>
             Z.of_nat (length (half doubleBufferIndex (buffers info)))
             =? u32 (m_bufferSize s * m_sampleSize s))
          (m_bufferInfos s).

(** The bytes one [AddPackets] call that consumed [framesToConsume]
    frames from [dataPtr] appends to plane [plane]: a pad of converted
    samples of channel [plane] when the host format has such a channel,
    silence otherwise. *)
Definition plane_chunk (P : Platform) (s : CAESinkASIO) (dataPtr : list Z)
    (framesToConsume : Z) (plane : nat) (bytes : list Z) : Prop :=
  let frameChannels := AEAudioFormat.m_channelLayout (m_format s) in
  Z.of_nat (length bytes) = framesToConsume * m_sampleSize s /\
  if Z.of_nat plane <? frameChannels then
    exists pad : list Z,
      length pad = length bytes /\
      bytes = ConvertSamples P pad (m_sampleType s) (m_sampleSize s) dataPtr
                (Z.of_nat plane) frameChannels
                (AEAudioFormat.m_dataFormat (m_format s))
                (m_frameSize s / frameChannels) framesToConsume
  else bytes = silence (m_sampleType s) (framesToConsume * m_sampleSize s).

(** The queue [q] part-way through the round of writes one [AddPackets]
    call makes to the queue [q0]: the first [i] planes took their chunk,
    the others are as in [q0]. *)
Definition round_written (P : Platform) (s : CAESinkASIO) (dataPtr : list Z)
    (framesToConsume : Z) (q0 q : AERingBuffer) (i : nat) : Prop :=
  capacity q = capacity q0 /\
  length (planes q) = length (planes q0) /\
  cursor q = (i mod length (planes q0))%nat /\
  forall plane : nat, (plane < length (planes q0))%nat ->
    if (plane <? i)%nat then
      exists bytes : list Z,
        plane_bytes q plane = plane_bytes q0 plane ++ bytes /\
        plane_chunk P s dataPtr framesToConsume plane bytes
    else plane_bytes q plane = plane_bytes q0 plane.

(** The session fields the negotiation is to leave alone on failure. *)
Definition session_fields (s : CAESinkASIO)
  : Z * Z * ASIOSampleType * Z * (Z * Z) * bool * AERingBuffer :=
  (m_planeCount s, m_bufferSize s, m_sampleType s, m_sampleSize s,
   (m_frameSize s, m_frameCount s), s_this s, m_planeBuffer s).

(** The failures of the negotiation the spec lists, each with the earlier
    steps having succeeded. *)
Inductive failure : Type :=
  | RateUnsupported
  | ChannelQueryFailed
  | BufferSizeQueryFailed
  | ChannelInfoQueryFailed
  | QueueAllocationFailed.

Definition reaches_rate_check (drv : Driver) (format : AEAudioFormat.t) : bool :=
  CoInitialize drv && Load drv
  && negb ((DSD_MIN_SAMPLERATE <=? AEAudioFormat.m_sampleRate format)
           && negb (future drv)).

Definition fails_with (drv : Driver) (format : AEAudioFormat.t)
  : option failure :=
  let rate := AEAudioFormat.m_sampleRate format in
  if negb (reaches_rate_check drv format) then None else
  if negb (canSampleRate drv rate && setSampleRate drv rate)
  then Some RateUnsupported else
  match getChannels drv with
  | None => Some ChannelQueryFailed
  | Some (_, numOutputChannels) =>
  match getBufferSize drv with
  | None => Some BufferSizeQueryFailed
  | Some (_, _, preferredSize, _) =>
  match getChannelInfo drv with
  | None => Some ChannelInfoQueryFailed
  | Some _ =>
  match createBuffers drv (u32 numOutputChannels) (u32 preferredSize) with
  | None => None
  | Some _ => if allocate drv then None else Some QueueAllocationFailed
  end end end end.

(** ** Sample inputs *)

(** The [float] 0.5. *)
Definition half_float : list Z := [0; 0; 0; 0x3F].

(** The [double] 0x12345678 / 2^31. *)
Definition distinct_bytes_double : list Z :=
  [0; 0; 0; 0x78; 0x56; 0x34; 0xC2; 0x3F].

(** A driver whose buffer-size query fails after its channel query
    succeeded with two outputs. *)
Definition no_buffer_size_driver : Driver :=
  {| CoInitialize := true;
     Load := true;
     future := true;
     canSampleRate := fun _ => true;
     setSampleRate := fun _ => true;
     getChannels := Some (0, 2);
     getBufferSize := None;
     getChannelInfo := Some ASIOSTInt16MSB;
     createBuffers := fun _ _ => None;
     allocate := true;
     start := true |}.

(** The session negotiated for 48000 Hz float32 stereo, against two
    16-bit MSB output channels with buffers of four samples. *)
Definition stereo_session : CAESinkASIO :=
  snd (fst (Initialize new_sink (sample_driver 2 4 ASIOSTInt16MSB)
              stereo_float_48k)).

(** Two float32 stereo frames: (0.5, -1.0) and (1.0, 0.0). *)
Definition two_frames : list Z :=
  [0; 0; 0; 0x3F;  0; 0; 0x80; 0xBF;  0; 0; 0x80; 0x3F;  0; 0; 0; 0].

(** [stereo_session] after two frames were queued: four bytes per plane,
    half of what one callback needs. *)
Definition starved_session : CAESinkASIO :=
  match AddPackets sample_platform stereo_session two_frames 2 0 with
  | Some (_, s) => s
  | None => stereo_session
  end.

(** [stereo_session] after four frames were queued: one callback's worth. *)
Definition fed_session : CAESinkASIO :=
  match AddPackets sample_platform stereo_session (two_frames ++ two_frames)
          4 0 with
  | Some (_, s) => s
  | None => stereo_session
  end.

(** ** The rest of the sink *)

(** [CAESinkASIO::Deinitialize].  The driver calls ([stop],
    [disposeBuffers], [Release]) and [CoUninitialize] change no member;
    the buffer halves the driver disposes of stay referenced by
    [m_bufferInfos]. *)
Definition Deinitialize (s : CAESinkASIO) : CAESinkASIO :=
  let s :=
    if m_iasio s
    then set_m_iasio false (set_s_this false (set_m_running false s))
    else s in
  if negb (m_initialized s) then s else set_m_initialized false s.

(** [CAESinkASIO::Stop]; [None] stands for the call through a null
    [m_iasio]. *)
Definition Stop (s : CAESinkASIO) : option CAESinkASIO :=
  if m_iasio s then Some (set_m_running false s) else None.

(** [CAESinkASIO::Create], for the answers [drv] of the driver behind
    [device]: the new sink when [Initialize] succeeds. *)
Definition CreateSink (drv : Driver) (desiredFormat : AEAudioFormat.t)
  : option CAESinkASIO * AEAudioFormat.t :=
  let result := Initialize new_sink drv desiredFormat in
  if fst (fst result) then (Some (snd (fst result)), snd result)
  else (None, snd result).

(** [n] consecutive callbacks, the driver toggling the buffer index. *)
Fixpoint callbacks (n : nat) (doubleBufferIndex : bool) (s : CAESinkASIO)
  : CAESinkASIO :=
  match n with
  | O => s
  | S n' =>
      callbacks n' (negb doubleBufferIndex) (bufferSwitch s doubleBufferIndex)
  end.

(** What one driver answers while [EnumerateDevicesEx] probes it: first
    in PCM mode, then, when it accepts the switch of [future] to the
    density format, in density mode. *)
Record Probe : Type := {
  probe_getChannels : option (Z * Z);
  probe_canSampleRate : Z -> bool;
  probe_getChannelInfo : option ASIOSampleType;
  probe_future : bool;
  probe_canSampleRate_dsd : Z -> bool;
  probe_getChannelInfo_dsd : option ASIOSampleType
}.

(** The fields of [CAEDeviceInfo] the probe fills; [m_channels] is the
    index into [layoutsByChCount] when the channel query answered. *)
Record CAEDeviceInfo : Type := {
  m_channels : option Z;
  m_sampleRates : list Z;
  m_dataFormats : list AEDataFormat
}.

Definition ASIO_MAX_CHANNEL_COUNT : Z := 8.

(** The two rates tried in round [i] of a loop of [EnumerateDevicesEx],
    [base] being 1 for PCM and 64 for the density rates, each pushed when
    the driver accepts it. *)
Definition probe_rates (can : Z -> bool) (base : Z) (i : Z) : list Z :=
  filter (fun samplerate => can samplerate = true)
    [u32 (base * 44100 * Z.shiftl 1 i); u32 (base * 48000 * Z.shiftl 1 i)].

(** The body of [if (iasio)] in [CAESinkASIO::EnumerateDevicesEx]. *)
Definition EnumerateDevicesEx_probe (drv : Probe) : CAEDeviceInfo :=
  let channels :=
    match probe_getChannels drv with
    | Some (_, numOutputChannels) =>
        Some (Z.max (Z.min (u32 numOutputChannels) ASIO_MAX_CHANNEL_COUNT) 2)
    | None => None
    end in
  let rates :=
    concat (map (probe_rates (probe_canSampleRate drv) 1) [0; 1; 2; 3; 4]) in
  let formats :=
    match probe_getChannelInfo drv with
    | Some type => [GetAEDataFormatForASIOSampleType type]
    | None => []
    end in
  if probe_future drv then
    {| m_channels := channels;
       m_sampleRates :=
         rates ++ concat (map (probe_rates (probe_canSampleRate_dsd drv) 64)
                            [0; 1; 2; 3; 4]);
       m_dataFormats :=
         formats
         ++ match probe_getChannelInfo_dsd drv with
            | Some type => [GetAEDataFormatForASIOSampleType type]
            | None => []
            end
         ++ [AE_FMT_U8] |}
  else
    {| m_channels := channels;
       m_sampleRates := rates;
       m_dataFormats := formats |}.

(** ** More vocabulary *)

(** The least-significant-first native type with the samples of [t]. *)
Definition lsb_of (t : ASIOSampleType) : ASIOSampleType :=
  match t with
  | ASIOSTInt16MSB => ASIOSTInt16LSB
  | ASIOSTInt24MSB => ASIOSTInt24LSB
  | ASIOSTInt32MSB => ASIOSTInt32LSB
  | ASIOSTFloat32MSB => ASIOSTFloat32LSB
  | ASIOSTFloat64MSB => ASIOSTFloat64LSB
  | ASIOSTInt32MSB16 => ASIOSTInt32LSB16
  | ASIOSTInt32MSB18 => ASIOSTInt32LSB18
  | ASIOSTInt32MSB20 => ASIOSTInt32LSB20
  | ASIOSTInt32MSB24 => ASIOSTInt32LSB24
  | _ => t
  end.

(** The floating-point native types. *)
Definition is_float_native (t : ASIOSampleType) : bool :=
  match t with
  | ASIOSTFloat32MSB | ASIOSTFloat64MSB
  | ASIOSTFloat32LSB | ASIOSTFloat64LSB => true
  | _ => false
  end.

(** The native float type of the width of the host type [k]. *)
Definition native_float (k : real_kind) (msb : bool) : ASIOSampleType :=
  match k, msb with
  | Float, true => ASIOSTFloat32MSB
  | Float, false => ASIOSTFloat32LSB
  | Double, true => ASIOSTFloat64MSB
  | Double, false => ASIOSTFloat64LSB
  end.

(** The size in bytes [Initialize] derives for a native type. *)
Definition sample_size (t : ASIOSampleType) : Z :=
  (GetASIOSampleSizeInBits t + 7) / 8.

(** Memory made of bytes. *)
Definition bytes_ok (mem : list Z) : Prop :=
  Forall (fun b => 0 <= b < 256) mem.

(** The driver [drv] but for the answer of [start]. *)
Definition with_start (v : bool) (drv : Driver) : Driver :=
  {| CoInitialize := CoInitialize drv;
     Load := Load drv;
     future := future drv;
     canSampleRate := canSampleRate drv;
     setSampleRate := setSampleRate drv;
     getChannels := getChannels drv;
     getBufferSize := getBufferSize drv;
     getChannelInfo := getChannelInfo drv;
     createBuffers := createBuffers drv;
     allocate := allocate drv;
     start := v |}.

(** A probe that accepts 48000 Hz and its multiples in PCM mode and every
    rate in density mode, with three output channels. *)
Definition sample_probe : Probe :=
  {| probe_getChannels := Some (0, 3);
     probe_canSampleRate := fun rate => rate mod 48000 =? 0;
     probe_getChannelInfo := Some ASIOSTInt32LSB;
     probe_future := true;
     probe_canSampleRate_dsd := fun _ => true;
     probe_getChannelInfo_dsd := Some ASIOSTDSDInt8MSB1 |}.

(** The memory at [inpSamplePtr] in [ConvertSamples] for sample [sample]. *)
Definition inpSamplePtr (inp : list Z) (channel channels inpSampleSize : Z)
    (sample : Z) : list Z :=
  drop (Z.to_nat (u32 (u32 (u32 (sample * channels) + channel)
                       * inpSampleSize))) inp.

(** * Properties *)

(** ** Memory and byte order *)

Lemma length_store (out bs : list Z) :
  (length bs <= length out)%nat -> length (store out bs) = length out.
Proof.
  intros H. unfold store. rewrite length_app, length_drop. lia.
Qed.

Lemma store_exact (out bs : list Z) :
  length bs = length out -> store out bs = bs.
Proof.
  intros H. unfold store. rewrite H, drop_all. apply app_nil_r.
Qed.

Lemma length_le_bytes (n : nat) : forall v, length (le_bytes n v) = n.
Proof. induction n as [|n IH]; intros v; simpl; [|rewrite IH]; reflexivity. Qed.

Lemma le_bytes_range (n : nat) : forall v,
  Forall (fun b => 0 <= b < 256) (le_bytes n v).
Proof.
  induction n as [|n IH]; intros v; simpl; constructor.
  - apply Z.mod_pos_bound. lia.
  - apply IH.
Qed.

Lemma le_bits_le_bytes (n : nat) : forall v,
  le_bits (le_bytes n v) = v mod 2 ^ (8 * Z.of_nat n).
Proof.
  induction n as [|n IH]; intros v.
  - simpl. rewrite Z.mod_1_r. reflexivity.
  - cbn [le_bytes le_bits]. rewrite IH, Z.mod_mod by lia.
    replace (8 * Z.of_nat (S n)) with (8 + 8 * Z.of_nat n) by lia.
    rewrite Z.pow_add_r by lia.
    change (2 ^ 8) with 256.
    rewrite Z.rem_mul_r by lia. reflexivity.
Qed.

Lemma le_bytes_le_bits (l : list Z) :
  Forall (fun b => 0 <= b < 256) l -> le_bytes (length l) (le_bits l) = l.
Proof.
  induction 1 as [|b l Hb _ IH]; [reflexivity|].
  cbn [length le_bits le_bytes].
  assert (E : b mod 256 = b) by (apply Z.mod_small; lia).
  rewrite E. f_equal.
  - rewrite Z.mul_comm, Z.mod_add by lia. exact E.
  - rewrite Z.mul_comm, Z.div_add by lia.
    rewrite Z.div_small by lia. exact IH.
Qed.

Lemma le_bytes_wrap (n : nat) : forall v,
  le_bytes n (wrap (8 * Z.of_nat n) v) = le_bytes n v.
Proof.
  intros v. unfold wrap.
  rewrite <- (le_bits_le_bytes n v).
  rewrite <- (length_le_bytes n v) at 1.
  apply le_bytes_le_bits, le_bytes_range.
Qed.

Lemma le_bytes_byteswap (n : nat) (v : Z) :
  le_bytes n (byteswap n v) = rev (le_bytes n v).
Proof.
  unfold byteswap.
  rewrite <- (length_le_bytes n v) at 1.
  rewrite <- length_rev.
  apply le_bytes_le_bits.
  apply Forall_rev, le_bytes_range.
Qed.

Lemma to_signed_wrap (w v : Z) :
  0 < w -> - 2 ^ (w - 1) <= v < 2 ^ (w - 1) -> to_signed w (wrap w v) = v.
Proof.
  intros Hw Hv. unfold to_signed, wrap.
  assert (E : 2 ^ w = 2 * 2 ^ (w - 1)).
  { replace w with (1 + (w - 1)) at 1 by lia.
    rewrite Z.pow_add_r by lia. reflexivity. }
  destruct (Z.ltb_spec v 0) as [Hneg|Hpos].
  - assert (Hm : v mod 2 ^ w = v + 2 ^ w).
    { symmetry. apply (Z.mod_unique _ _ (-1)); lia. }
    rewrite Hm. destruct (Z.ltb_spec (v + 2 ^ w) (2 ^ (w - 1))); lia.
  - rewrite Z.mod_small by lia.
    destruct (Z.ltb_spec v (2 ^ (w - 1))); lia.
Qed.

Lemma decode_lsb_le_bytes (n : nat) (v : Z) :
  (0 < n)%nat -> - 2 ^ (8 * Z.of_nat n - 1) <= v < 2 ^ (8 * Z.of_nat n - 1) ->
  decode_lsb (le_bytes n v) = v.
Proof.
  intros Hn Hv. unfold decode_lsb.
  rewrite length_le_bytes, le_bits_le_bytes.
  apply to_signed_wrap; lia.
Qed.

Lemma decode_msb_byteswap (n : nat) (v : Z) :
  (0 < n)%nat -> - 2 ^ (8 * Z.of_nat n - 1) <= v < 2 ^ (8 * Z.of_nat n - 1) ->
  decode_msb (le_bytes n (byteswap n (wrap (8 * Z.of_nat n) v))) = v.
Proof.
  intros Hn Hv. unfold decode_msb.
  rewrite le_bytes_byteswap, rev_involutive, le_bytes_wrap.
  apply decode_lsb_le_bytes; assumption.
Qed.

(** ** Silence *)

Lemma ZeroSamples_ner8_spec (n : nat) : forall (sample : Z) (out : list Z),
  0 <= sample -> (Z.to_nat sample <= length out)%nat ->
  ZeroSamples_ner8 n sample out
  = take (Z.to_nat sample) out
    ++ (ner8_silence <$> seqZ sample (Z.of_nat n))
    ++ drop (Z.to_nat sample + n) out.
Proof.
  induction n as [|n IH]; intros sample out Hs Hlen.
  - simpl. rewrite Nat.add_0_r. symmetry. apply take_drop.
  - cbn [ZeroSamples_ner8].
    assert (Hk : Z.to_nat (sample + 1) = S (Z.to_nat sample)) by lia.
    assert (Hl : length (take (Z.to_nat sample) out) = Z.to_nat sample).
    { rewrite length_take. lia. }
    rewrite IH.
    + unfold store_at, store. cbn [length app].
      rewrite Hk.
      rewrite Nat2Z.inj_succ, (seqZ_cons sample) by lia.
      rewrite fmap_cons.
      replace (Z.succ sample) with (sample + 1) by lia.
      replace (Z.pred (Z.succ (Z.of_nat n))) with (Z.of_nat n) by lia.
      rewrite (cons_middle (ner8_silence sample)), !app_assoc.
      assert (Hl1 : length (take (Z.to_nat sample) out ++ [ner8_silence sample])
                    = S (Z.to_nat sample)).
      { rewrite length_app, Hl. cbn [length]. lia. }
      rewrite take_app_length' by (symmetry; exact Hl1).
      rewrite (drop_app_add' _ _ (S (Z.to_nat sample))) by (symmetry; exact Hl1).
      rewrite !drop_drop. rewrite <- !app_assoc.
      do 3 f_equal; lia.
    + lia.
    + unfold store_at, store. rewrite Hk, length_app, Hl. cbn [length app]. lia.
Qed.

Lemma ZeroSamples_spec (out : list Z) (outType : ASIOSampleType)
    (outSampleSize samples : Z) :
  0 <= samples ->
  let bytes := match outType with
               | ASIOSTDSDInt8MSB1 | ASIOSTDSDInt8LSB1 | ASIOSTDSDInt8NER8 => samples
               | _ => u32 (samples * outSampleSize)
               end in
  ZeroSamples out outType outSampleSize samples
  = silence outType bytes ++ drop (Z.to_nat bytes) out.
Proof.
  intros Hs bytes. subst bytes.
  destruct outType; cbn [ZeroSamples silence]; unfold memset, store;
    rewrite ?length_replicate; try reflexivity.
  rewrite ZeroSamples_ner8_spec by (simpl; lia).
  rewrite Z2Nat.id by lia. reflexivity.
Qed.

(** Claim C7.  The silence [ZeroSamples] writes depends on the native
    type: for the two 1-bit density types every byte of the [samples]
    bytes written is the constant 0x69; for the packed NER8 type byte [i]
    is the bit [(0x69 >> (7 - i mod 8)) & 1]; for every other type the
    bytes are zero over the whole [samples * outSampleSize] range. *)
Theorem ZeroSamples_pattern (out : list Z) (outType : ASIOSampleType)
    (outSampleSize samples i : Z) :
  0 <= samples -> 0 <= outSampleSize -> samples * outSampleSize < 2 ^ 32 ->
  0 <= i ->
  match outType with
  | ASIOSTDSDInt8MSB1 | ASIOSTDSDInt8LSB1 =>
      i < samples ->
      ZeroSamples out outType outSampleSize samples !! Z.to_nat i = Some 0x69
  | ASIOSTDSDInt8NER8 =>
      i < samples ->
      ZeroSamples out outType outSampleSize samples !! Z.to_nat i
      = Some (Z.land (Z.shiftr 0x69 (7 - i mod 8)) 1)
  | _ =>
      i < samples * outSampleSize ->
      ZeroSamples out outType outSampleSize samples !! Z.to_nat i = Some 0
  end.
Proof.
  intros Hs Hz Hr Hi.
  assert (Hu : u32 (samples * outSampleSize) = samples * outSampleSize).
  { unfold u32, wrap. apply Z.mod_small. lia. }
  pose proof (ZeroSamples_spec out outType outSampleSize samples Hs) as E.
  cbv zeta in E.
  destruct outType; intros Hlt; rewrite E; cbn [silence]; rewrite ?Hu;
    try (rewrite lookup_app_l by (rewrite length_replicate; lia);
         apply lookup_replicate_2; lia).
  rewrite lookup_app_l by (rewrite length_fmap, length_seqZ; lia).
  rewrite list_lookup_fmap, lookup_seqZ_lt by lia.
  cbn [fmap option_fmap option_map]. unfold ner8_silence, DSD_SILENCE_BYTE.
  rewrite Z.add_0_l, Z2Nat.id by lia. reflexivity.
Qed.

Lemma ZeroSamples_pattern_witness :
  ZeroSamples [1; 2; 3; 4; 5; 6; 7; 8; 9] ASIOSTDSDInt8NER8 1 9 !! Z.to_nat 6
  = Some (Z.land (Z.shiftr 0x69 (7 - 6 mod 8)) 1).
Proof.
  apply (ZeroSamples_pattern [1; 2; 3; 4; 5; 6; 7; 8; 9] ASIOSTDSDInt8NER8
           1 9 6); lia.
Defined.

(** ** The sample converter *)

Lemma round_half_away_nearest (y : Q) : nearest_ties_away y (round_half_away y).
Proof.
  unfold nearest_ties_away, round_half_away.
  destruct (Qle_bool 0 y) eqn:E.
  - apply Qle_bool_iff in E.
    pose proof (Qfloor_le (y + (1 # 2))) as Hlo.
    pose proof (Qlt_floor (y + (1 # 2))) as Hhi.
    rewrite inject_Z_plus in Hhi.
    set (r := inject_Z (Qfloor (y + (1 # 2)))) in *.
    change (inject_Z 1) with 1%Q in Hhi.
    split.
    + apply Qabs_Qle_condition. split; lra.
    + intros Ht.
      assert (Hr : (r - y == 1 # 2)%Q).
      { revert Ht. apply Qabs_case; intros; lra. }
      rewrite (Qabs_pos y) by lra. rewrite (Qabs_pos r) by lra. lra.
  - assert (Hneg : (y < 0)%Q).
    { apply Qnot_le_lt. intros H. apply Qle_bool_iff in H. congruence. }
    pose proof (Qfloor_le (- y + (1 # 2))) as Hlo.
    pose proof (Qlt_floor (- y + (1 # 2))) as Hhi.
    rewrite inject_Z_plus in Hhi.
    rewrite inject_Z_opp.
    set (f := inject_Z (Qfloor (- y + (1 # 2)))) in *.
    change (inject_Z 1) with 1%Q in Hhi.
    split.
    + apply Qabs_Qle_condition. split; lra.
    + intros Ht.
      assert (Hr : (- f - y == - (1 # 2))%Q).
      { revert Ht. apply Qabs_case; intros; lra. }
      rewrite (Qabs_neg y) by lra. rewrite (Qabs_neg (- f)) by lra. lra.
Qed.

Lemma pow2_emax_large (k : real_kind) : (inject_Z (2 ^ 64) < pow2 (emax k))%Q.
Proof. destruct k; vm_compute; reflexivity. Qed.

Lemma llround_specified_bound (y : Q) :
  llround_specified y -> (Qabs y < inject_Z (2 ^ 64))%Q.
Proof.
  intros [Hlo Hhi].
  destruct (round_half_away_nearest y) as [Hn _].
  apply Qabs_Qle_condition in Hn.
  rewrite Zle_Qle in Hlo, Hhi.
  set (r := inject_Z (round_half_away y)) in *.
  assert (Emin : inject_Z LLONG_MIN == - (9223372036854775808 # 1)).
  { reflexivity. }
  assert (Emax : inject_Z LLONG_MAX == 9223372036854775807 # 1).
  { reflexivity. }
  assert (E64 : inject_Z (2 ^ 64) == 18446744073709551616 # 1).
  { reflexivity. }
  rewrite Emin in Hlo. rewrite Emax in Hhi. rewrite E64.
  apply Qabs_case; intros; lra.
Qed.

Lemma fmul_pow2_exact (k : real_kind) (x : Q) (scale : Z) :
  llround_specified (x * inject_Z scale) ->
  fmul_pow2 k (RFinite x) scale = RFinite (x * inject_Z scale).
Proof.
  intros H. unfold fmul_pow2.
  destruct (Qle_bool (pow2 (emax k)) (Qabs (x * inject_Z scale))) eqn:E;
    [|reflexivity].
  apply Qle_bool_iff in E.
  pose proof (llround_specified_bound _ H).
  pose proof (pow2_emax_large k). lra.
Qed.

Lemma llround_exact (P : Platform) (y : Q) :
  llround_specified y -> llround P (RFinite y) = round_half_away y.
Proof.
  intros [Hlo Hhi]. unfold llround.
  destruct (Z.leb_spec LLONG_MIN (round_half_away y)); [|lia].
  destruct (Z.leb_spec (round_half_away y) LLONG_MAX); [|lia].
  reflexivity.
Qed.

Lemma ConvertRealToInt_clamp (P : Platform) (k : real_kind) (size : Z) (x : Q) :
  size = 2 \/ size = 4 ->
  llround_specified (x * inject_Z (2 ^ (8 * size - 1))) ->
  ConvertRealToInt P k size (RFinite x)
  = clamp (8 * size) (round_half_away (x * inject_Z (2 ^ (8 * size - 1)))).
Proof.
  intros Hsize Hy. unfold ConvertRealToInt.
  assert (Es : Z.shiftl 1 (Z.shiftl size 3 - 1) = 2 ^ (8 * size - 1)).
  { destruct Hsize; subst size; reflexivity. }
  assert (Emin : int_min size = - 2 ^ (8 * size - 1)).
  { destruct Hsize; subst size; reflexivity. }
  assert (Emax : int_max size = 2 ^ (8 * size - 1) - 1).
  { destruct Hsize; subst size; reflexivity. }
  rewrite Es, Emin, Emax, fmul_pow2_exact, llround_exact by assumption.
  unfold clamp.
  set (r := round_half_away _). set (h := 2 ^ (8 * size - 1)).
  assert (0 < h) by (subst h; destruct Hsize; subst size; reflexivity).
  destruct (Z.ltb_spec r (- h)); [lia|].
  destruct (Z.ltb_spec r (h - 1)); lia.
Qed.

Lemma clamp_range (bits r : Z) :
  0 < bits -> - 2 ^ (bits - 1) <= clamp bits r < 2 ^ (bits - 1).
Proof.
  intros Hb. unfold clamp.
  assert (0 < 2 ^ (bits - 1)) by (apply Z.pow_pos_nonneg; lia). lia.
Qed.

Lemma clamp_saturates (bits r : Z) :
  0 < bits ->
  (2 ^ (bits - 1) - 1 <= r -> clamp bits r = 2 ^ (bits - 1) - 1) /\
  (r <= - 2 ^ (bits - 1) -> clamp bits r = - 2 ^ (bits - 1)).
Proof.
  intros Hb. unfold clamp.
  assert (0 < 2 ^ (bits - 1)) by (apply Z.pow_pos_nonneg; lia). lia.
Qed.

Lemma store_int_lsb (n : nat) (bits v : Z) :
  (0 < n)%nat -> bits = 8 * Z.of_nat n ->
  let bs := le_bytes n (clamp bits v) in
  8 * Z.of_nat (length bs) = bits /\ decode_lsb bs = clamp bits v.
Proof.
  intros Hn -> bs. subst bs. rewrite length_le_bytes. split; [reflexivity|].
  apply decode_lsb_le_bytes; [assumption|]. apply clamp_range. lia.
Qed.

Lemma store_int_msb (n : nat) (bits v : Z) :
  (0 < n)%nat -> bits = 8 * Z.of_nat n ->
  let bs := le_bytes n (byteswap n (wrap bits (clamp bits v))) in
  8 * Z.of_nat (length bs) = bits /\ decode_msb bs = clamp bits v.
Proof.
  intros Hn -> bs. subst bs. rewrite length_le_bytes. split; [reflexivity|].
  apply decode_msb_byteswap; [assumption|]. apply clamp_range. lia.
Qed.

(** Claim C2.  A float32 or float64 host sample [x] converted to a 16-bit
    or 32-bit signed integer native type is emitted as the integer [r]
    nearest to [x * 2^(bits-1)], halfway cases away from zero, saturated
    to the signed range of [bits] bits: the bytes written, read in the
    byte order of the native type, are [clamp bits r], which is exactly
    the maximum when [r] is at or above it and exactly the minimum when
    [r] is at or below it.  The sample is a finite number whose scaled
    value rounds into the range of [long long], where [std::llround] is
    specified. *)
Theorem ConvertSample_real_to_int (P : Platform) (out inp : list Z)
    (outType : ASIOSampleType) (inpType : AEDataFormat)
    (k : real_kind) (x : Q) :
  host_real inpType = Some k ->
  is_int16_or_int32 outType = true ->
  load_real k inp = RFinite x ->
  let bits := GetASIOSampleSizeInBits outType in
  let y := (x * inject_Z (2 ^ (bits - 1)))%Q in
  llround_specified y ->
  exists (r : Z) (bs : list Z),
    nearest_ties_away y r /\
    ConvertSample P out outType inp inpType = store out bs /\
    8 * Z.of_nat (length bs) = bits /\
    decode_native outType bs = clamp bits r /\
    (2 ^ (bits - 1) - 1 <= r -> decode_native outType bs = 2 ^ (bits - 1) - 1) /\
    (r <= - 2 ^ (bits - 1) -> decode_native outType bs = - 2 ^ (bits - 1)).
Proof.
  intros Hhost Hint Hload bits y Hy.
  exists (round_half_away y).
  assert (Hconv : is_int16_or_int32 outType = true ->
          ConvertSample P out outType inp inpType
          = ConvertReal P k out outType inp).
  { destruct inpType; try discriminate Hhost;
      injection Hhost as <-; reflexivity. }
  assert (Hbits : 0 < bits) by (subst bits; destruct outType; try discriminate Hint; reflexivity).
  destruct (clamp_saturates bits (round_half_away y) Hbits) as [Hmax Hmin].
  assert (Hcases :
    exists bs, ConvertReal P k out outType inp = store out bs /\
               8 * Z.of_nat (length bs) = bits /\
               decode_native outType bs = clamp bits (round_half_away y)).
  { subst y bits.
    destruct outType; try discriminate Hint;
      cbn [ConvertReal GetASIOSampleSizeInBits decode_native is_msb] in *;
      rewrite Hload;
      first
        [ rewrite (ConvertRealToInt_clamp P k 2) by (auto; exact Hy)
        | rewrite (ConvertRealToInt_clamp P k 4) by (auto; exact Hy) ];
      eexists; (split; [reflexivity|]);
      first
        [ apply (store_int_msb 2); [lia|reflexivity]
        | apply (store_int_msb 4); [lia|reflexivity]
        | apply (store_int_lsb 2); [lia|reflexivity]
        | apply (store_int_lsb 4); [lia|reflexivity] ]. }
  destruct Hcases as (bs & Hbs & Hlen & Hdec).
  exists bs. split; [apply round_half_away_nearest|].
  split; [rewrite Hconv by assumption; exact Hbs|].
  split; [exact Hlen|].
  split; [exact Hdec|].
  rewrite Hdec. split; assumption.
Qed.

Lemma ConvertSample_real_to_int_witness :
  exists (r : Z) (bs : list Z),
    nearest_ties_away ((8388608 # 16777216) * inject_Z (2 ^ 15)) r /\
    ConvertSample sample_platform [0; 0] ASIOSTInt16MSB half_float AE_FMT_FLOAT
    = store [0; 0] bs /\
    8 * Z.of_nat (length bs) = 16 /\
    decode_native ASIOSTInt16MSB bs = clamp 16 r /\
    (2 ^ 15 - 1 <= r -> decode_native ASIOSTInt16MSB bs = 2 ^ 15 - 1) /\
    (r <= - 2 ^ 15 -> decode_native ASIOSTInt16MSB bs = - 2 ^ 15).
Proof.
  apply (ConvertSample_real_to_int sample_platform [0; 0] half_float
           ASIOSTInt16MSB AE_FMT_FLOAT Float (8388608 # 16777216)).
  - reflexivity.
  - reflexivity.
  - vm_compute. reflexivity.
  - vm_compute. split; discriminate.
Defined.

(** Claim C6, as the code has it.  A float32 or float64 host sample
    converted to a 24-bit native type is rounded and saturated as a 32-bit
    value [v] (scale [2^31]); the three bytes emitted are the three
    most-significant bytes of [v] (its bytes 1 to 3, the least-significant
    byte 0 is dropped), most-significant first for the MSB type and
    least-significant first for the LSB type, so that the driver reads the
    24-bit integer [v / 256]. *)
Theorem ConvertSample_real_to_int24 (P : Platform) (out inp : list Z)
    (outType : ASIOSampleType) (inpType : AEDataFormat)
    (k : real_kind) (x : Q) :
  host_real inpType = Some k ->
  is_int24 outType = true ->
  load_real k inp = RFinite x ->
  let y := (x * inject_Z (2 ^ 31))%Q in
  llround_specified y ->
  let v := clamp 32 (round_half_away y) in
  exists bs : list Z,
    ConvertSample P out outType inp inpType = store out bs /\
    bs = (if is_msb outType then rev (drop 1 (le_bytes 4 v))
          else drop 1 (le_bytes 4 v)) /\
    length bs = 3%nat /\
    decode_native outType bs = Z.shiftr v 8.
Proof.
  intros Hhost Hint Hload y Hy v.
  assert (Hconv : ConvertSample P out outType inp inpType
                  = ConvertReal P k out outType inp).
  { destruct inpType; try discriminate Hhost;
      injection Hhost as <-; reflexivity. }
  assert (Hv : ConvertRealToInt P k 4 (load_real k inp) = v).
  { rewrite Hload. apply (ConvertRealToInt_clamp P k 4); [auto | exact Hy]. }
  assert (Hr : - 2 ^ (8 * Z.of_nat 3 - 1) <= v / 256 < 2 ^ (8 * Z.of_nat 3 - 1)).
  { pose proof (clamp_range 32 (round_half_away y) ltac:(lia)) as Hc.
    fold v in Hc. change (2 ^ (32 - 1)) with (256 * 2 ^ 23) in Hc.
    change (2 ^ (8 * Z.of_nat 3 - 1)) with (2 ^ 23).
    split.
    - apply Z.div_le_lower_bound; lia.
    - apply Z.div_lt_upper_bound; lia. }
  assert (Hd : decode_lsb (drop 1 (le_bytes 4 v)) = Z.shiftr v 8).
  { change (drop 1 (le_bytes 4 v)) with (le_bytes 3 (v / 256)).
    rewrite (decode_lsb_le_bytes 3) by (lia || exact Hr).
    rewrite Z.shiftr_div_pow2 by lia. reflexivity. }
  rewrite Hconv.
  destruct outType; try discriminate Hint;
    cbn [ConvertReal is_msb decode_native]; rewrite Hv;
    eexists; (split; [reflexivity|]); (split; [reflexivity|]);
    (split; [reflexivity|]).
  - unfold decode_msb.
    change [nth 3 (le_bytes 4 v) 0; nth 2 (le_bytes 4 v) 0; nth 1 (le_bytes 4 v) 0]
      with (rev (drop 1 (le_bytes 4 v))).
    rewrite rev_involutive. exact Hd.
  - exact Hd.
Qed.

Lemma ConvertSample_real_to_int24_witness :
  exists bs : list Z,
    ConvertSample sample_platform [0; 0; 0] ASIOSTInt24MSB
      distinct_bytes_double AE_FMT_DOUBLE = store [0; 0; 0] bs /\
    bs = rev (drop 1 (le_bytes 4
           (clamp 32 (round_half_away
              ((5124095565889536 # 36028797018963968)
               * inject_Z (2 ^ 31)))))) /\
    length bs = 3%nat /\
    decode_native ASIOSTInt24MSB bs
    = Z.shiftr (clamp 32 (round_half_away
                  ((5124095565889536 # 36028797018963968)
                   * inject_Z (2 ^ 31)))) 8.
Proof.
  apply (ConvertSample_real_to_int24 sample_platform [0; 0; 0]
           distinct_bytes_double ASIOSTInt24MSB AE_FMT_DOUBLE Double
           (5124095565889536 # 36028797018963968)).
  - reflexivity.
  - reflexivity.
  - vm_compute. reflexivity.
  - vm_compute. split; discriminate.
Defined.

(** Claim C6, as stated, fails: for the double 0x12345678 / 2^31 the
    rounded 32-bit value is 0x12345678, whose low three bytes are 0x34,
    0x56, 0x78, while the 24-bit MSB conversion emits 0x12, 0x34, 0x56. *)
Lemma ConvertSample_int24_not_low_bytes :
  let value :=
    ConvertRealToInt sample_platform Double 4
      (load_real Double distinct_bytes_double) in
  let emitted :=
    ConvertSample sample_platform [0; 0; 0] ASIOSTInt24MSB
      distinct_bytes_double AE_FMT_DOUBLE in
  value = 0x12345678 /\
  emitted = [0x12; 0x34; 0x56] /\
  rev (le_bytes 3 value) = [0x34; 0x56; 0x78] /\
  emitted <> rev (le_bytes 3 value).
Proof.
  vm_compute. repeat split; congruence.
Qed.

(** Claim C9 is not what the code does.  For an 8-bit unsigned host sample
    [ConvertSample] takes the [case AE_FMT_U8: break;] branch and writes
    nothing: the destination keeps the bytes it had, whatever the host
    sample is.  With the destination byte 0x00 and the host byte 0xAB the
    destination is still 0x00 after the call. *)
Theorem ConvertSample_U8_writes_nothing :
  (forall (P : Platform) (out inp : list Z) (outType : ASIOSampleType),
     ConvertSample P out outType inp AE_FMT_U8 = out) /\
  ConvertSample sample_platform [0x00] ASIOSTDSDInt8MSB1 [0xAB] AE_FMT_U8
  = [0x00] /\
  ConvertSample sample_platform [0x00] ASIOSTDSDInt8MSB1 [0xAB] AE_FMT_U8
  <> [0xAB].
Proof.
  split; [reflexivity|]. split; [reflexivity|]. discriminate.
Qed.

(** ** Negotiation *)

Ltac sink_simpl :=
  cbv beta iota zeta delta
      [s_this m_iasio m_format m_planeCount m_planeBuffer m_planePad
       m_sampleType m_sampleSize m_bufferSize m_bufferInfos m_frameSize
       m_frameCount m_planeBytesPerSec m_initialized m_running
       set_s_this set_m_iasio set_m_format set_m_planeCount
       set_m_planeBuffer set_m_planePad set_m_sampleType set_m_sampleSize
       set_m_bufferSize set_m_bufferInfos set_m_frameSize set_m_frameCount
       set_m_planeBytesPerSec set_m_initialized set_m_running
       set_geometry] in *.

Lemma u32_range (x : Z) : 0 <= u32 x < 2 ^ 32.
Proof. unfold u32, wrap. apply Z.mod_pos_bound. lia. Qed.

Lemma u32_small (x : Z) : 0 <= x < 2 ^ 32 -> u32 x = x.
Proof. intros H. unfold u32, wrap. apply Z.mod_small. exact H. Qed.

(** What a successful [Initialize] has asked the driver and stored. *)
Lemma Initialize_success (s : CAESinkASIO) (drv : Driver)
    (format : AEAudioFormat.t) (s' : CAESinkASIO) (format' : AEAudioFormat.t) :
  Initialize s drv format = (true, s', format') ->
  let rate := AEAudioFormat.m_sampleRate format in
  exists numIn numOut minSize maxSize preferred granularity type allocated,
    getChannels drv = Some (numIn, numOut) /\
    getBufferSize drv = Some (minSize, maxSize, preferred, granularity) /\
    getChannelInfo drv = Some type /\
    createBuffers drv (u32 numOut) (u32 preferred) = Some allocated /\
    m_planeCount s' = u32 numOut /\
    m_bufferSize s' = u32 preferred /\
    m_sampleType s' = type /\
    m_sampleSize s' = (GetASIOSampleSizeInBits type + 7) / 8 /\
    m_bufferInfos s'
    = attach_buffers allocated (prepare_infos (m_bufferInfos s) (u32 numOut)) /\
    m_frameSize s'
    = u32 (AEAudioFormat.m_channelLayout format
           * (DataFormatToBits (AEAudioFormat.m_dataFormat format) / 8)) /\
    m_frameCount s'
    = rate / (if DSD_MIN_SAMPLERATE <=? rate then 8 else 1) / 75 /\
    m_planeBytesPerSec s' = u32 (rate * GetASIOSampleSizeInBits type) /\
    m_planeBuffer s'
    = Create (u32 (u32 (u32 (rate * GetASIOSampleSizeInBits type) / 75 * 3) * 75))
        (u32 numOut) /\
    format' = set_geometry (m_frameSize s') (m_frameCount s') format /\
    m_format s' = format' /\
    m_planePad s' = m_planePad s /\
    s_this s' = true /\ m_initialized s' = true /\ m_running s' = true.
Proof.
  intros H. cbv zeta. unfold Initialize in H. sink_simpl.
  repeat match type of H with
         | context [if ?b then _ else _] =>
             destruct b eqn:?; [discriminate H|]
         | context [match ?x with Some _ => _ | None => _ end] =>
             destruct x as [?|] eqn:?; [|discriminate H]
         | context [let '(_, _) := ?x in _] => destruct x
         end.
  injection H as <- <-. sink_simpl.
  match goal with
  | Hc : getChannels drv = Some (?i, ?o),
    Hb : getBufferSize drv = Some (?a1, ?a2, ?a3, ?a4),
    Ht : getChannelInfo drv = Some ?t,
    Ha : createBuffers drv _ _ = Some ?al |- _ =>
      exists i, o, a1, a2, a3, a4, t, al
  end.
  repeat (split; [assumption || reflexivity|]). reflexivity.
Qed.

Lemma session_ok_iff (s : CAESinkASIO) :
  session_ok s = true <->
  m_initialized s = true /\
  NumPlanes (m_planeBuffer s) = m_planeCount s /\
  Z.of_nat (length (m_bufferInfos s)) = m_planeCount s /\
  cursor (m_planeBuffer s) = 0%nat /\
  level (m_planeBuffer s) = true /\
  GetReadSize (m_planeBuffer s) <= capacity (m_planeBuffer s) /\
  capacity (m_planeBuffer s) < 2 ^ 32 /\
  m_sampleSize s = (GetASIOSampleSizeInBits (m_sampleType s) + 7) / 8 /\
  0 < m_sampleSize s /\
  0 <= m_bufferSize s /\ m_bufferSize s < 2 ^ 32.
Proof.
  unfold session_ok.
  rewrite !andb_true_iff, !Z.eqb_eq, Nat.eqb_eq, !Z.leb_le, !Z.ltb_lt.
  tauto.
Qed.

Lemma level_iff (q : AERingBuffer) :
  level q = true <->
  forall plane, (plane < length (planes q))%nat ->
                availableToRead q plane = GetReadSize q.
Proof.
  unfold level. rewrite forallb_forall. split.
  - intros H plane Hlt. unfold availableToRead, plane_bytes.
    destruct (lookup_lt_is_Some_2 _ _ Hlt) as [bytes Hb]. rewrite Hb.
    apply Z.eqb_eq, H. apply list_elem_of_In, list_elem_of_lookup. eauto.
  - intros H bytes Hin.
    apply list_elem_of_In, list_elem_of_lookup in Hin as [plane Hb].
    apply Z.eqb_eq. rewrite <- (H plane) by (eapply lookup_lt_Some; eauto).
    unfold availableToRead, plane_bytes. rewrite Hb. reflexivity.
Qed.

Lemma length_prepare_infos (infos : list ASIOBufferInfo) (planeCount : Z) :
  length (prepare_infos infos planeCount) = Z.to_nat planeCount.
Proof.
  unfold prepare_infos.
  rewrite length_imap, length_app, length_take, length_replicate. lia.
Qed.

Lemma Create_planes (size nplanes : Z) (plane : nat) :
  plane_bytes (Create size nplanes) plane = [].
Proof.
  unfold plane_bytes, Create. cbn [planes].
  destruct (replicate (Z.to_nat nplanes) [] !! plane) as [bytes|] eqn:E;
    [|reflexivity].
  apply lookup_replicate in E as [-> _]. reflexivity.
Qed.

(** A successful negotiation against a listed native type leaves a
    session the streaming operations can work on. *)
Lemma Initialize_session_ok (s : CAESinkASIO) (drv : Driver)
    (format : AEAudioFormat.t) (s' : CAESinkASIO) (format' : AEAudioFormat.t) :
  Initialize s drv format = (true, s', format') ->
  m_sampleType s' <> ASIOSTOther ->
  session_ok s' = true.
Proof.
  intros H Htype.
  destruct (Initialize_success _ _ _ _ _ H)
    as (numIn & numOut & minSize & maxSize & preferred & granularity & type
        & allocated & _ & _ & _ & _ & Hpc & Hbs & Hty & Hss & Hinfos & _ & _
        & _ & Hq & _ & _ & _ & _ & Hinit & _).
  pose proof (u32_range numOut). pose proof (u32_range preferred).
  apply session_ok_iff. rewrite Hq, Hpc, Hbs, Hss, Hinfos, Hty.
  assert (Hread : GetReadSize
            (Create (u32 (u32 (u32 (AEAudioFormat.m_sampleRate format
                                    * GetASIOSampleSizeInBits type) / 75 * 3)
                          * 75)) (u32 numOut)) = 0).
  { unfold GetReadSize, availableToRead. rewrite Create_planes. reflexivity. }
  repeat split; try assumption; try lia.
  - unfold NumPlanes, Create. cbn [planes]. rewrite length_replicate. lia.
  - unfold attach_buffers. rewrite length_imap, length_prepare_infos. lia.
  - apply level_iff. intros plane _. rewrite Hread.
    unfold availableToRead. rewrite Create_planes. reflexivity.
  - rewrite Hread. cbn [Create capacity]. apply u32_range.
  - cbn [Create capacity]. apply u32_range.
  - rewrite Hty in Htype. destruct type; try reflexivity. congruence.
Qed.

(** Claim C3 is not what the code does.  [Initialize] computes
    [m_planeBytesPerSec] as the sample rate times the native sample size
    in bits, not in bytes.  For 48000 Hz against a 16-bit native type
    (2 bytes per sample) it stores 768000 = 48000 * 16 where the bytes per
    second are 96000 = 48000 * 2; the queue gets 3 * 768000 bytes and the
    cache total reads as 3 seconds. *)
Theorem Initialize_bytes_per_second_counts_bits :
  let s := stereo_session in
  m_initialized s = true /\
  AEAudioFormat.m_sampleRate (m_format s) = 48000 /\
  m_sampleType s = ASIOSTInt16MSB /\
  m_sampleSize s = 2 /\
  m_planeBytesPerSec s = 768000 /\
  m_planeBytesPerSec s = 48000 * GetASIOSampleSizeInBits (m_sampleType s) /\
  m_planeBytesPerSec s <> 48000 * m_sampleSize s /\
  GetMaxSize (m_planeBuffer s) = 3 * 768000 /\
  GetCacheTotal s = RFinite (inject_Z 2304000 / inject_Z 768000)%Q.
Proof.
  vm_compute. repeat split; congruence.
Qed.

(** Claim C4, as the code has it.  When [Initialize] fails for one of the
    listed reasons it returns failure, never marks the session initialized
    or running, and leaves the queue, the stored format and the pad as
    they were.  The members assigned before the failing step keep their
    new values: an unsupported rate or a failed channel query only leave
    the loaded driver behind; a failed buffer-size query has committed the
    plane count; a failed channel-info query the plane count and the
    buffer size; a failed queue allocation also the sample type, the
    sample size, the callback target, the frame geometry (in the sink and
    in the caller's format) and the bytes per second. *)
Theorem Initialize_failure (s : CAESinkASIO) (drv : Driver)
    (format : AEAudioFormat.t) (why : failure) :
  m_initialized s = false ->
  fails_with drv format = Some why ->
  let result := Initialize s drv format in
  let s' := snd (fst result) in
  let format' := snd result in
  fst (fst result) = false /\
  m_initialized s' = false /\
  m_running s' = m_running s /\
  m_planeBuffer s' = m_planeBuffer s /\
  m_format s' = m_format s /\
  m_planePad s' = m_planePad s /\
  match why with
  | RateUnsupported | ChannelQueryFailed =>
      s' = set_m_iasio true s /\ format' = format /\
      session_fields s' = session_fields s
  | BufferSizeQueryFailed =>
      exists numIn numOut,
        getChannels drv = Some (numIn, numOut) /\
        s' = set_m_planeCount (u32 numOut) (set_m_iasio true s) /\
        format' = format
  | ChannelInfoQueryFailed =>
      exists numIn numOut minSize maxSize preferred granularity,
        getChannels drv = Some (numIn, numOut) /\
        getBufferSize drv = Some (minSize, maxSize, preferred, granularity) /\
        s' = set_m_bufferSize (u32 preferred)
               (set_m_planeCount (u32 numOut) (set_m_iasio true s)) /\
        format' = format
  | QueueAllocationFailed =>
      exists numIn numOut minSize maxSize preferred granularity type,
        getChannels drv = Some (numIn, numOut) /\
        getBufferSize drv = Some (minSize, maxSize, preferred, granularity) /\
        getChannelInfo drv = Some type /\
        m_planeCount s' = u32 numOut /\
        m_bufferSize s' = u32 preferred /\
        m_sampleType s' = type /\
        m_sampleSize s' = (GetASIOSampleSizeInBits type + 7) / 8 /\
        s_this s' = true /\
        m_frameSize s'
        = u32 (AEAudioFormat.m_channelLayout format
               * (DataFormatToBits (AEAudioFormat.m_dataFormat format) / 8)) /\
        m_frameCount s'
        = AEAudioFormat.m_sampleRate format
          / (if DSD_MIN_SAMPLERATE <=? AEAudioFormat.m_sampleRate format
             then 8 else 1) / 75 /\
        m_planeBytesPerSec s'
        = u32 (AEAudioFormat.m_sampleRate format
               * GetASIOSampleSizeInBits type) /\
        format' = set_geometry (m_frameSize s') (m_frameCount s') format
  end.
Proof.
  intros Hinit Hwhy. cbv zeta.
  unfold fails_with, reaches_rate_check in Hwhy. unfold Initialize.
  rewrite Hinit.
  destruct (CoInitialize drv); [|discriminate Hwhy].
  cbn [negb andb] in *. sink_simpl.
  destruct (Load drv); [|discriminate Hwhy].
  cbn [negb andb] in *.
  destruct ((DSD_MIN_SAMPLERATE <=? AEAudioFormat.m_sampleRate format)
            && negb (future drv)); [discriminate Hwhy|].
  cbn [negb andb] in *.
  destruct (canSampleRate drv (AEAudioFormat.m_sampleRate format));
    cbn [negb andb] in *;
    [|injection Hwhy as <-; cbn [fst snd]; destruct s; cbn in *;
      repeat split; congruence].
  destruct (setSampleRate drv (AEAudioFormat.m_sampleRate format));
    cbn [negb andb] in *;
    [|injection Hwhy as <-; cbn [fst snd]; destruct s; cbn in *;
      repeat split; congruence].
  destruct (getChannels drv) as [[numIn numOut]|];
    [|injection Hwhy as <-; cbn [fst snd]; destruct s; cbn in *;
      repeat split; congruence].
  destruct (getBufferSize drv) as [[[[minSize maxSize] preferred] granularity]|];
    [|injection Hwhy as <-; cbn [fst snd]; destruct s; cbn in *;
      repeat split; try congruence; exists numIn, numOut;
      repeat split; congruence].
  destruct (getChannelInfo drv) as [type|];
    [|injection Hwhy as <-; cbn [fst snd]; destruct s; cbn in *;
      repeat split; try congruence;
      exists numIn, numOut, minSize, maxSize, preferred, granularity;
      repeat split; congruence].
  destruct (createBuffers drv (u32 numOut) (u32 preferred));
    [|discriminate Hwhy].
  destruct (allocate drv); [discriminate Hwhy|].
  injection Hwhy as <-. cbn [negb fst snd]. destruct s; cbn in *.
  repeat split; try congruence.
  exists numIn, numOut, minSize, maxSize, preferred, granularity, type.
  repeat split; congruence.
Qed.

Lemma Initialize_failure_witness :
  let result := Initialize new_sink no_buffer_size_driver stereo_float_48k in
  let s' := snd (fst result) in
  let format' := snd result in
  fst (fst result) = false /\
  m_initialized s' = false /\
  m_running s' = m_running new_sink /\
  m_planeBuffer s' = m_planeBuffer new_sink /\
  m_format s' = m_format new_sink /\
  m_planePad s' = m_planePad new_sink /\
  exists numIn numOut,
    getChannels no_buffer_size_driver = Some (numIn, numOut) /\
    s' = set_m_planeCount (u32 numOut) (set_m_iasio true new_sink) /\
    format' = stereo_float_48k.
Proof.
  apply (Initialize_failure new_sink no_buffer_size_driver stereo_float_48k
           BufferSizeQueryFailed).
  - reflexivity.
  - reflexivity.
Defined.

(** Claim C4, as stated, fails: against a driver whose channel query
    answers two outputs and whose buffer-size query fails, [Initialize]
    returns failure with the plane count already changed from 0 to 2. *)
Lemma Initialize_failure_commits_plane_count :
  let result := Initialize new_sink no_buffer_size_driver stereo_float_48k in
  let s' := snd (fst result) in
  fails_with no_buffer_size_driver stereo_float_48k
  = Some BufferSizeQueryFailed /\
  fst (fst result) = false /\
  m_planeCount new_sink = 0 /\
  m_planeCount s' = 2 /\
  session_fields s' <> session_fields new_sink.
Proof.
  vm_compute. repeat split; congruence.
Qed.

(** ** The queue and the producer *)

Lemma foldl_seq_ind {A : Type} (f : A -> nat -> A) (Inv : nat -> A -> Prop)
    (n : nat) : forall (a : nat) (x : A),
  Inv a x ->
  (forall i y, (a <= i < a + n)%nat -> Inv i y -> Inv (S i) (f y i)) ->
  Inv (a + n)%nat (foldl f x (seq a n)).
Proof.
  induction n as [|n IH]; intros a x Hx Hstep.
  - rewrite Nat.add_0_r. exact Hx.
  - cbn [seq foldl]. replace (a + S n)%nat with (S a + n)%nat by lia.
    apply IH.
    + apply Hstep; [lia | exact Hx].
    + intros i y Hi. apply Hstep. lia.
Qed.

Lemma length_resize (v : list Z) (n : Z) : length (resize v n) = Z.to_nat n.
Proof.
  unfold resize. rewrite length_app, length_take, length_replicate. lia.
Qed.

Lemma ConvertSample_store (P : Platform) (out inp : list Z)
    (outType : ASIOSampleType) (inpType : AEDataFormat) :
  exists bs : list Z,
    ConvertSample P out outType inp inpType = store out bs /\
    (bs = [] \/
     Z.of_nat (length bs) = (GetASIOSampleSizeInBits outType + 7) / 8).
Proof.
  destruct inpType; cbn [ConvertSample];
    try (exists []; split; [reflexivity | left; reflexivity]);
    destruct outType; cbn [ConvertReal];
      try (exists []; split; [reflexivity | left; reflexivity]);
      (eexists; split; [reflexivity|]; right;
       rewrite ?length_le_bytes; reflexivity).
Qed.

Lemma ConvertSample_length (P : Platform) (out inp : list Z)
    (outType : ASIOSampleType) (inpType : AEDataFormat) :
  (GetASIOSampleSizeInBits outType + 7) / 8 <= Z.of_nat (length out) ->
  length (ConvertSample P out outType inp inpType) = length out.
Proof.
  intros H.
  destruct (ConvertSample_store P out inp outType inpType) as (bs & -> & [->|Hb]).
  - reflexivity.
  - apply length_store. lia.
Qed.

Lemma ConvertSamples_from_length (P : Platform) (outType : ASIOSampleType)
    (outSampleSize : Z) (inp : list Z) (channel channels : Z)
    (inpType : AEDataFormat) (inpSampleSize : Z) (n : nat) :
  outSampleSize = (GetASIOSampleSizeInBits outType + 7) / 8 ->
  forall (sample : Z) (out : list Z),
  0 <= sample -> 0 <= outSampleSize ->
  (sample + Z.of_nat n) * outSampleSize <= Z.of_nat (length out) < 2 ^ 32 ->
  length (ConvertSamples_from P n sample out outType outSampleSize inp channel
            channels inpType inpSampleSize) = length out.
Proof.
  intros Hsize. induction n as [|n IH]; intros sample out Hs Hz Hlen;
    [reflexivity|].
  cbn [ConvertSamples_from].
  assert (Hstep : length (ConvertSamples_step P outType outSampleSize inp
                            channel channels inpType inpSampleSize sample out)
                  = length out).
  { unfold ConvertSamples_step.
    assert (Hoff : sample * outSampleSize + outSampleSize
                   <= Z.of_nat (length out)) by nia.
    rewrite u32_small by nia.
    rewrite length_app, length_take, ConvertSample_length.
    - rewrite length_drop. lia.
    - rewrite length_drop. lia. }
  rewrite IH; [exact Hstep | lia | lia |]. rewrite Hstep. nia.
Qed.

Lemma ConvertSamples_length (P : Platform) (out : list Z)
    (outType : ASIOSampleType) (outSampleSize : Z) (inp : list Z)
    (channel channels : Z) (inpType : AEDataFormat)
    (inpSampleSize samples : Z) :
  outSampleSize = (GetASIOSampleSizeInBits outType + 7) / 8 ->
  0 <= samples -> 0 <= outSampleSize ->
  samples * outSampleSize <= Z.of_nat (length out) < 2 ^ 32 ->
  length (ConvertSamples P out outType outSampleSize inp channel channels
            inpType inpSampleSize samples) = length out.
Proof.
  intros Hsize Hs Hz Hlen. unfold ConvertSamples.
  apply ConvertSamples_from_length; try assumption; lia.
Qed.

Lemma Write_spec (q : AERingBuffer) (src : list Z) (size : Z) :
  0 <= size <= availableToWrite q (cursor q) ->
  Write q src size
  = {| capacity := capacity q;
       planes := <[cursor q := plane_bytes q (cursor q)
                               ++ take (Z.to_nat size) src]> (planes q);
       cursor := (S (cursor q) mod length (planes q))%nat |}.
Proof.
  intros H. unfold Write. rewrite Z.min_l by lia.
  rewrite take_take, Nat.min_id. reflexivity.
Qed.

Lemma plane_bytes_insert (c : Z) (l : list (list Z)) (k i plane : nat)
    (x : list Z) :
  (i < length l)%nat ->
  plane_bytes {| capacity := c; planes := <[i := x]> l; cursor := k |} plane
  = if decide (i = plane) then x
    else plane_bytes {| capacity := c; planes := l; cursor := 0 |} plane.
Proof.
  intros Hi. unfold plane_bytes. cbn [planes].
  rewrite list_lookup_insert.
  destruct (decide (i = plane)) as [->|Hne].
  - rewrite decide_True by auto. reflexivity.
  - rewrite decide_False by tauto. reflexivity.
Qed.

Lemma round_written_start (P : Platform) (s : CAESinkASIO) (dataPtr : list Z)
    (n : Z) (q0 : AERingBuffer) :
  cursor q0 = 0%nat -> round_written P s dataPtr n q0 q0 0.
Proof.
  intros Hc. unfold round_written. rewrite Hc, Nat.Div0.mod_0_l.
  repeat split.
Qed.

Lemma round_written_step (P : Platform) (s : CAESinkASIO) (dataPtr : list Z)
    (n : Z) (q0 q : AERingBuffer) (i : nat) (pad : list Z) :
  round_written P s dataPtr n q0 q i ->
  (i < length (planes q0))%nat ->
  plane_chunk P s dataPtr n i pad ->
  Z.of_nat (length (plane_bytes q0 i)) + n * m_sampleSize s <= capacity q0 ->
  0 <= n * m_sampleSize s ->
  round_written P s dataPtr n q0 (Write q pad (n * m_sampleSize s)) (S i).
Proof.
  intros (Hcap & Hlen & Hcur & Hplanes) Hi Hchunk Hspace Hpos.
  rewrite Nat.mod_small in Hcur by exact Hi.
  assert (Hsame : plane_bytes q i = plane_bytes q0 i).
  { specialize (Hplanes i Hi). rewrite Nat.ltb_irrefl in Hplanes. exact Hplanes. }
  rewrite Write_spec.
  2:{ unfold availableToWrite, availableToRead.
      rewrite Hcur, Hsame, Hcap. lia. }
  rewrite Hcur, Hsame, Hcap, Hlen.
  destruct Hchunk as [Hpadlen Hkind].
  rewrite take_ge by lia.
  unfold round_written. cbn [capacity planes cursor].
  rewrite length_insert. repeat split; try assumption; try reflexivity.
  intros plane Hplane.
  rewrite plane_bytes_insert by lia.
  specialize (Hplanes plane Hplane).
  destruct (decide (i = plane)) as [<-|Hne].
  - rewrite (proj2 (Nat.ltb_lt i (S i))) by lia.
    exists pad. split; [reflexivity|]. split; assumption.
  - assert (Hq : plane_bytes {| capacity := capacity q0; planes := planes q;
                               cursor := 0 |} plane = plane_bytes q plane)
      by reflexivity.
    rewrite Hq.
    destruct (Nat.ltb_spec plane i) as [Hlt|Hge].
    + rewrite (proj2 (Nat.ltb_lt plane (S i))) by lia. exact Hplanes.
    + rewrite (proj2 (Nat.ltb_ge plane (S i))) by lia. exact Hplanes.
Qed.

Lemma length_silence (outType : ASIOSampleType) (n : Z) :
  length (silence outType n) = Z.to_nat n.
Proof.
  destruct outType; cbn [silence];
    rewrite ?length_replicate, ?length_fmap, ?length_seqZ; reflexivity.
Qed.

Lemma ZeroSamples_exact (out : list Z) (outType : ASIOSampleType)
    (outSampleSize samples : Z) :
  outSampleSize = (GetASIOSampleSizeInBits outType + 7) / 8 ->
  0 <= samples < 2 ^ 32 ->
  length out = Z.to_nat (u32 (samples * outSampleSize)) ->
  ZeroSamples out outType outSampleSize samples
  = silence outType (u32 (samples * outSampleSize)).
Proof.
  intros Hsize Hs Hlen.
  rewrite ZeroSamples_spec by lia.
  assert (Hbytes : match outType with
                   | ASIOSTDSDInt8MSB1 | ASIOSTDSDInt8LSB1
                   | ASIOSTDSDInt8NER8 => samples
                   | _ => u32 (samples * outSampleSize)
                   end = u32 (samples * outSampleSize)).
  { destruct outType; try reflexivity;
      subst outSampleSize; cbn [GetASIOSampleSizeInBits];
      change ((1 + 7) / 8) with 1; change ((8 + 7) / 8) with 1;
      rewrite Z.mul_1_r; symmetry; apply u32_small; lia. }
  rewrite Hbytes, <- Hlen, drop_all, app_nil_r. reflexivity.
Qed.

Lemma level_plane (q : AERingBuffer) (plane : nat) :
  level q = true -> (plane < length (planes q))%nat ->
  Z.of_nat (length (plane_bytes q plane)) = GetReadSize q.
Proof. intros H Hp. apply (proj1 (level_iff q) H plane Hp). Qed.

Lemma GetReadSize_nonneg (q : AERingBuffer) : 0 <= GetReadSize q.
Proof. unfold GetReadSize, availableToRead. lia. Qed.

Lemma AddPackets_spec (P : Platform) (s : CAESinkASIO) (data : list Z)
    (frames offset : Z) :
  session_ok s = true ->
  let q := m_planeBuffer s in
  let n := Z.min (u32 frames) (GetWriteSize q / m_sampleSize s) in
  let dataPtr :=
    drop (Z.to_nat (u32 (u32 offset
                         * AEAudioFormat.m_frameSize (m_format s)))) data in
  exists (pad : list Z) (q' : AERingBuffer),
    AddPackets P s data frames offset
    = Some (n, set_m_planeBuffer q' (set_m_planePad pad s)) /\
    0 <= n <= u32 frames /\
    n * m_sampleSize s <= GetWriteSize q /\
    round_written P s dataPtr n q q' (length (planes q)).
Proof.
  intros Hok q n dataPtr.
  apply session_ok_iff in Hok
    as (Hinit & Hnp & Hinfos & Hcur & Hlevel & Hread & Hcap & Hsize & Hpos
        & Hb0 & Hb1).
  fold q in Hnp, Hcur, Hlevel, Hread, Hcap.
  pose proof (GetReadSize_nonneg q) as Hr0.
  pose proof (u32_range frames) as Hf.
  assert (HW : GetWriteSize q = capacity q - GetReadSize q) by reflexivity.
  assert (Hdiv : 0 <= GetWriteSize q / m_sampleSize s)
    by (apply Z.div_pos; lia).
  assert (Hmul : m_sampleSize s * (GetWriteSize q / m_sampleSize s)
                 <= GetWriteSize q) by (apply Z.mul_div_le; lia).
  assert (Hn : 0 <= n <= u32 frames) by (subst n; lia).
  assert (HB : 0 <= n * m_sampleSize s <= GetWriteSize q) by (subst n; nia).
  assert (Hu : u32 (n * m_sampleSize s) = n * m_sampleSize s)
    by (apply u32_small; lia).
  unfold AddPackets. rewrite Hinit. cbn [negb].
  destruct (Z.eqb_spec (m_sampleSize s) 0) as [E|_]; [lia|].
  fold q. fold dataPtr. fold n. rewrite Hu.
  set (fc := AEAudioFormat.m_channelLayout (m_format s)).
  set (k1 := Z.to_nat (Z.min (NumPlanes q) fc)).
  set (N := length (planes q)).
  assert (HN : NumPlanes q = Z.of_nat N) by reflexivity.
  assert (Hk1 : (k1 <= N)%nat) by (subst k1; lia).
  set (converted := foldl (AddPackets_convert P s dataPtr fc n)
                      (resize (m_planePad s) (n * m_sampleSize s), q)
                      (seq 0 k1)).
  assert (Hconv : length (fst converted) = Z.to_nat (n * m_sampleSize s) /\
                  round_written P s dataPtr n q (snd converted) k1).
  { subst converted.
    apply (foldl_seq_ind (AddPackets_convert P s dataPtr fc n)
             (fun i x => length (fst x) = Z.to_nat (n * m_sampleSize s) /\
                         round_written P s dataPtr n q (snd x) i) k1 0%nat).
    - cbn [fst snd]. split; [apply length_resize|].
      apply round_written_start. exact Hcur.
    - intros i [pad q1] Hi [Hlen Hround]. cbn [fst snd] in *.
      unfold AddPackets_convert. cbn [fst snd]. rewrite Hu.
      assert (Hpad : length (ConvertSamples P pad (m_sampleType s)
                               (m_sampleSize s) dataPtr (Z.of_nat i) fc
                               (AEAudioFormat.m_dataFormat (m_format s))
                               (m_frameSize s / fc) n) = length pad).
      { apply ConvertSamples_length; try assumption; lia. }
      split; [congruence|].
      apply round_written_step; try assumption; try lia.
      + unfold plane_chunk. fold fc. rewrite Hpad, Hlen. split; [lia|].
        rewrite (proj2 (Z.ltb_lt (Z.of_nat i) fc)) by lia.
        exists pad. split; [congruence | reflexivity].
      + rewrite level_plane by (assumption || lia). lia. }
  destruct Hconv as [Hlen1 Hround1].
  eexists _, _. split; [reflexivity|].
  split; [exact Hn|]. split; [lia|].
  destruct (Z.ltb_spec (Z.min (NumPlanes q) fc) (NumPlanes q)) as [Hlt|Hge];
    cbn [fst snd].
  - set (pad2 := ZeroSamples (fst converted) (m_sampleType s) (m_sampleSize s) n).
    assert (Hpad2 : pad2 = silence (m_sampleType s) (n * m_sampleSize s)).
    { subst pad2. rewrite <- Hu.
      apply ZeroSamples_exact; [assumption | lia | rewrite Hu; exact Hlen1]. }
    assert (Hgoal : round_written P s dataPtr n q
              (foldl (fun q' (_ : nat) => Write q' pad2 (n * m_sampleSize s))
                 (snd converted) (seq k1 (N - k1))) (k1 + (N - k1))).
    { apply (foldl_seq_ind
               (fun q' (_ : nat) => Write q' pad2 (n * m_sampleSize s))
               (fun i x => round_written P s dataPtr n q x i)
               (N - k1) k1 (snd converted)).
      - exact Hround1.
      - intros i q1 Hi Hround.
        apply round_written_step; try assumption; try lia.
        + unfold plane_chunk. fold fc. rewrite Hpad2, length_silence.
          split; [lia|].
          rewrite (proj2 (Z.ltb_ge (Z.of_nat i) fc)) by lia. reflexivity.
        + rewrite level_plane by (assumption || lia). lia. }
    replace (k1 + (N - k1))%nat with N in Hgoal by lia.
    replace (Z.to_nat (NumPlanes q)) with N by lia.
    exact Hgoal.
  - replace N with k1 by lia. exact Hround1.
Qed.

(** ** The callback *)

Lemma Read_spec (q : AERingBuffer) (size : Z) (plane : nat) :
  size <= availableToRead q plane -> (plane < length (planes q))%nat ->
  Read q size plane
  = Some (take (Z.to_nat size) (plane_bytes q plane),
          {| capacity := capacity q;
             planes := <[plane := drop (Z.to_nat size) (plane_bytes q plane)]>
                         (planes q);
             cursor := cursor q |}).
Proof.
  intros Hs Hp. unfold Read.
  rewrite (proj2 (Z.leb_le _ _)) by exact Hs.
  rewrite (proj2 (Z.ltb_lt _ _)) by (unfold NumPlanes; lia).
  reflexivity.
Qed.

Lemma sink_eta (s : CAESinkASIO) :
  set_m_planeBuffer (m_planeBuffer s) (set_m_bufferInfos (m_bufferInfos s) s)
  = s.
Proof. destruct s. reflexivity. Qed.

Lemma bufferSwitch_read_loop (s : CAESinkASIO) (doubleBufferIndex : bool)
    (size : Z) (n : nat) :
  let q := m_planeBuffer s in
  (n <= length (planes q))%nat ->
  (forall plane, (plane < n)%nat -> size <= availableToRead q plane) ->
  exists (q' : AERingBuffer) (infos' : list ASIOBufferInfo),
    foldl (bufferSwitch_read doubleBufferIndex size) s (seq 0 n)
    = set_m_planeBuffer q' (set_m_bufferInfos infos' s) /\
    capacity q' = capacity q /\
    cursor q' = cursor q /\
    length (planes q') = length (planes q) /\
    length infos' = length (m_bufferInfos s) /\
    (forall plane, (plane < length (planes q))%nat ->
       plane_bytes q' plane
       = if (plane <? n)%nat
         then drop (Z.to_nat size) (plane_bytes q plane)
         else plane_bytes q plane) /\
    (forall plane,
       infos' !! plane
       = if (plane <? n)%nat
         then update_half doubleBufferIndex
                (fun dest => store dest
                               (take (Z.to_nat size) (plane_bytes q plane)))
              <$> m_bufferInfos s !! plane
         else m_bufferInfos s !! plane).
Proof.
  intros q Hn Havail.
  apply (foldl_seq_ind (bufferSwitch_read doubleBufferIndex size)
           (fun i x =>
              (i <= n)%nat ->
              exists q' infos',
                x = set_m_planeBuffer q' (set_m_bufferInfos infos' s) /\
                capacity q' = capacity q /\
                cursor q' = cursor q /\
                length (planes q') = length (planes q) /\
                length infos' = length (m_bufferInfos s) /\
                (forall plane, (plane < length (planes q))%nat ->
                   plane_bytes q' plane
                   = if (plane <? i)%nat
                     then drop (Z.to_nat size) (plane_bytes q plane)
                     else plane_bytes q plane) /\
                (forall plane,
                   infos' !! plane
                   = if (plane <? i)%nat
                     then update_half doubleBufferIndex
                            (fun dest =>
                               store dest
                                 (take (Z.to_nat size) (plane_bytes q plane)))
                          <$> m_bufferInfos s !! plane
                     else m_bufferInfos s !! plane))
           n 0%nat s); [| |lia].
  - intros _. exists q, (m_bufferInfos s).
    split; [symmetry; apply sink_eta|]. repeat split; reflexivity.
  - intros i x Hi IH _.
    destruct IH as (q1 & infos1 & -> & Hcap & Hcur & Hlen & Hil & Hpl & Hin);
      [lia|].
    unfold bufferSwitch_read.
    assert (Hq1 : m_planeBuffer (set_m_planeBuffer q1 (set_m_bufferInfos infos1 s))
                  = q1) by reflexivity.
    assert (Hi1 : m_bufferInfos (set_m_planeBuffer q1 (set_m_bufferInfos infos1 s))
                  = infos1) by reflexivity.
    rewrite Hq1, Hi1.
    assert (Hsame : plane_bytes q1 i = plane_bytes q i).
    { rewrite Hpl by lia. rewrite Nat.ltb_irrefl. reflexivity. }
    rewrite Read_spec.
    2:{ unfold availableToRead. rewrite Hsame. apply Havail. lia. }
    2:{ lia. }
    rewrite Hsame.
    exists {| capacity := capacity q1;
              planes := <[i := drop (Z.to_nat size) (plane_bytes q i)]>
                          (planes q1);
              cursor := cursor q1 |},
           (write_half doubleBufferIndex
              (fun dest => store dest (take (Z.to_nat size) (plane_bytes q i)))
              i infos1).
    split; [reflexivity|].
    cbn [capacity cursor planes]. rewrite length_insert.
    unfold write_half. rewrite length_alter.
    repeat split; try assumption.
    + intros plane Hplane. rewrite plane_bytes_insert by lia.
      destruct (decide (i = plane)) as [<-|Hne].
      * rewrite (proj2 (Nat.ltb_lt i (S i))) by lia. reflexivity.
      * change (plane_bytes {| capacity := capacity q1; planes := planes q1;
                               cursor := 0 |} plane) with (plane_bytes q1 plane).
        rewrite Hpl by exact Hplane.
        destruct (Nat.ltb_spec plane i).
        -- rewrite (proj2 (Nat.ltb_lt plane (S i))) by lia. reflexivity.
        -- rewrite (proj2 (Nat.ltb_ge plane (S i))) by lia. reflexivity.
    + intros plane. rewrite list_lookup_alter.
      destruct (decide (i = plane)) as [<-|Hne].
      * rewrite (proj2 (Nat.ltb_lt i (S i))) by lia.
        rewrite Hin, Nat.ltb_irrefl. reflexivity.
      * rewrite Hin.
        destruct (Nat.ltb_spec plane i).
        -- rewrite (proj2 (Nat.ltb_lt plane (S i))) by lia. reflexivity.
        -- rewrite (proj2 (Nat.ltb_ge plane (S i))) by lia. reflexivity.
Qed.

Lemma bufferSwitch_zero_loop (s : CAESinkASIO) (doubleBufferIndex : bool)
    (n : nat) :
  exists infos' : list ASIOBufferInfo,
    foldl (bufferSwitch_zero doubleBufferIndex) s (seq 0 n)
    = set_m_bufferInfos infos' s /\
    length infos' = length (m_bufferInfos s) /\
    (forall plane,
       infos' !! plane
       = if (plane <? n)%nat
         then update_half doubleBufferIndex
                (fun dest => ZeroSamples dest (m_sampleType s)
                               (m_sampleSize s) (m_bufferSize s))
              <$> m_bufferInfos s !! plane
         else m_bufferInfos s !! plane).
Proof.
  apply (foldl_seq_ind (bufferSwitch_zero doubleBufferIndex)
           (fun i x =>
              exists infos',
                x = set_m_bufferInfos infos' s /\
                length infos' = length (m_bufferInfos s) /\
                (forall plane,
                   infos' !! plane
                   = if (plane <? i)%nat
                     then update_half doubleBufferIndex
                            (fun dest => ZeroSamples dest (m_sampleType s)
                                           (m_sampleSize s) (m_bufferSize s))
                          <$> m_bufferInfos s !! plane
                     else m_bufferInfos s !! plane))
           n 0%nat s).
  - exists (m_bufferInfos s). split; [destruct s; reflexivity|].
    split; reflexivity.
  - intros i x Hi (infos1 & -> & Hil & Hin).
    unfold bufferSwitch_zero.
    change (m_bufferInfos (set_m_bufferInfos infos1 s)) with infos1.
    change (m_sampleType (set_m_bufferInfos infos1 s)) with (m_sampleType s).
    change (m_sampleSize (set_m_bufferInfos infos1 s)) with (m_sampleSize s).
    change (m_bufferSize (set_m_bufferInfos infos1 s)) with (m_bufferSize s).
    exists (write_half doubleBufferIndex
              (fun dest => ZeroSamples dest (m_sampleType s) (m_sampleSize s)
                             (m_bufferSize s)) i infos1).
    split; [reflexivity|].
    unfold write_half. rewrite length_alter. split; [assumption|].
    intros plane. rewrite list_lookup_alter.
    destruct (decide (i = plane)) as [<-|Hne].
    + rewrite (proj2 (Nat.ltb_lt i (S i))) by lia.
      rewrite Hin, Nat.ltb_irrefl. reflexivity.
    + rewrite Hin.
      destruct (Nat.ltb_spec plane i).
      * rewrite (proj2 (Nat.ltb_lt plane (S i))) by lia. reflexivity.
      * rewrite (proj2 (Nat.ltb_ge plane (S i))) by lia. reflexivity.
Qed.

Lemma GetReadSize_planes (q : AERingBuffer) :
  GetReadSize q = Z.of_nat (length (plane_bytes q 0)).
Proof. reflexivity. Qed.

Lemma plane_bytes_outside (q : AERingBuffer) (plane : nat) :
  (length (planes q) <= plane)%nat -> plane_bytes q plane = [].
Proof.
  intros H. unfold plane_bytes. rewrite lookup_ge_None_2 by exact H.
  reflexivity.
Qed.

(** A queue all of whose planes hold [size] bytes. *)
Lemma level_uniform (q : AERingBuffer) (size : Z) :
  0 <= size ->
  (forall plane, (plane < length (planes q))%nat ->
                 Z.of_nat (length (plane_bytes q plane)) = size) ->
  level q = true /\
  GetReadSize q = if (0 <? length (planes q))%nat then size else 0.
Proof.
  intros Hsize H.
  assert (Hread : GetReadSize q
                  = if (0 <? length (planes q))%nat then size else 0).
  { rewrite GetReadSize_planes.
    destruct (Nat.ltb_spec 0 (length (planes q))) as [Hlt|Hge].
    - apply H. exact Hlt.
    - rewrite plane_bytes_outside by exact Hge. reflexivity. }
  split; [|exact Hread].
  apply level_iff. intros plane Hp. unfold availableToRead.
  rewrite (H plane Hp), Hread.
  rewrite (proj2 (Nat.ltb_lt 0 (length (planes q)))) by lia. reflexivity.
Qed.

Lemma AddPackets_session_ok (P : Platform) (s : CAESinkASIO) (data : list Z)
    (frames offset : Z) :
  session_ok s = true ->
  exists (n : Z) (s' : CAESinkASIO),
    AddPackets P s data frames offset = Some (n, s') /\
    session_ok s' = true.
Proof.
  intros Hok.
  destruct (AddPackets_spec P s data frames offset Hok)
    as (pad & q' & Hadd & Hn & Hspace & Hcap' & Hlen' & Hcur' & Hplanes).
  eexists _, _. split; [exact Hadd|].
  apply session_ok_iff in Hok
    as (Hinit & Hnp & Hinfos & Hcur & Hlevel & Hread & Hcap & Hsize & Hpos
        & Hb0 & Hb1).
  pose proof (GetReadSize_nonneg (m_planeBuffer s)) as Hr0.
  set (n := Z.min (u32 frames)
              (GetWriteSize (m_planeBuffer s) / m_sampleSize s)) in *.
  assert (HW : GetWriteSize (m_planeBuffer s)
               = capacity (m_planeBuffer s) - GetReadSize (m_planeBuffer s))
    by reflexivity.
  destruct (level_uniform q'
              (GetReadSize (m_planeBuffer s) + n * m_sampleSize s))
    as [Hlevel' Hread'].
  { nia. }
  { intros plane Hp. rewrite Hlen' in Hp.
    specialize (Hplanes plane Hp).
    rewrite (proj2 (Nat.ltb_lt _ _)) in Hplanes by exact Hp.
    destruct Hplanes as (bytes & -> & Hbytes & _).
    rewrite length_app, Nat2Z.inj_add, Hbytes.
    rewrite level_plane by assumption. reflexivity. }
  apply session_ok_iff.
  change (m_planeBuffer (set_m_planeBuffer q' (set_m_planePad pad s))) with q'.
  cbn [set_m_planeBuffer set_m_planePad m_initialized m_planeCount
       m_bufferInfos m_sampleSize m_sampleType m_bufferSize].
  unfold NumPlanes in *. rewrite Hlen', Hcap', Hread', Hcur'.
  rewrite Nat.Div0.mod_same.
  repeat split; try assumption; try lia.
  destruct (0 <? length (planes q'))%nat; nia.
Qed.

Lemma length_planes_session (s : CAESinkASIO) :
  session_ok s = true ->
  length (planes (m_planeBuffer s)) = Z.to_nat (m_planeCount s) /\
  length (m_bufferInfos s) = Z.to_nat (m_planeCount s).
Proof.
  intros Hok. apply session_ok_iff in Hok as (_ & Hnp & Hinfos & _).
  unfold NumPlanes in Hnp. lia.
Qed.

Lemma bufferSwitch_fed (s : CAESinkASIO) (doubleBufferIndex : bool) :
  session_ok s = true ->
  let q := m_planeBuffer s in
  let need := u32 (m_bufferSize s * m_sampleSize s) in
  need <= GetReadSize q ->
  exists (q' : AERingBuffer) (infos' : list ASIOBufferInfo),
    bufferSwitch s doubleBufferIndex
    = set_m_planeBuffer q' (set_m_bufferInfos infos' s) /\
    capacity q' = capacity q /\
    cursor q' = cursor q /\
    length (planes q') = length (planes q) /\
    length infos' = length (m_bufferInfos s) /\
    (forall plane, (plane < length (planes q))%nat ->
       plane_bytes q' plane = drop (Z.to_nat need) (plane_bytes q plane)) /\
    (forall plane,
       infos' !! plane
       = if (plane <? length (planes q))%nat
         then update_half doubleBufferIndex
                (fun dest => store dest
                               (take (Z.to_nat need) (plane_bytes q plane)))
              <$> m_bufferInfos s !! plane
         else m_bufferInfos s !! plane).
Proof.
  intros Hok q need Hneed.
  destruct (length_planes_session s Hok) as [Hlen _]. fold q in Hlen.
  pose proof (proj1 (session_ok_iff s) Hok) as (_ & _ & _ & _ & Hlevel & _).
  unfold bufferSwitch. fold q. fold need.
  rewrite (proj2 (Z.leb_le _ _)) by exact Hneed.
  rewrite <- Hlen.
  destruct (bufferSwitch_read_loop s doubleBufferIndex need
              (length (planes q)))
    as (q' & infos' & Hrun & Hcap & Hcur & Hl & Hil & Hpl & Hin).
  { fold q. lia. }
  { intros plane Hp. fold q.
    rewrite (proj1 (level_iff q) Hlevel plane Hp). exact Hneed. }
  exists q', infos'. fold q in Hpl, Hin, Hcap, Hcur, Hl.
  repeat split; try assumption.
  intros plane Hp. rewrite Hpl by exact Hp.
  rewrite (proj2 (Nat.ltb_lt _ _)) by exact Hp. reflexivity.
Qed.

Lemma bufferSwitch_starved (s : CAESinkASIO) (doubleBufferIndex : bool) :
  session_ok s = true ->
  let q := m_planeBuffer s in
  let need := u32 (m_bufferSize s * m_sampleSize s) in
  GetReadSize q < need ->
  exists infos' : list ASIOBufferInfo,
    bufferSwitch s doubleBufferIndex = set_m_bufferInfos infos' s /\
    length infos' = length (m_bufferInfos s) /\
    (forall plane,
       infos' !! plane
       = if (plane <? length (planes q))%nat
         then update_half doubleBufferIndex
                (fun dest => ZeroSamples dest (m_sampleType s)
                               (m_sampleSize s) (m_bufferSize s))
              <$> m_bufferInfos s !! plane
         else m_bufferInfos s !! plane).
Proof.
  intros Hok q need Hneed.
  destruct (length_planes_session s Hok) as [Hlen _]. fold q in Hlen.
  unfold bufferSwitch. fold q. fold need.
  rewrite (proj2 (Z.leb_gt _ _)) by exact Hneed.
  rewrite <- Hlen.
  apply bufferSwitch_zero_loop.
Qed.

Lemma bufferSwitch_session_ok (s : CAESinkASIO) (doubleBufferIndex : bool) :
  session_ok s = true -> session_ok (bufferSwitch s doubleBufferIndex) = true.
Proof.
  intros Hok.
  pose proof (proj1 (session_ok_iff s) Hok)
    as (Hinit & Hnp & Hinfos & Hcur & Hlevel & Hread & Hcap & Hsize & Hpos
        & Hb0 & Hb1).
  pose proof (u32_range (m_bufferSize s * m_sampleSize s)) as Hneed.
  destruct (Z.le_gt_cases (u32 (m_bufferSize s * m_sampleSize s))
              (GetReadSize (m_planeBuffer s))) as [Hfed|Hstarved].
  - destruct (bufferSwitch_fed s doubleBufferIndex Hok Hfed)
      as (q' & infos' & -> & Hcap' & Hcur' & Hlen' & Hil & Hpl & _).
    destruct (level_uniform q'
                (GetReadSize (m_planeBuffer s)
                 - u32 (m_bufferSize s * m_sampleSize s)))
      as [Hlevel' Hread'].
    { lia. }
    { intros plane Hp. rewrite Hlen' in Hp. rewrite Hpl by exact Hp.
      pose proof (level_plane _ plane Hlevel Hp) as HL.
      rewrite length_drop. lia. }
    apply session_ok_iff.
    change (m_planeBuffer (set_m_planeBuffer q' (set_m_bufferInfos infos' s)))
      with q'.
    cbn [set_m_planeBuffer set_m_bufferInfos m_initialized m_planeCount
         m_bufferInfos m_sampleSize m_sampleType m_bufferSize].
    unfold NumPlanes in *. rewrite Hlen', Hcap', Hread', Hcur', Hil.
    pose proof (GetReadSize_nonneg (m_planeBuffer s)).
    repeat split; try assumption; try lia.
    destruct (0 <? length (planes q'))%nat; lia.
  - destruct (bufferSwitch_starved s doubleBufferIndex Hok Hstarved)
      as (infos' & -> & Hil & _).
    apply session_ok_iff.
    change (m_planeBuffer (set_m_bufferInfos infos' s)) with (m_planeBuffer s).
    cbn [set_m_bufferInfos m_initialized m_planeCount
         m_bufferInfos m_sampleSize m_sampleType m_bufferSize].
    rewrite Hil. repeat split; assumption.
Qed.

Lemma run_session_ok (P : Platform) (ops : list operation) :
  forall s : CAESinkASIO,
  session_ok s = true ->
  exists s' : CAESinkASIO, run P s ops = Some s' /\ session_ok s' = true.
Proof.
  induction ops as [|op ops IH]; intros s Hok.
  - exists s. split; [reflexivity | exact Hok].
  - cbn [run]. destruct op as [data frames offset|doubleBufferIndex];
      cbn [step].
    + destruct (AddPackets_session_ok P s data frames offset Hok)
        as (n & s1 & -> & Hok1).
      cbn [fmap option_fmap option_map snd]. apply IH. exact Hok1.
    + apply IH. apply bufferSwitch_session_ok. exact Hok.
Qed.

(** ** Streaming properties *)

Lemma halves_sized_lookup (s : CAESinkASIO) (doubleBufferIndex : bool)
    (plane : nat) (info : ASIOBufferInfo) :
  halves_sized s doubleBufferIndex = true ->
  m_bufferInfos s !! plane = Some info ->
  length (half doubleBufferIndex (buffers info))
  = Z.to_nat (u32 (m_bufferSize s * m_sampleSize s)).
Proof.
  unfold halves_sized. rewrite forallb_forall. intros H Hl.
  assert (Hin : In info (m_bufferInfos s)).
  { apply list_elem_of_In, list_elem_of_lookup. eauto. }
  apply H, Z.eqb_eq in Hin. lia.
Qed.

Lemma half_set_half (doubleBufferIndex : bool) (b : list Z * list Z)
    (mem : list Z) :
  half doubleBufferIndex (set_half doubleBufferIndex b mem) = mem /\
  half (negb doubleBufferIndex) (set_half doubleBufferIndex b mem)
  = half (negb doubleBufferIndex) b.
Proof. destruct doubleBufferIndex, b; split; reflexivity. Qed.

Lemma other_half_kept (s : CAESinkASIO) (doubleBufferIndex : bool)
    (f : nat -> list Z -> list Z) (infos' : list ASIOBufferInfo) (n plane : nat) :
  infos' !! plane
  = (if (plane <? n)%nat
     then update_half doubleBufferIndex (f plane) <$> m_bufferInfos s !! plane
     else m_bufferInfos s !! plane) ->
  half (negb doubleBufferIndex) (buffers (default null_info (infos' !! plane)))
  = buffer_half s (negb doubleBufferIndex) plane.
Proof.
  intros ->. unfold buffer_half.
  destruct (plane <? n)%nat; [|reflexivity].
  destruct (m_bufferInfos s !! plane) as [info|]; [|reflexivity].
  cbn [fmap option_fmap option_map from_option id update_half buffers].
  apply half_set_half.
Qed.

(** Claim C1.  In one callback, with [need] the bytes of one buffer half
    ([m_bufferSize * m_sampleSize]): if every plane of the queue holds at
    least [need] readable bytes, each plane's buffer half receives exactly
    the oldest [need] bytes of that plane, in queue order, and the plane
    loses exactly those bytes; otherwise the queue is left alone and each
    plane's buffer half is the silence of the native type over all its
    [need] bytes.  No plane is treated differently from the others, and
    the other buffer half is not written. *)
Theorem bufferSwitch_all_or_nothing (s : CAESinkASIO)
    (doubleBufferIndex : bool) :
  session_ok s = true ->
  halves_sized s doubleBufferIndex = true ->
  let need := u32 (m_bufferSize s * m_sampleSize s) in
  let q := m_planeBuffer s in
  let s' := bufferSwitch s doubleBufferIndex in
  let every_plane_ready :=
    forall plane, (plane < length (planes q))%nat ->
                  need <= availableToRead q plane in
  (m_bufferSize s * m_sampleSize s < 2 ^ 32 ->
   need = m_bufferSize s * m_sampleSize s) /\
  (every_plane_ready ->
   forall plane, (plane < length (planes q))%nat ->
     buffer_half s' doubleBufferIndex plane
     = take (Z.to_nat need) (plane_bytes q plane) /\
     plane_bytes (m_planeBuffer s') plane
     = drop (Z.to_nat need) (plane_bytes q plane)) /\
  (~ every_plane_ready ->
   m_planeBuffer s' = q /\
   forall plane, (plane < length (planes q))%nat ->
     buffer_half s' doubleBufferIndex plane = silence (m_sampleType s) need) /\
  (forall plane,
     buffer_half s' (negb doubleBufferIndex) plane
     = buffer_half s (negb doubleBufferIndex) plane).
Proof.
  intros Hok Hsized need q s' ready.
  pose proof (proj1 (session_ok_iff s) Hok)
    as (Hinit & Hnp & Hinfos & Hcur & Hlevel & Hread & Hcap & Hsize & Hpos
        & Hb0 & Hb1).
  destruct (length_planes_session s Hok) as [Hlenq Hleni]. fold q in Hlenq.
  pose proof (u32_range (m_bufferSize s * m_sampleSize s)) as Hneed.
  fold need in Hneed.
  assert (Hready : need <= GetReadSize q -> ready).
  { intros H plane Hp. rewrite (proj1 (level_iff q) Hlevel plane Hp). exact H. }
  assert (Hinfo : forall plane, (plane < length (planes q))%nat ->
            exists info, m_bufferInfos s !! plane = Some info).
  { intros plane Hp. apply lookup_lt_is_Some_2. lia. }
  split; [intros Hsmall; apply u32_small; nia|].
  destruct (Z.le_gt_cases need (GetReadSize q)) as [Hfed|Hstarved].
  - destruct (bufferSwitch_fed s doubleBufferIndex Hok Hfed)
      as (q' & infos' & Hrun & _ & _ & _ & _ & Hpl & Hin).
    fold q in Hpl, Hin. fold need in Hpl, Hin.
    assert (Es' : s' = set_m_planeBuffer q' (set_m_bufferInfos infos' s))
      by exact Hrun.
    split; [|split].
    + intros _ plane Hp. rewrite Es'.
      change (m_planeBuffer (set_m_planeBuffer q' (set_m_bufferInfos infos' s)))
        with q'.
      unfold buffer_half.
      change (m_bufferInfos (set_m_planeBuffer q' (set_m_bufferInfos infos' s)))
        with infos'.
      split; [|apply Hpl; exact Hp].
      rewrite Hin, (proj2 (Nat.ltb_lt _ _)) by exact Hp.
      destruct (Hinfo plane Hp) as [info Hi]. rewrite Hi.
      cbn [fmap option_fmap option_map from_option id update_half buffers].
      rewrite (proj1 (half_set_half _ _ _)).
      apply store_exact.
      rewrite (halves_sized_lookup s doubleBufferIndex plane info Hsized Hi).
      fold need. rewrite length_take.
      pose proof (level_plane q plane Hlevel Hp). lia.
    + intros Hnot. exfalso. apply Hnot, Hready, Hfed.
    + intros plane. rewrite Es'. unfold buffer_half at 1.
      change (m_bufferInfos (set_m_planeBuffer q' (set_m_bufferInfos infos' s)))
        with infos'.
      apply (other_half_kept s doubleBufferIndex
               (fun plane dest =>
                  store dest (take (Z.to_nat need) (plane_bytes q plane)))
               infos' (length (planes q)) plane).
      apply Hin.
  - destruct (bufferSwitch_starved s doubleBufferIndex Hok Hstarved)
      as (infos' & Hrun & _ & Hin).
    fold q in Hin.
    assert (Es' : s' = set_m_bufferInfos infos' s) by exact Hrun.
    split; [|split].
    + intros Hall plane Hp. exfalso.
      specialize (Hall plane Hp).
      rewrite (proj1 (level_iff q) Hlevel plane Hp) in Hall. lia.
    + intros _. rewrite Es'. split; [reflexivity|].
      intros plane Hp. unfold buffer_half.
      change (m_bufferInfos (set_m_bufferInfos infos' s)) with infos'.
      rewrite Hin, (proj2 (Nat.ltb_lt _ _)) by exact Hp.
      destruct (Hinfo plane Hp) as [info Hi]. rewrite Hi.
      cbn [fmap option_fmap option_map from_option id update_half buffers].
      rewrite (proj1 (half_set_half _ _ _)).
      apply ZeroSamples_exact; [exact Hsize | lia |].
      apply (halves_sized_lookup s doubleBufferIndex plane info Hsized Hi).
    + intros plane. rewrite Es'. unfold buffer_half at 1.
      change (m_bufferInfos (set_m_bufferInfos infos' s)) with infos'.
      apply (other_half_kept s doubleBufferIndex
               (fun _ dest => ZeroSamples dest (m_sampleType s)
                                (m_sampleSize s) (m_bufferSize s))
               infos' (length (planes q)) plane).
      apply Hin.
Qed.

Lemma bufferSwitch_all_or_nothing_witness :
  let s := fed_session in
  let need := u32 (m_bufferSize s * m_sampleSize s) in
  let q := m_planeBuffer s in
  let s' := bufferSwitch s false in
  let every_plane_ready :=
    forall plane, (plane < length (planes q))%nat ->
                  need <= availableToRead q plane in
  (m_bufferSize s * m_sampleSize s < 2 ^ 32 ->
   need = m_bufferSize s * m_sampleSize s) /\
  (every_plane_ready ->
   forall plane, (plane < length (planes q))%nat ->
     buffer_half s' false plane
     = take (Z.to_nat need) (plane_bytes q plane) /\
     plane_bytes (m_planeBuffer s') plane
     = drop (Z.to_nat need) (plane_bytes q plane)) /\
  (~ every_plane_ready ->
   m_planeBuffer s' = q /\
   forall plane, (plane < length (planes q))%nat ->
     buffer_half s' false plane = silence (m_sampleType s) need) /\
  (forall plane,
     buffer_half s' (negb false) plane = buffer_half s (negb false) plane).
Proof.
  apply (bufferSwitch_all_or_nothing fed_session false).
  - vm_compute. reflexivity.
  - vm_compute. reflexivity.
Defined.

Lemma seconds_lt (a c b : Z) :
  0 < b ->
  (inject_Z a / inject_Z b < inject_Z c / inject_Z b)%Q <-> a < c.
Proof.
  intros Hb. unfold Qdiv. rewrite Qmult_lt_r, <- Zlt_Qlt; [reflexivity|].
  apply Qinv_lt_0_compat. change (inject_Z 0 < inject_Z b)%Q.
  rewrite <- Zlt_Qlt. exact Hb.
Qed.

Lemma seconds_le (a c b : Z) :
  0 < b ->
  (inject_Z a / inject_Z b <= inject_Z c / inject_Z b)%Q <-> a <= c.
Proof.
  intros Hb. unfold Qdiv. rewrite Qmult_le_r, <- Zle_Qle; [reflexivity|].
  apply Qinv_lt_0_compat. change (inject_Z 0 < inject_Z b)%Q.
  rewrite <- Zlt_Qlt. exact Hb.
Qed.

Lemma GetReadSize_after_bufferSwitch (s : CAESinkASIO)
    (doubleBufferIndex : bool) :
  session_ok s = true -> 0 < m_planeCount s ->
  let need := u32 (m_bufferSize s * m_sampleSize s) in
  let s' := bufferSwitch s doubleBufferIndex in
  let r := GetReadSize (m_planeBuffer s) in
  m_initialized s' = true /\
  m_planeBytesPerSec s' = m_planeBytesPerSec s /\
  GetReadSize (m_planeBuffer s') = if need <=? r then r - need else r.
Proof.
  intros Hok Hplanes need s' r.
  pose proof (proj1 (session_ok_iff s) Hok) as (Hinit & _ & _ & _ & Hlevel & _).
  destruct (length_planes_session s Hok) as [Hlenq _].
  destruct (Z.leb_spec need r) as [Hfed|Hstarved].
  - destruct (bufferSwitch_fed s doubleBufferIndex Hok Hfed)
      as (q' & infos' & Hrun & _ & _ & _ & _ & Hpl & _).
    subst s'. rewrite Hrun.
    split; [exact Hinit|]. split; [reflexivity|].
    change (m_planeBuffer (set_m_planeBuffer q' (set_m_bufferInfos infos' s)))
      with q'.
    assert (H0 : (0 < length (planes (m_planeBuffer s)))%nat)
      by (rewrite Hlenq; clear - Hplanes; lia).
    rewrite GetReadSize_planes, (Hpl 0%nat H0).
    rewrite length_drop. fold need.
    pose proof (u32_range (m_bufferSize s * m_sampleSize s)) as Hneed.
    fold need in Hneed. subst r.
    rewrite GetReadSize_planes in *. lia.
  - destruct (bufferSwitch_starved s doubleBufferIndex Hok Hstarved)
      as (infos' & Hrun & _).
    subst s'. rewrite Hrun.
    split; [exact Hinit|]. split; reflexivity.
Qed.

(** Claim C8, as the code has it.  Across one callback with no
    [AddPackets] in between, the delay never grows.  It shrinks, by
    [need / m_planeBytesPerSec] with [need] the bytes of one buffer half,
    exactly when the queue holds at least [need] bytes and [need] is not
    zero; when the queue holds fewer bytes the callback plays silence and
    the delay stays what it was. *)
Theorem GetDelay_after_bufferSwitch (s : CAESinkASIO)
    (doubleBufferIndex : bool) :
  session_ok s = true ->
  0 < m_planeCount s ->
  0 < m_planeBytesPerSec s ->
  let need := u32 (m_bufferSize s * m_sampleSize s) in
  let s' := bufferSwitch s doubleBufferIndex in
  let r := GetReadSize (m_planeBuffer s) in
  let r' := GetReadSize (m_planeBuffer s') in
  let before := (inject_Z r / inject_Z (m_planeBytesPerSec s))%Q in
  let after := (inject_Z r' / inject_Z (m_planeBytesPerSec s))%Q in
  GetDelay s = RFinite before /\
  GetDelay s' = RFinite after /\
  (need <= r -> r' = r - need) /\
  (r < need -> r' = r) /\
  (after <= before)%Q /\
  ((after < before)%Q <-> 0 < need <= r).
Proof.
  intros Hok Hplanes Hbps need s' r r' before after.
  pose proof (proj1 (session_ok_iff s) Hok) as (Hinit & _).
  destruct (GetReadSize_after_bufferSwitch s doubleBufferIndex Hok Hplanes)
    as (Hinit' & Hbps' & Hr').
  fold s' in Hinit', Hbps', Hr'. fold need in Hr'. fold r in Hr'.
  fold r' in Hr'.
  pose proof (u32_range (m_bufferSize s * m_sampleSize s)) as Hneed.
  fold need in Hneed.
  assert (Hd : forall x, 0 < m_planeBytesPerSec x -> m_initialized x = true ->
            GetDelay x = RFinite (inject_Z (GetReadSize (m_planeBuffer x))
                                  / inject_Z (m_planeBytesPerSec x))%Q).
  { intros x Hx Hi. unfold GetDelay, seconds. rewrite Hi. cbn [negb].
    destruct (Z.eqb_spec (m_planeBytesPerSec x) 0); [lia | reflexivity]. }
  split; [apply Hd; assumption|].
  split; [subst after r'; rewrite <- Hbps'; apply Hd; [lia | assumption]|].
  destruct (Z.leb_spec need r) as [Hfed|Hstarved].
  - split; [intros _; exact Hr'|]. split; [lia|].
    subst before after.
    split; [apply seconds_le; lia|].
    rewrite seconds_lt by lia. lia.
  - split; [lia|]. split; [intros _; exact Hr'|].
    subst before after.
    split; [apply seconds_le; lia|].
    rewrite seconds_lt by lia. lia.
Qed.

(** Claim C10.  In a session negotiated against a listed native type,
    after any sequence of [AddPackets] calls and callbacks all planes of
    the queue hold the same number of readable bytes, and a further
    [AddPackets] call succeeds and appends to every plane the same number
    of bytes, the frames consumed times the native sample size; a plane
    beyond the host channel count receives the silence of the native
    type. *)
Lemma GetDelay_after_bufferSwitch_witness :
  let s := fed_session in
  let need := u32 (m_bufferSize s * m_sampleSize s) in
  let s' := bufferSwitch s false in
  let r := GetReadSize (m_planeBuffer s) in
  let r' := GetReadSize (m_planeBuffer s') in
  let before := (inject_Z r / inject_Z (m_planeBytesPerSec s))%Q in
  let after := (inject_Z r' / inject_Z (m_planeBytesPerSec s))%Q in
  GetDelay s = RFinite before /\
  GetDelay s' = RFinite after /\
  (need <= r -> r' = r - need) /\
  (r < need -> r' = r) /\
  (after <= before)%Q /\
  ((after < before)%Q <-> 0 < need <= r).
Proof.
  apply (GetDelay_after_bufferSwitch fed_session false).
  - vm_compute. reflexivity.
  - vm_compute. reflexivity.
  - vm_compute. reflexivity.
Defined.

(** Claim C8, as stated, fails: with four bytes queued per plane and a
    buffer half of eight bytes, two consecutive callbacks play silence and
    leave the delay at 4 / 768000 seconds; it neither decreases nor
    reaches zero. *)
Lemma GetDelay_stays_on_underrun :
  let s := starved_session in
  let s1 := bufferSwitch s false in
  let s2 := bufferSwitch s1 true in
  m_initialized s = true /\
  GetReadSize (m_planeBuffer s) = 4 /\
  u32 (m_bufferSize s * m_sampleSize s) = 8 /\
  GetDelay s = RFinite (inject_Z 4 / inject_Z 768000)%Q /\
  GetDelay s1 = GetDelay s /\
  GetDelay s2 = GetDelay s /\
  ~ (inject_Z 4 / inject_Z 768000 < inject_Z 4 / inject_Z 768000)%Q /\
  ~ (inject_Z 4 / inject_Z 768000 == 0)%Q.
Proof.
  vm_compute. repeat split; congruence.
Qed.

Theorem AddPackets_planes_level (P : Platform) (s0 : CAESinkASIO)
    (drv : Driver) (format : AEAudioFormat.t) (s : CAESinkASIO)
    (format' : AEAudioFormat.t) (ops : list operation) :
  Initialize s0 drv format = (true, s, format') ->
  m_sampleType s <> ASIOSTOther ->
  exists s1 : CAESinkASIO,
    run P s ops = Some s1 /\
    (forall plane, (plane < length (planes (m_planeBuffer s1)))%nat ->
       availableToRead (m_planeBuffer s1) plane
       = GetReadSize (m_planeBuffer s1)) /\
    forall (data : list Z) (frames offset : Z),
    exists (n : Z) (s2 : CAESinkASIO),
      AddPackets P s1 data frames offset = Some (n, s2) /\
      0 <= n <= u32 frames /\
      length (planes (m_planeBuffer s2)) = length (planes (m_planeBuffer s1)) /\
      forall plane, (plane < length (planes (m_planeBuffer s1)))%nat ->
      exists bytes : list Z,
        plane_bytes (m_planeBuffer s2) plane
        = plane_bytes (m_planeBuffer s1) plane ++ bytes /\
        Z.of_nat (length bytes) = n * m_sampleSize s1 /\
        (AEAudioFormat.m_channelLayout (m_format s1) <= Z.of_nat plane ->
         bytes = silence (m_sampleType s1) (n * m_sampleSize s1)).
Proof.
  intros Hinit Htype.
  pose proof (Initialize_session_ok _ _ _ _ _ Hinit Htype) as Hok.
  destruct (run_session_ok P ops s Hok) as (s1 & Hrun & Hok1).
  exists s1. split; [exact Hrun|].
  pose proof (proj1 (session_ok_iff s1) Hok1) as (_ & _ & _ & _ & Hlevel & _).
  split; [apply level_iff; exact Hlevel|].
  intros data frames offset.
  destruct (AddPackets_spec P s1 data frames offset Hok1)
    as (pad & q' & Hadd & Hn & _ & _ & Hlen' & _ & Hplanes).
  eexists _, _. split; [exact Hadd|]. split; [exact Hn|].
  change (m_planeBuffer (set_m_planeBuffer q' (set_m_planePad pad s1)))
    with q'.
  split; [exact Hlen'|].
  intros plane Hp. specialize (Hplanes plane Hp).
  rewrite (proj2 (Nat.ltb_lt _ _)) in Hplanes by exact Hp.
  destruct Hplanes as (bytes & Hbytes & Hlenb & Hkind).
  exists bytes. split; [exact Hbytes|]. split; [exact Hlenb|].
  intros Hbeyond.
  rewrite (proj2 (Z.ltb_ge _ _)) in Hkind by exact Hbeyond. exact Hkind.
Qed.

(** Claim C5.  A successful negotiation sets the host frame size to the
    channel count times the host sample size in bytes and the frame count
    to the sample rate over 75, over 8 again at or above the density
    threshold; the caller's format receives both.  For 48000 Hz, two
    channels, float32 against a 16-bit MSB native type with two output
    channels the frame size is 8 and the frame count 640, and [AddPackets]
    of 640 frames into the empty queue consumes all 640 and writes 1280
    bytes to each of the two planes, 2560 in all. *)
Lemma AddPackets_planes_level_witness :
  exists s1 : CAESinkASIO,
    run sample_platform stereo_session
      [OpAddPackets two_frames 2 0; OpBufferSwitch false] = Some s1 /\
    (forall plane, (plane < length (planes (m_planeBuffer s1)))%nat ->
       availableToRead (m_planeBuffer s1) plane
       = GetReadSize (m_planeBuffer s1)) /\
    forall (data : list Z) (frames offset : Z),
    exists (n : Z) (s2 : CAESinkASIO),
      AddPackets sample_platform s1 data frames offset = Some (n, s2) /\
      0 <= n <= u32 frames /\
      length (planes (m_planeBuffer s2)) = length (planes (m_planeBuffer s1)) /\
      forall plane, (plane < length (planes (m_planeBuffer s1)))%nat ->
      exists bytes : list Z,
        plane_bytes (m_planeBuffer s2) plane
        = plane_bytes (m_planeBuffer s1) plane ++ bytes /\
        Z.of_nat (length bytes) = n * m_sampleSize s1 /\
        (AEAudioFormat.m_channelLayout (m_format s1) <= Z.of_nat plane ->
         bytes = silence (m_sampleType s1) (n * m_sampleSize s1)).
Proof.
  apply (AddPackets_planes_level sample_platform new_sink
           (sample_driver 2 4 ASIOSTInt16MSB) stereo_float_48k stereo_session
           (set_geometry 8 640 stereo_float_48k)).
  - vm_compute. reflexivity.
  - vm_compute. congruence.
Defined.

Theorem Initialize_geometry (P : Platform) :
  (forall (s : CAESinkASIO) (drv : Driver) (format : AEAudioFormat.t)
          (s' : CAESinkASIO) (format' : AEAudioFormat.t),
     Initialize s drv format = (true, s', format') ->
     let channels := AEAudioFormat.m_channelLayout format in
     let bytes := DataFormatToBits (AEAudioFormat.m_dataFormat format) / 8 in
     let rate := AEAudioFormat.m_sampleRate format in
     m_frameSize s' = u32 (channels * bytes) /\
     (0 <= channels * bytes < 2 ^ 32 -> m_frameSize s' = channels * bytes) /\
     m_frameCount s'
     = (if DSD_MIN_SAMPLERATE <=? rate then rate / 75 / 8 else rate / 75) /\
     AEAudioFormat.m_frameSize format' = m_frameSize s' /\
     AEAudioFormat.m_frames format' = m_frameCount s') /\
  Initialize new_sink (sample_driver 2 4 ASIOSTInt16MSB) stereo_float_48k
  = (true, stereo_session,
     set_geometry 8 640 stereo_float_48k) /\
  m_frameSize stereo_session = 8 /\
  m_frameCount stereo_session = 640 /\
  forall data : list Z,
  exists s' : CAESinkASIO,
    AddPackets P stereo_session data 640 0 = Some (640, s') /\
    length (planes (m_planeBuffer s')) = 2%nat /\
    length (plane_bytes (m_planeBuffer s') 0) = 1280%nat /\
    length (plane_bytes (m_planeBuffer s') 1) = 1280%nat /\
    (length (plane_bytes (m_planeBuffer s') 0)
     + length (plane_bytes (m_planeBuffer s') 1) = 2560)%nat.
Proof.
  split; [|split; [|split; [|split]]].
  - intros s drv format s' format' H channels bytes rate.
    destruct (Initialize_success _ _ _ _ _ H)
      as (numIn & numOut & minSize & maxSize & preferred & granularity & type
          & allocated & _ & _ & _ & _ & _ & _ & _ & _ & _ & Hfs & Hfc & _ & _
          & Hformat & _).
    fold channels bytes in Hfs. cbv zeta in Hfc. fold rate in Hfc.
    split; [exact Hfs|]. split; [intros Hr; rewrite Hfs; apply u32_small, Hr|].
    split.
    + rewrite Hfc. destruct (DSD_MIN_SAMPLERATE <=? rate).
      * rewrite !Z.div_div by lia. reflexivity.
      * rewrite Z.div_1_r. reflexivity.
    + rewrite Hformat. split; reflexivity.
  - vm_compute. reflexivity.
  - reflexivity.
  - reflexivity.
  - intros data.
    assert (Hok : session_ok stereo_session = true) by (vm_compute; reflexivity).
    destruct (AddPackets_spec P stereo_session data 640 0 Hok)
      as (pad & q' & Hadd & _ & _ & _ & Hlen' & _ & Hplanes).
    assert (Hn : Z.min (u32 640)
                   (GetWriteSize (m_planeBuffer stereo_session)
                    / m_sampleSize stereo_session) = 640)
      by (vm_compute; reflexivity).
    rewrite Hn in Hadd, Hplanes.
    eexists. split; [exact Hadd|].
    change (m_planeBuffer (set_m_planeBuffer q' (set_m_planePad pad stereo_session)))
      with q'.
    assert (Hlen2 : length (planes (m_planeBuffer stereo_session)) = 2%nat)
      by (vm_compute; reflexivity).
    rewrite Hlen2 in Hlen', Hplanes.
    assert (Hp : forall plane, (plane < 2)%nat ->
                               length (plane_bytes q' plane) = 1280%nat).
    { intros plane Hlt. specialize (Hplanes plane Hlt).
      rewrite (proj2 (Nat.ltb_lt _ _)) in Hplanes by exact Hlt.
      destruct Hplanes as (bytes & -> & Hlenb & _).
      assert (E : plane_bytes (m_planeBuffer stereo_session) plane = []).
      { destruct plane as [|[|plane]]; [reflexivity | reflexivity | lia]. }
      rewrite E. cbn [app].
      change (m_sampleSize stereo_session) with 2 in Hlenb. lia. }
    split; [exact Hlen'|].
    rewrite !Hp by lia. repeat split; reflexivity.
Qed.

Lemma Initialize_geometry_witness :
  let channels := AEAudioFormat.m_channelLayout stereo_float_48k in
  let bytes :=
    DataFormatToBits (AEAudioFormat.m_dataFormat stereo_float_48k) / 8 in
  let rate := AEAudioFormat.m_sampleRate stereo_float_48k in
  m_frameSize stereo_session = u32 (channels * bytes) /\
  (0 <= channels * bytes < 2 ^ 32 ->
   m_frameSize stereo_session = channels * bytes) /\
  m_frameCount stereo_session
  = (if DSD_MIN_SAMPLERATE <=? rate then rate / 75 / 8 else rate / 75) /\
  AEAudioFormat.m_frameSize (set_geometry 8 640 stereo_float_48k)
  = m_frameSize stereo_session /\
  AEAudioFormat.m_frames (set_geometry 8 640 stereo_float_48k)
  = m_frameCount stereo_session.
Proof.
  apply (proj1 (Initialize_geometry sample_platform) new_sink
           (sample_driver 2 4 ASIOSTInt16MSB) stereo_float_48k stereo_session
           (set_geometry 8 640 stereo_float_48k)).
  vm_compute. reflexivity.
Defined.

(** * Further properties *)

(** ** More on the sample converter *)

(** [ConvertRealToInt] never returns a value outside the range of its
    integer type, whatever the input is (not-a-number and infinities
    included) and whatever [std::llround] answers where C++ leaves it
    open: the comparison chain brings every value into
    [[int_min, int_max]]. *)
Theorem ConvertRealToInt_in_range (P : Platform) (k : real_kind)
    (sizeof_int_t : Z) (inp_value : real_t) :
  0 < sizeof_int_t ->
  int_min sizeof_int_t <= ConvertRealToInt P k sizeof_int_t inp_value
  <= int_max sizeof_int_t.
Proof.
  intros Hsize. unfold ConvertRealToInt, int_min, int_max.
  rewrite Z.shiftl_mul_pow2 by lia.
  assert (0 < 2 ^ (sizeof_int_t * 2 ^ 3 - 1)) by (apply Z.pow_pos_nonneg; lia).
  set (v := llround P _).
  destruct (Z.ltb_spec v (- 2 ^ (sizeof_int_t * 2 ^ 3 - 1))); [lia|].
  destruct (Z.ltb_spec v (2 ^ (sizeof_int_t * 2 ^ 3 - 1) - 1)); lia.
Qed.

Lemma ConvertRealToInt_in_range_witness :
  int_min 2 <= ConvertRealToInt sample_platform Float 2 RNaN <= int_max 2.
Proof.
  apply (ConvertRealToInt_in_range sample_platform Float 2 RNaN). lia.
Defined.

Lemma Qfloor_half : Qfloor (1 # 2) = 0.
Proof. reflexivity. Qed.

Lemma round_half_away_monotone (x y : Q) :
  (x <= y)%Q -> round_half_away x <= round_half_away y.
Proof.
  intros Hxy. unfold round_half_away.
  destruct (Qle_bool 0 x) eqn:Ex; destruct (Qle_bool 0 y) eqn:Ey.
  - apply Qfloor_resp_le. lra.
  - apply Qle_bool_iff in Ex.
    assert (~ (0 <= y)%Q) by (rewrite <- Qle_bool_iff; congruence). lra.
  - assert (Hx : ~ (0 <= x)%Q) by (rewrite <- Qle_bool_iff; congruence).
    apply Qle_bool_iff in Ey.
    assert (0 <= Qfloor (- x + (1 # 2))).
    { rewrite <- Qfloor_half. apply Qfloor_resp_le. lra. }
    assert (0 <= Qfloor (y + (1 # 2))).
    { rewrite <- Qfloor_half. apply Qfloor_resp_le. lra. }
    lia.
  - assert (Qfloor (- y + (1 # 2)) <= Qfloor (- x + (1 # 2)))
      by (apply Qfloor_resp_le; lra).
    lia.
Qed.

(** [ConvertRealToInt] keeps the order of samples: of two finite samples
    within the range where [std::llround] is specified, the larger never
    converts to the smaller integer (rounding and saturation are both
    monotone, so no sample wraps past another). *)
Theorem ConvertRealToInt_monotone (P : Platform) (k : real_kind)
    (sizeof_int_t : Z) (x y : Q) :
  sizeof_int_t = 2 \/ sizeof_int_t = 4 ->
  llround_specified (x * inject_Z (2 ^ (8 * sizeof_int_t - 1))) ->
  llround_specified (y * inject_Z (2 ^ (8 * sizeof_int_t - 1))) ->
  (x <= y)%Q ->
  ConvertRealToInt P k sizeof_int_t (RFinite x)
  <= ConvertRealToInt P k sizeof_int_t (RFinite y).
Proof.
  intros Hsize Hx Hy Hxy.
  rewrite !ConvertRealToInt_clamp by assumption.
  assert (Hs : (0 < inject_Z (2 ^ (8 * sizeof_int_t - 1)))%Q).
  { change 0%Q with (inject_Z 0). rewrite <- Zlt_Qlt.
    destruct Hsize; subst; reflexivity. }
  assert (Hr : round_half_away (x * inject_Z (2 ^ (8 * sizeof_int_t - 1)))
               <= round_half_away (y * inject_Z (2 ^ (8 * sizeof_int_t - 1)))).
  { apply round_half_away_monotone. apply Qmult_le_compat_r; lra. }
  unfold clamp. lia.
Qed.

Lemma ConvertRealToInt_monotone_witness :
  ConvertRealToInt sample_platform Float 2 (RFinite (- (3 # 2)))
  <= ConvertRealToInt sample_platform Float 2 (RFinite (1 # 3)).
Proof.
  apply (ConvertRealToInt_monotone sample_platform Float 2 (- (3 # 2)) (1 # 3)).
  - left. reflexivity.
  - vm_compute. split; discriminate.
  - vm_compute. split; discriminate.
  - vm_compute. discriminate.
Defined.

Lemma store_nil (out : list Z) : store out [] = out.
Proof. reflexivity. Qed.

(** The bytes [ConvertSample] writes do not depend on the destination. *)
Lemma ConvertSample_bytes (P : Platform) (inp : list Z)
    (outType : ASIOSampleType) (inpType : AEDataFormat) :
  exists bs : list Z,
    (forall out, ConvertSample P out outType inp inpType = store out bs) /\
    (bs = [] \/ Z.of_nat (length bs) = sample_size outType).
Proof.
  unfold sample_size.
  destruct inpType; cbn [ConvertSample];
    try (exists []; split; [reflexivity | left; reflexivity]);
    destruct outType; cbn [ConvertReal];
      try (exists []; split; [reflexivity | left; reflexivity]);
      (eexists; split; [intros out; reflexivity|]; right;
       rewrite ?length_le_bytes; reflexivity).
Qed.

(** With room for one native sample, [ConvertSample] keeps the length of
    the destination and the bytes after the sample. *)
Lemma ConvertSample_room (P : Platform) (out inp : list Z)
    (outType : ASIOSampleType) (inpType : AEDataFormat) :
  sample_size outType <= Z.of_nat (length out) ->
  length (ConvertSample P out outType inp inpType) = length out /\
  drop (Z.to_nat (sample_size outType))
    (ConvertSample P out outType inp inpType)
  = drop (Z.to_nat (sample_size outType)) out.
Proof.
  intros Hlen.
  destruct (ConvertSample_bytes P inp outType inpType) as (bs & Hbs & Hl).
  rewrite Hbs. destruct Hl as [->|Hl].
  - split; reflexivity.
  - split; [apply length_store; lia|].
    unfold store. rewrite drop_app_length' by lia.
    replace (Z.to_nat (sample_size outType)) with (length bs) by lia.
    reflexivity.
Qed.

(** [ConvertSample] stays inside the native sample: with room for one
    sample at [outPtr], the buffer keeps its length and every byte after
    the first [sample_size outType] bytes is left as it was, for every
    pair of host format and native type. *)
Theorem ConvertSample_confined (P : Platform) (out inp : list Z)
    (outType : ASIOSampleType) (inpType : AEDataFormat) :
  sample_size outType <= Z.of_nat (length out) ->
  let out' := ConvertSample P out outType inp inpType in
  length out' = length out /\
  drop (Z.to_nat (sample_size outType)) out'
  = drop (Z.to_nat (sample_size outType)) out.
Proof. intros Hlen out'. subst out'. apply ConvertSample_room, Hlen. Qed.

Lemma ConvertSample_confined_witness :
  let out' :=
    ConvertSample sample_platform [7; 7; 7; 7; 7] ASIOSTInt24LSB
      distinct_bytes_double AE_FMT_DOUBLE in
  length out' = length [7; 7; 7; 7; 7] /\
  drop (Z.to_nat (sample_size ASIOSTInt24LSB)) out'
  = drop (Z.to_nat (sample_size ASIOSTInt24LSB)) [7; 7; 7; 7; 7].
Proof.
  apply (ConvertSample_confined sample_platform [7; 7; 7; 7; 7]
           distinct_bytes_double ASIOSTInt24LSB AE_FMT_DOUBLE).
  vm_compute. discriminate.
Defined.

Lemma le_bytes_swapped (n : nat) (w v : Z) :
  w = 8 * Z.of_nat n ->
  le_bytes n (byteswap n (wrap w v)) = rev (le_bytes n v).
Proof. intros ->. rewrite le_bytes_byteswap, le_bytes_wrap. reflexivity. Qed.

(** Byte order.  For every most-significant-first native type and every
    host format, [ConvertSample] writes the bytes it writes for the
    least-significant-first type of the same samples, in reverse order
    (nothing in both cases for the pairs without a conversion). *)
Theorem ConvertSample_msb_reverses_lsb (P : Platform) (inp : list Z)
    (outType : ASIOSampleType) (inpType : AEDataFormat) :
  is_msb outType = true ->
  exists bs : list Z,
    (forall out,
       ConvertSample P out (lsb_of outType) inp inpType = store out bs) /\
    (forall out,
       ConvertSample P out outType inp inpType = store out (rev bs)).
Proof.
  intros Hmsb.
  destruct inpType; cbn [ConvertSample];
    try (exists []; split; reflexivity);
    destruct outType; try discriminate Hmsb;
      cbn [ConvertReal lsb_of];
      (eexists; split; [intros out; reflexivity|]; intros out; f_equal;
       first [ reflexivity
             | apply (le_bytes_swapped 2); reflexivity
             | apply (le_bytes_swapped 4); reflexivity
             | apply (le_bytes_swapped 8); reflexivity ]).
Qed.

Lemma ConvertSample_msb_reverses_lsb_witness :
  exists bs : list Z,
    (forall out,
       ConvertSample sample_platform out (lsb_of ASIOSTInt32MSB20)
         half_float AE_FMT_FLOAT = store out bs) /\
    (forall out,
       ConvertSample sample_platform out ASIOSTInt32MSB20
         half_float AE_FMT_FLOAT = store out (rev bs)).
Proof.
  apply (ConvertSample_msb_reverses_lsb sample_platform half_float
           ASIOSTInt32MSB20 AE_FMT_FLOAT).
  reflexivity.
Defined.

(** A float32 host sample sent to a 32-bit float native type, and a
    float64 host sample sent to a 64-bit float native type, keeps its bit
    pattern: the bytes written are the bytes read for the LSB type and
    the bytes read in reverse order for the MSB type. *)
Theorem ConvertSample_float_passthrough (P : Platform) (out inp : list Z)
    (inpType : AEDataFormat) (k : real_kind) (msb : bool) :
  host_real inpType = Some k ->
  (sizeof_real k <= length inp)%nat ->
  bytes_ok (take (sizeof_real k) inp) ->
  ConvertSample P out (native_float k msb) inp inpType
  = store out (if msb then rev (take (sizeof_real k) inp)
               else take (sizeof_real k) inp).
Proof.
  intros Hhost Hlen Hbytes.
  assert (Hl : length (take (sizeof_real k) inp) = sizeof_real k)
    by (rewrite length_take; lia).
  assert (Hrt : le_bytes (sizeof_real k) (load_bits k inp)
                = take (sizeof_real k) inp).
  { unfold load_bits. rewrite <- Hl at 1.
    apply le_bytes_le_bits. exact Hbytes. }
  destruct inpType; try discriminate Hhost; injection Hhost as <-;
    destruct msb; cbn [ConvertSample ConvertReal native_float cast_bits];
    f_equal; cbn [sizeof_real] in *;
    first [ exact Hrt
          | rewrite (le_bytes_swapped 4) by reflexivity; rewrite Hrt;
            reflexivity
          | rewrite (le_bytes_swapped 8) by reflexivity; rewrite Hrt;
            reflexivity ].
Qed.

Lemma ConvertSample_float_passthrough_witness :
  ConvertSample sample_platform [9; 9; 9; 9; 9]
    (native_float Float true) half_float AE_FMT_FLOAT
  = store [9; 9; 9; 9; 9] (rev (take (sizeof_real Float) half_float)).
Proof.
  apply (ConvertSample_float_passthrough sample_platform [9; 9; 9; 9; 9]
           half_float AE_FMT_FLOAT Float true).
  - reflexivity.
  - vm_compute. lia.
  - vm_compute. repeat constructor; discriminate.
Defined.

(** For every native type that is not floating point (the integer types,
    the density types and the unknown ones), the host format that
    [GetAEDataFormatForASIOSampleType] names for it, and that
    [EnumerateDevicesEx] lists for the device, is one [ConvertSample] has
    no conversion for: the destination is left untouched. *)
Theorem ConvertSample_advertised_format_not_converted (P : Platform)
    (out inp : list Z) (outType : ASIOSampleType) :
  is_float_native outType = false ->
  ConvertSample P out outType inp (GetAEDataFormatForASIOSampleType outType)
  = out.
Proof.
  intros H. destruct outType; try discriminate H; reflexivity.
Qed.

Lemma ConvertSample_advertised_format_not_converted_witness :
  ConvertSample sample_platform [1; 2] ASIOSTInt16LSB [0x34; 0x12]
    (GetAEDataFormatForASIOSampleType ASIOSTInt16LSB) = [1; 2].
Proof.
  apply (ConvertSample_advertised_format_not_converted sample_platform
           [1; 2] [0x34; 0x12] ASIOSTInt16LSB).
  reflexivity.
Defined.

Lemma ZeroSamples_prefix (out : list Z) (outType : ASIOSampleType)
    (samples : Z) :
  0 <= samples < 2 ^ 32 ->
  ZeroSamples out outType (sample_size outType) samples
  = silence outType (u32 (samples * sample_size outType))
    ++ drop (Z.to_nat (u32 (samples * sample_size outType))) out.
Proof.
  intros Hs. rewrite ZeroSamples_spec by lia.
  assert (Hbytes : match outType with
                   | ASIOSTDSDInt8MSB1 | ASIOSTDSDInt8LSB1
                   | ASIOSTDSDInt8NER8 => samples
                   | _ => u32 (samples * sample_size outType)
                   end = u32 (samples * sample_size outType)).
  { destruct outType; try reflexivity;
      unfold sample_size; cbn [GetASIOSampleSizeInBits];
      change ((1 + 7) / 8) with 1; change ((8 + 7) / 8) with 1;
      rewrite Z.mul_1_r; symmetry; apply u32_small; lia. }
  rewrite Hbytes. reflexivity.
Qed.

(** [ZeroSamples], called with the sample size of the native type on a
    buffer with room for [samples] samples, keeps the length of the
    buffer, fills exactly the first [samples * outSampleSize] bytes with
    the silence of the type and leaves every later byte as it was. *)
Theorem ZeroSamples_confined (out : list Z) (outType : ASIOSampleType)
    (outSampleSize samples : Z) :
  0 <= samples < 2 ^ 32 ->
  outSampleSize = sample_size outType ->
  let bytes := Z.to_nat (u32 (samples * outSampleSize)) in
  (bytes <= length out)%nat ->
  let out' := ZeroSamples out outType outSampleSize samples in
  length out' = length out /\
  take bytes out' = silence outType (u32 (samples * outSampleSize)) /\
  drop bytes out' = drop bytes out.
Proof.
  intros Hs -> bytes Hlen out'. subst out' bytes.
  rewrite ZeroSamples_prefix by exact Hs.
  set (n := u32 (samples * sample_size outType)) in *.
  assert (Hl : length (silence outType n) = Z.to_nat n)
    by apply length_silence.
  rewrite length_app, Hl, length_drop.
  rewrite take_app_length' by lia. rewrite drop_app_length' by lia.
  repeat split. lia.
Qed.

Lemma ZeroSamples_confined_witness :
  let bytes := Z.to_nat (u32 (3 * 1)) in
  let out' := ZeroSamples [1; 2; 3; 4; 5] ASIOSTDSDInt8LSB1 1 3 in
  length out' = length [1; 2; 3; 4; 5] /\
  take bytes out' = silence ASIOSTDSDInt8LSB1 (u32 (3 * 1)) /\
  drop bytes out' = drop bytes [1; 2; 3; 4; 5].
Proof.
  apply (ZeroSamples_confined [1; 2; 3; 4; 5] ASIOSTDSDInt8LSB1 1 3).
  - lia.
  - reflexivity.
  - vm_compute. lia.
Defined.

Lemma sample_size_nonneg (t : ASIOSampleType) : 0 <= sample_size t.
Proof. destruct t; vm_compute; discriminate. Qed.

Lemma ConvertSamples_step_spec (P : Platform) (outType : ASIOSampleType)
    (inp : list Z) (channel channels : Z) (inpType : AEDataFormat)
    (inpSampleSize : Z) (i : nat) (out : list Z) :
  let sz := Z.to_nat (sample_size outType) in
  (i * sz + sz <= length out)%nat -> Z.of_nat (length out) < 2 ^ 32 ->
  let out1 := ConvertSamples_step P outType (sample_size outType) inp channel
                channels inpType inpSampleSize (Z.of_nat i) out in
  length out1 = length out /\
  take (i * sz) out1 = take (i * sz) out /\
  drop (i * sz + sz) out1 = drop (i * sz + sz) out /\
  drop (i * sz) out1
  = ConvertSample P (drop (i * sz) out) outType
      (inpSamplePtr inp channel channels inpSampleSize (Z.of_nat i)) inpType.
Proof.
  intros sz Hroom Hlen out1.
  pose proof (sample_size_nonneg outType) as Hs.
  assert (Hoff : Z.to_nat (u32 (Z.of_nat i * sample_size outType))
                 = (i * sz)%nat).
  { rewrite u32_small by (subst sz; nia). subst sz. nia. }
  subst out1. unfold ConvertSamples_step. rewrite Hoff.
  fold (inpSamplePtr inp channel channels inpSampleSize (Z.of_nat i)).
  set (c := ConvertSample P (drop (i * sz) out) outType _ inpType).
  destruct (ConvertSample_room P (drop (i * sz) out)
              (inpSamplePtr inp channel channels inpSampleSize (Z.of_nat i))
              outType inpType) as [Hcl Hcd].
  { rewrite length_drop. subst sz. lia. }
  fold c in Hcl, Hcd. fold sz in Hcd.
  assert (Ht : length (take (i * sz) out) = (i * sz)%nat)
    by (rewrite length_take; lia).
  split; [rewrite length_app, Ht, Hcl, length_drop; lia|].
  split; [rewrite take_app_length' by lia; reflexivity|].
  split.
  - rewrite (drop_app_add' _ _ (i * sz)%nat) by lia.
    rewrite Hcd, drop_drop. reflexivity.
  - rewrite drop_app_length' by lia. reflexivity.
Qed.

Lemma ConvertSamples_from_slots (P : Platform) (outType : ASIOSampleType)
    (inp : list Z) (channel channels : Z) (inpType : AEDataFormat)
    (inpSampleSize : Z) (n : nat) :
  let sz := Z.to_nat (sample_size outType) in
  forall (i : nat) (out : list Z),
  ((i + n) * sz <= length out)%nat -> Z.of_nat (length out) < 2 ^ 32 ->
  let r := ConvertSamples_from P n (Z.of_nat i) out outType
             (sample_size outType) inp channel channels inpType
             inpSampleSize in
  length r = length out /\
  take (i * sz) r = take (i * sz) out /\
  drop ((i + n) * sz) r = drop ((i + n) * sz) out /\
  forall j : nat, (i <= j < i + n)%nat ->
    take sz (drop (j * sz) r)
    = take sz (ConvertSample P (drop (j * sz) out) outType
                 (inpSamplePtr inp channel channels inpSampleSize
                    (Z.of_nat j)) inpType).
Proof.
  intros sz. induction n as [|n IH]; intros i out Hroom Hlen r.
  - subst r. cbn [ConvertSamples_from]. rewrite Nat.add_0_r.
    repeat split. intros j Hj. lia.
  - subst r. cbn [ConvertSamples_from].
    destruct (ConvertSamples_step_spec P outType inp channel channels inpType
                inpSampleSize i out) as (Hl1 & Ht1 & Hd1 & Hc1).
    { fold sz. nia. }
    { exact Hlen. }
    fold sz in Ht1, Hd1, Hc1.
    set (out1 := ConvertSamples_step P outType (sample_size outType) inp
                   channel channels inpType inpSampleSize (Z.of_nat i) out)
      in *.
    replace (Z.of_nat i + 1) with (Z.of_nat (S i)) by lia.
    destruct (IH (S i) out1) as (Hl & Ht & Hd & Hslots).
    { rewrite Hl1. nia. }
    { rewrite Hl1. exact Hlen. }
    set (r := ConvertSamples_from P n (Z.of_nat (S i)) out1 outType
                (sample_size outType) inp channel channels inpType
                inpSampleSize) in *.
    assert (Hdrop : forall m, (i * sz + sz <= m)%nat ->
                              drop m out1 = drop m out).
    { intros m Hm. replace m with (i * sz + sz + (m - (i * sz + sz)))%nat
        by lia.
      rewrite <- (drop_drop out1 (m - (i * sz + sz)) (i * sz + sz)).
      rewrite <- (drop_drop out (m - (i * sz + sz)) (i * sz + sz)).
      rewrite Hd1. reflexivity. }
    split; [congruence|].
    split.
    { rewrite <- Ht1.
      replace (i * sz)%nat with (Nat.min (i * sz) (S i * sz)) by nia.
      rewrite <- !take_take, Ht. reflexivity. }
    split.
    { replace ((i + S n) * sz)%nat with ((S i + n) * sz)%nat by lia.
      rewrite Hd. apply Hdrop. nia. }
    intros j Hj.
    destruct (decide (j = i)) as [->|Hne].
    + rewrite take_drop_commute.
      replace (i * sz + sz)%nat with (S i * sz)%nat by lia.
      rewrite Ht.
      replace (S i * sz)%nat with (i * sz + sz)%nat by lia.
      rewrite <- take_drop_commute, Hc1. reflexivity.
    + rewrite Hslots by lia. rewrite Hdrop by nia. reflexivity.
Qed.

(** [ConvertSamples] de-interleaves: with room for [samples] native samples
    in the destination, native sample [j] of the result is what
    [ConvertSample] makes of the host sample of [channel] in frame [j]
    (at byte offset [(j * channels + channel) * inpSampleSize], taken in
    [unsigned int] arithmetic); later iterations do not overwrite it, the
    destination keeps its length and the bytes after the last sample are
    left alone. *)
Theorem ConvertSamples_deinterleaves (P : Platform) (out : list Z)
    (outType : ASIOSampleType) (inp : list Z) (channel channels : Z)
    (inpType : AEDataFormat) (inpSampleSize samples : Z) (j : nat) :
  let sz := Z.to_nat (sample_size outType) in
  0 <= Z.of_nat j < samples ->
  samples * sample_size outType <= Z.of_nat (length out) < 2 ^ 32 ->
  let out' := ConvertSamples P out outType (sample_size outType) inp channel
                channels inpType inpSampleSize samples in
  length out' = length out /\
  drop (Z.to_nat samples * sz) out' = drop (Z.to_nat samples * sz) out /\
  take sz (drop (j * sz) out')
  = take sz (ConvertSample P (drop (j * sz) out) outType
               (drop (Z.to_nat (u32 (u32 (u32 (Z.of_nat j * channels) + channel)
                                     * inpSampleSize))) inp) inpType).
Proof.
  intros sz Hj Hlen out'. subst out'. unfold ConvertSamples.
  pose proof (sample_size_nonneg outType) as Hs.
  destruct (ConvertSamples_from_slots P outType inp channel channels inpType
              inpSampleSize (Z.to_nat samples) 0 out)
    as (Hl & _ & Hd & Hslots).
  { fold sz. subst sz. nia. }
  { lia. }
  fold sz in Hd, Hslots.
  split; [exact Hl|]. split; [exact Hd|].
  apply Hslots. lia.
Qed.

Lemma ConvertSamples_deinterleaves_witness :
  let sz := Z.to_nat (sample_size ASIOSTInt16MSB) in
  let out' := ConvertSamples sample_platform [9; 9; 9; 9] ASIOSTInt16MSB
                (sample_size ASIOSTInt16MSB) two_frames 1 2 AE_FMT_FLOAT 4 2 in
  length out' = length [9; 9; 9; 9] /\
  drop (Z.to_nat 2 * sz) out' = drop (Z.to_nat 2 * sz) [9; 9; 9; 9] /\
  take sz (drop (1 * sz) out')
  = take sz (ConvertSample sample_platform (drop (1 * sz) [9; 9; 9; 9])
               ASIOSTInt16MSB
               (drop (Z.to_nat (u32 (u32 (u32 (Z.of_nat 1 * 2) + 1) * 4)))
                  two_frames) AE_FMT_FLOAT).
Proof.
  apply (ConvertSamples_deinterleaves sample_platform [9; 9; 9; 9]
           ASIOSTInt16MSB two_frames 1 2 AE_FMT_FLOAT 4 2 1).
  - lia.
  - vm_compute. split; [discriminate | reflexivity].
Defined.

(** ** More on the negotiation and the teardown *)

(** A session is negotiated once: after a successful [Initialize], every
    further [Initialize] on the sink returns failure and changes neither
    the sink nor the caller's format, whatever the driver answers. *)
Theorem Initialize_only_once (s : CAESinkASIO) (drv : Driver)
    (format : AEAudioFormat.t) (s' : CAESinkASIO) (format' : AEAudioFormat.t) :
  Initialize s drv format = (true, s', format') ->
  forall (drv2 : Driver) (format2 : AEAudioFormat.t),
    Initialize s' drv2 format2 = (false, s', format2).
Proof.
  intros H drv2 format2.
  destruct (Initialize_success _ _ _ _ _ H)
    as (? & ? & ? & ? & ? & ? & ? & ? & _ & _ & _ & _ & _ & _ & _ & _ & _ & _
        & _ & _ & _ & _ & _ & _ & _ & Hinit & _).
  unfold Initialize. rewrite Hinit. reflexivity.
Qed.

Lemma Initialize_only_once_witness :
  Initialize stereo_session (sample_driver 2 4 ASIOSTInt16MSB)
    stereo_float_48k
  = (false, stereo_session, stereo_float_48k).
Proof.
  apply (Initialize_only_once new_sink (sample_driver 2 4 ASIOSTInt16MSB)
           stereo_float_48k stereo_session
           (set_geometry 8 640 stereo_float_48k)).
  vm_compute. reflexivity.
Defined.

(** When everything up to [start] succeeds and the driver then refuses to
    start, [Initialize] returns failure but leaves the sink marked
    initialized, with the callback target set and the queue allocated: the
    sink is the one a successful negotiation gives, except that
    [m_running] keeps its old value. *)
Theorem Initialize_start_failure (s : CAESinkASIO) (drv : Driver)
    (format : AEAudioFormat.t) (s1 : CAESinkASIO) (format1 : AEAudioFormat.t) :
  Initialize s (with_start true drv) format = (true, s1, format1) ->
  start drv = false ->
  exists s2 : CAESinkASIO,
    Initialize s drv format = (false, s2, format1) /\
    s1 = set_m_running true s2 /\
    m_initialized s2 = true /\
    m_running s2 = m_running s /\
    s_this s2 = true.
Proof.
  intros H Hstart. unfold Initialize in *.
  cbn [CoInitialize Load future canSampleRate setSampleRate getChannels
       getBufferSize getChannelInfo createBuffers allocate start with_start]
    in H.
  rewrite Hstart. destruct s. sink_simpl.
  repeat match type of H with
         | context [if ?b then _ else _] =>
             destruct b eqn:?; [discriminate H|]
         | context [match ?x with Some _ => _ | None => _ end] =>
             destruct x as [?|] eqn:?; [|discriminate H]
         | context [let '(_, _) := ?x in _] => destruct x
         end.
  cbn [negb] in H. injection H as <- <-.
  eexists. split; [reflexivity|]. repeat split.
Qed.

Lemma Initialize_start_failure_witness :
  exists s2 : CAESinkASIO,
    Initialize new_sink
      (with_start false (sample_driver 2 4 ASIOSTInt16MSB)) stereo_float_48k
    = (false, s2, set_geometry 8 640 stereo_float_48k) /\
    stereo_session = set_m_running true s2 /\
    m_initialized s2 = true /\
    m_running s2 = m_running new_sink /\
    s_this s2 = true.
Proof.
  apply (Initialize_start_failure new_sink
           (with_start false (sample_driver 2 4 ASIOSTInt16MSB))
           stereo_float_48k stereo_session
           (set_geometry 8 640 stereo_float_48k)).
  - vm_compute. reflexivity.
  - reflexivity.
Defined.

Lemma Deinitialize_not_initialized (s : CAESinkASIO) :
  m_initialized (Deinitialize s) = false.
Proof.
  unfold Deinitialize. destruct s as [? [] ? ? ? ? ? ? ? ? ? ? ? [] ?];
    reflexivity.
Qed.

(** After [Deinitialize] the sink takes no packets and reports no delay:
    [AddPackets] consumes 0 frames and changes nothing, [GetDelay] is 0,
    although the queue still holds what it held. *)
Theorem Deinitialize_makes_inert (P : Platform) (s : CAESinkASIO)
    (data : list Z) (frames offset : Z) :
  AddPackets P (Deinitialize s) data frames offset
  = Some (0, Deinitialize s) /\
  GetDelay (Deinitialize s) = RFinite 0 /\
  m_planeBuffer (Deinitialize s) = m_planeBuffer s.
Proof.
  unfold AddPackets, GetDelay.
  rewrite Deinitialize_not_initialized. cbn [negb].
  repeat split.
  unfold Deinitialize. destruct s as [? [] ? ? ? ? ? ? ? ? ? ? ? [] ?];
    reflexivity.
Qed.

(** [Deinitialize] can be repeated (the destructor calls it again): a
    second call changes nothing.  It always leaves the sink without a
    driver; it clears the callback target and the running flag only when
    a driver was loaded. *)
Theorem Deinitialize_idempotent (s : CAESinkASIO) :
  Deinitialize (Deinitialize s) = Deinitialize s /\
  m_iasio (Deinitialize s) = false /\
  (m_iasio s = true ->
   s_this (Deinitialize s) = false /\ m_running (Deinitialize s) = false) /\
  (m_iasio s = false ->
   s_this (Deinitialize s) = s_this s /\
   m_running (Deinitialize s) = m_running s).
Proof.
  unfold Deinitialize. destruct s as [? [] ? ? ? ? ? ? ? ? ? ? ? [] ?];
    cbn; repeat split; congruence.
Qed.

Lemma Deinitialize_idempotent_witness :
  Deinitialize (Deinitialize stereo_session) = Deinitialize stereo_session /\
  m_iasio (Deinitialize stereo_session) = false /\
  (m_iasio stereo_session = true ->
   s_this (Deinitialize stereo_session) = false /\
   m_running (Deinitialize stereo_session) = false) /\
  (m_iasio stereo_session = false ->
   s_this (Deinitialize stereo_session) = s_this stereo_session /\
   m_running (Deinitialize stereo_session) = m_running stereo_session).
Proof.
  apply (Deinitialize_idempotent stereo_session).
Defined.

Lemma attach_prepare_fresh (allocated : nat -> list Z * list Z)
    (infos : list ASIOBufferInfo) (planeCount : Z) :
  attach_buffers allocated (prepare_infos infos planeCount)
  = attach_buffers allocated (prepare_infos [] planeCount).
Proof.
  apply list_eq. intros i. unfold attach_buffers, prepare_infos.
  rewrite !list_lookup_imap.
  set (n := Z.to_nat planeCount).
  assert (Hl : forall l : list ASIOBufferInfo,
            length (take n l ++ replicate (n - length l) null_info) = n).
  { intros l. rewrite length_app, length_take, length_replicate. lia. }
  destruct (decide (i < n)%nat) as [Hi|Hi].
  - destruct (lookup_lt_is_Some_2
                (take n infos ++ replicate (n - length infos) null_info) i)
      as [x ->]; [rewrite Hl; exact Hi|].
    destruct (lookup_lt_is_Some_2
                (take n (@nil ASIOBufferInfo)
                 ++ replicate (n - length (@nil ASIOBufferInfo)) null_info) i)
      as [y ->]; [rewrite (Hl []); exact Hi|].
    reflexivity.
  - rewrite !lookup_ge_None_2 by (rewrite Hl; lia). reflexivity.
Qed.

Lemma Initialize_uninitialized (s : CAESinkASIO) (drv : Driver)
    (format : AEAudioFormat.t) :
  m_initialized s = false ->
  let r := Initialize s drv format in
  let r0 := Initialize new_sink drv format in
  fst (fst r) = fst (fst r0) /\
  snd r = snd r0 /\
  (fst (fst r0) = true ->
   snd (fst r0) = set_m_planePad [] (snd (fst r))).
Proof.
  intros Hinit. cbv zeta. unfold Initialize, new_sink.
  destruct s as [a1 a2 a3 a4 a5 a6 a7 a8 a9 infos a11 a12 a13 a14 a15].
  change (a14 = false) in Hinit. subst a14. sink_simpl.
  destruct (CoInitialize drv); cbn [negb fst snd];
    [|repeat split; discriminate].
  destruct (Load drv); cbn [negb fst snd]; [|repeat split; discriminate].
  destruct ((DSD_MIN_SAMPLERATE <=? AEAudioFormat.m_sampleRate format)
            && negb (future drv)); cbn [negb fst snd];
    [repeat split; discriminate|].
  destruct (canSampleRate drv (AEAudioFormat.m_sampleRate format));
    cbn [negb fst snd]; [|repeat split; discriminate].
  destruct (setSampleRate drv (AEAudioFormat.m_sampleRate format));
    cbn [negb fst snd]; [|repeat split; discriminate].
  destruct (getChannels drv) as [[numIn numOut]|]; cbn [negb fst snd];
    [|repeat split; discriminate].
  destruct (getBufferSize drv)
    as [[[[minSize maxSize] preferred] granularity]|]; cbn [negb fst snd];
    [|repeat split; discriminate].
  destruct (getChannelInfo drv) as [type|]; cbn [negb fst snd];
    [|repeat split; discriminate].
  destruct (createBuffers drv (u32 numOut) (u32 preferred)) as [allocated|];
    cbn [negb fst snd]; [|repeat split; discriminate].
  destruct (allocate drv); cbn [negb fst snd];
    [|repeat split; discriminate].
  destruct (start drv); cbn [negb fst snd]; [|repeat split; discriminate].
  repeat split. intros _.
  rewrite (attach_prepare_fresh allocated infos (u32 numOut)).
  reflexivity.
Qed.

(** A sink can be negotiated again after [Deinitialize]: whatever state
    the sink was in, [Initialize] after [Deinitialize] succeeds exactly
    when it succeeds on a new sink, hands the same format back to the
    caller, and on success yields the same sink as a new one but for the
    pad, which is carried over from the old session. *)
Theorem Initialize_after_Deinitialize (s : CAESinkASIO) (drv : Driver)
    (format : AEAudioFormat.t) :
  let again := Initialize (Deinitialize s) drv format in
  let fresh := Initialize new_sink drv format in
  fst (fst again) = fst (fst fresh) /\
  snd again = snd fresh /\
  (fst (fst fresh) = true ->
   snd (fst fresh) = set_m_planePad [] (snd (fst again)) /\
   m_planePad (snd (fst again)) = m_planePad s).
Proof.
  cbv zeta.
  destruct (Initialize_uninitialized (Deinitialize s) drv format
              (Deinitialize_not_initialized s)) as (Hok & Hfmt & Hstate).
  split; [exact Hok|]. split; [exact Hfmt|].
  intros Hfresh. split; [apply Hstate, Hfresh|].
  rewrite <- Hok in Hfresh.
  destruct (Initialize (Deinitialize s) drv format) as [[ok s'] format'] eqn:E.
  cbn [fst snd] in *. subst ok. rewrite Hfresh in E.
  destruct (Initialize_success _ _ _ _ _ E)
    as (? & ? & ? & ? & ? & ? & ? & ? & _ & _ & _ & _ & _ & _ & _ & _ & _ & _
        & _ & _ & _ & _ & _ & Hpad & _).
  rewrite Hpad. unfold Deinitialize.
  destruct s as [? [] ? ? ? ? ? ? ? ? ? ? ? [] ?]; reflexivity.
Qed.

Lemma Initialize_after_Deinitialize_witness :
  let again :=
    Initialize (Deinitialize fed_session)
      (sample_driver 2 4 ASIOSTInt16MSB) stereo_float_48k in
  let fresh :=
    Initialize new_sink (sample_driver 2 4 ASIOSTInt16MSB) stereo_float_48k in
  fst (fst again) = fst (fst fresh) /\
  snd again = snd fresh /\
  (fst (fst fresh) = true ->
   snd (fst fresh) = set_m_planePad [] (snd (fst again)) /\
   m_planePad (snd (fst again)) = m_planePad fed_session).
Proof.
  apply (Initialize_after_Deinitialize fed_session
           (sample_driver 2 4 ASIOSTInt16MSB) stereo_float_48k).
Defined.

(** [Initialize] does not reject a native sample type outside the list of
    [GetASIOSampleSizeInBits]: it succeeds with a sample size and a
    bytes-per-second of 0.  Every [AddPackets] on that session then
    divides by zero, and [GetCacheTotal] is 0/0. *)
Theorem Initialize_unknown_type_then_AddPackets (P : Platform)
    (s : CAESinkASIO) (drv : Driver) (format : AEAudioFormat.t)
    (s' : CAESinkASIO) (format' : AEAudioFormat.t)
    (data : list Z) (frames offset : Z) :
  Initialize s drv format = (true, s', format') ->
  getChannelInfo drv = Some ASIOSTOther ->
  m_sampleSize s' = 0 /\
  m_planeBytesPerSec s' = 0 /\
  AddPackets P s' data frames offset = None /\
  GetCacheTotal s' = RNaN.
Proof.
  intros H Htype.
  destruct (Initialize_success _ _ _ _ _ H)
    as (? & ? & ? & ? & ? & ? & type & ? & _ & _ & Hty & _ & _ & _ & _ & Hss
        & _ & _ & _ & Hbps & Hq & _ & _ & _ & _ & Hinit & _).
  rewrite Htype in Hty. injection Hty as <-.
  cbn [GetASIOSampleSizeInBits] in *.
  rewrite Z.mul_0_r in Hbps, Hq.
  change (u32 0) with 0 in Hbps. 
  split; [exact Hss|]. split; [exact Hbps|]. split.
  - unfold AddPackets. rewrite Hinit, Hss. reflexivity.
  - unfold GetCacheTotal, seconds. rewrite Hbps, Hq. reflexivity.
Qed.

Lemma Initialize_unknown_type_then_AddPackets_witness :
  let s' := snd (fst (Initialize new_sink (sample_driver 2 4 ASIOSTOther)
                        stereo_float_48k)) in
  m_sampleSize s' = 0 /\
  m_planeBytesPerSec s' = 0 /\
  AddPackets sample_platform s' two_frames 2 0 = None /\
  GetCacheTotal s' = RNaN.
Proof.
  apply (Initialize_unknown_type_then_AddPackets sample_platform new_sink
           (sample_driver 2 4 ASIOSTOther) stereo_float_48k _
           (set_geometry 8 640 stereo_float_48k) two_frames 2 0).
  - vm_compute. reflexivity.
  - reflexivity.
Defined.

(** ** More on streaming *)

Lemma round_written_read_size (P : Platform) (s : CAESinkASIO)
    (dataPtr : list Z) (n : Z) (q q' : AERingBuffer) :
  round_written P s dataPtr n q q' (length (planes q)) ->
  (0 < length (planes q))%nat ->
  GetReadSize q' = GetReadSize q + n * m_sampleSize s.
Proof.
  intros (_ & _ & _ & Hplanes) Hpos.
  specialize (Hplanes 0%nat Hpos).
  rewrite (proj2 (Nat.ltb_lt _ _)) in Hplanes by exact Hpos.
  destruct Hplanes as (bytes & Hb & Hlen & _).
  rewrite !GetReadSize_planes, Hb, length_app. lia.
Qed.

(** [AddPackets] consumes the frames that fit: it returns the smaller of
    [frames] and the whole number of native samples the free space holds,
    so all of [frames] when there is room and 0 when less than one sample
    fits; the readable bytes grow by exactly the frames consumed times the
    sample size and never exceed the capacity. *)
Theorem AddPackets_consumes_what_fits (P : Platform) (s : CAESinkASIO)
    (data : list Z) (frames offset : Z) :
  session_ok s = true ->
  0 < m_planeCount s ->
  let q := m_planeBuffer s in
  let n := Z.min (u32 frames) (GetWriteSize q / m_sampleSize s) in
  exists s' : CAESinkASIO,
    AddPackets P s data frames offset = Some (n, s') /\
    GetReadSize (m_planeBuffer s') = GetReadSize q + n * m_sampleSize s /\
    GetReadSize (m_planeBuffer s') <= capacity (m_planeBuffer s') /\
    capacity (m_planeBuffer s') = capacity q /\
    (u32 frames * m_sampleSize s <= GetWriteSize q -> n = u32 frames) /\
    (GetWriteSize q < m_sampleSize s -> n = 0).
Proof.
  intros Hok Hplanes q n.
  destruct (AddPackets_spec P s data frames offset Hok)
    as (pad & q' & Hadd & Hn & Hspace & Hround).
  fold q in Hadd, Hspace, Hround. fold n in Hadd, Hspace, Hround, Hn.
  destruct (length_planes_session s Hok) as [Hlen _]. fold q in Hlen.
  pose proof (proj1 (session_ok_iff s) Hok)
    as (_ & _ & _ & _ & _ & Hread & _ & _ & Hpos & _).
  fold q in Hread.
  pose proof (GetReadSize_nonneg q) as Hr0.
  assert (HW : GetWriteSize q = capacity q - GetReadSize q) by reflexivity.
  eexists. split; [exact Hadd|].
  change (m_planeBuffer (set_m_planeBuffer q' (set_m_planePad pad s))) with q'.
  rewrite (round_written_read_size P s _ n q q' Hround) by lia.
  destruct Hround as (Hcap & _).
  rewrite Hcap.
  split; [reflexivity|]. split; [lia|]. split; [reflexivity|].
  pose proof (u32_range frames) as Hf.
  split.
  - intros Hfit. subst n. apply Z.min_l.
    apply Z.div_le_lower_bound; lia.
  - intros Hfull. subst n. rewrite Z.div_small by lia. lia.
Qed.

Lemma AddPackets_consumes_what_fits_witness :
  let q := m_planeBuffer fed_session in
  let n := Z.min (u32 3) (GetWriteSize q / m_sampleSize fed_session) in
  exists s' : CAESinkASIO,
    AddPackets sample_platform fed_session two_frames 3 0 = Some (n, s') /\
    GetReadSize (m_planeBuffer s')
    = GetReadSize q + n * m_sampleSize fed_session /\
    GetReadSize (m_planeBuffer s') <= capacity (m_planeBuffer s') /\
    capacity (m_planeBuffer s') = capacity q /\
    (u32 3 * m_sampleSize fed_session <= GetWriteSize q -> n = u32 3) /\
    (GetWriteSize q < m_sampleSize fed_session -> n = 0).
Proof.
  apply (AddPackets_consumes_what_fits sample_platform fed_session
           two_frames 3 0).
  - vm_compute. reflexivity.
  - vm_compute. reflexivity.
Defined.

(** First in, first out, from producer to driver: when [AddPackets] has
    brought the queue to at least one buffer half, the next callback hands
    each plane the first [need] bytes of what the plane held followed by
    the chunk [AddPackets] appended to it, and leaves the rest queued. *)
Theorem AddPackets_then_bufferSwitch (P : Platform) (s : CAESinkASIO)
    (data : list Z) (frames offset : Z) (doubleBufferIndex : bool) :
  session_ok s = true ->
  halves_sized s doubleBufferIndex = true ->
  let q := m_planeBuffer s in
  let need := u32 (m_bufferSize s * m_sampleSize s) in
  let n := Z.min (u32 frames) (GetWriteSize q / m_sampleSize s) in
  let dataPtr :=
    drop (Z.to_nat (u32 (u32 offset
                         * AEAudioFormat.m_frameSize (m_format s)))) data in
  need <= GetReadSize q + n * m_sampleSize s ->
  exists s1 : CAESinkASIO,
    AddPackets P s data frames offset = Some (n, s1) /\
    forall plane, (plane < length (planes q))%nat ->
    exists bytes : list Z,
      plane_chunk P s dataPtr n plane bytes /\
      buffer_half (bufferSwitch s1 doubleBufferIndex) doubleBufferIndex plane
      = take (Z.to_nat need) (plane_bytes q plane ++ bytes) /\
      plane_bytes (m_planeBuffer (bufferSwitch s1 doubleBufferIndex)) plane
      = drop (Z.to_nat need) (plane_bytes q plane ++ bytes).
Proof.
  intros Hok Hsized q need n dataPtr Hneed.
  destruct (AddPackets_spec P s data frames offset Hok)
    as (pad & q' & Hadd & Hn & Hspace & Hround).
  fold q in Hadd, Hspace, Hround. fold n in Hadd, Hspace, Hround, Hn.
  fold dataPtr in Hround.
  set (s1 := set_m_planeBuffer q' (set_m_planePad pad s)) in *.
  exists s1. split; [exact Hadd|].
  intros plane Hp.
  assert (Hok1 : session_ok s1 = true).
  { destruct (AddPackets_session_ok P s data frames offset Hok)
      as (n' & s' & Hadd' & Hok').
    rewrite Hadd in Hadd'. injection Hadd' as _ <-. exact Hok'. }
  assert (Hsized1 : halves_sized s1 doubleBufferIndex = true) by exact Hsized.
  assert (Hread1 : GetReadSize q' = GetReadSize q + n * m_sampleSize s).
  { apply (round_written_read_size P s dataPtr n q q' Hround). lia. }
  pose proof Hround as (_ & Hlen' & _ & Hplanes).
  pose proof (Hplanes plane Hp) as Hplane.
  rewrite (proj2 (Nat.ltb_lt _ _)) in Hplane by exact Hp.
  destruct Hplane as (bytes & Hb & Hchunk).
  exists bytes. split; [exact Hchunk|].
  destruct (bufferSwitch_fed s1 doubleBufferIndex Hok1)
    as (q2 & infos2 & Hrun & _ & _ & _ & _ & Hpl & Hin).
  { change (m_planeBuffer s1) with q'. rewrite Hread1. exact Hneed. }
  change (m_planeBuffer s1) with q' in Hpl, Hin.
  change (m_bufferInfos s1) with (m_bufferInfos s) in Hin.
  change (u32 (m_bufferSize s1 * m_sampleSize s1)) with need in Hpl, Hin.
  rewrite Hlen' in Hpl, Hin.
  rewrite Hrun.
  change (m_planeBuffer (set_m_planeBuffer q2 (set_m_bufferInfos infos2 s1)))
    with q2.
  unfold buffer_half.
  change (m_bufferInfos (set_m_planeBuffer q2 (set_m_bufferInfos infos2 s1)))
    with infos2.
  rewrite Hpl by exact Hp. rewrite <- Hb. split; [|reflexivity].
  rewrite Hin, (proj2 (Nat.ltb_lt _ _)) by exact Hp.
  destruct (length_planes_session s Hok) as [Hlq Hli]. fold q in Hlq.
  destruct (lookup_lt_is_Some_2 (m_bufferInfos s) plane) as [info Hi];
    [lia|].
  rewrite Hi.
  cbn [fmap option_fmap option_map from_option id update_half buffers].
  rewrite (proj1 (half_set_half _ _ _)).
  apply store_exact.
  rewrite (halves_sized_lookup s doubleBufferIndex plane info Hsized Hi).
  fold need. rewrite length_take.
  pose proof (proj1 (session_ok_iff s1) Hok1) as (_ & _ & _ & _ & Hlevel1 & _).
  change (m_planeBuffer s1) with q' in Hlevel1.
  pose proof (level_plane q' plane Hlevel1 ltac:(lia)) as HL.
  pose proof (u32_range (m_bufferSize s * m_sampleSize s)) as Hnd.
  fold need in Hnd. lia.
Qed.

Lemma AddPackets_then_bufferSwitch_witness :
  let s := stereo_session in
  let q := m_planeBuffer s in
  let need := u32 (m_bufferSize s * m_sampleSize s) in
  let n := Z.min (u32 4) (GetWriteSize q / m_sampleSize s) in
  let dataPtr :=
    drop (Z.to_nat (u32 (u32 0 * AEAudioFormat.m_frameSize (m_format s))))
      (two_frames ++ two_frames) in
  exists s1 : CAESinkASIO,
    AddPackets sample_platform s (two_frames ++ two_frames) 4 0
    = Some (n, s1) /\
    forall plane, (plane < length (planes q))%nat ->
    exists bytes : list Z,
      plane_chunk sample_platform s dataPtr n plane bytes /\
      buffer_half (bufferSwitch s1 true) true plane
      = take (Z.to_nat need) (plane_bytes q plane ++ bytes) /\
      plane_bytes (m_planeBuffer (bufferSwitch s1 true)) plane
      = drop (Z.to_nat need) (plane_bytes q plane ++ bytes).
Proof.
  apply (AddPackets_then_bufferSwitch sample_platform stereo_session
           (two_frames ++ two_frames) 4 0 true).
  - vm_compute. reflexivity.
  - vm_compute. reflexivity.
  - vm_compute. discriminate.
Defined.

Lemma bufferSwitch_frame (s : CAESinkASIO) (doubleBufferIndex : bool) :
  session_ok s = true ->
  exists (q' : AERingBuffer) (infos' : list ASIOBufferInfo),
    bufferSwitch s doubleBufferIndex
    = set_m_planeBuffer q' (set_m_bufferInfos infos' s).
Proof.
  intros Hok.
  destruct (Z.le_gt_cases (u32 (m_bufferSize s * m_sampleSize s))
              (GetReadSize (m_planeBuffer s))) as [Hfed|Hstarved].
  - destruct (bufferSwitch_fed s doubleBufferIndex Hok Hfed)
      as (q' & infos' & Hrun & _).
    exists q', infos'. exact Hrun.
  - destruct (bufferSwitch_starved s doubleBufferIndex Hok Hstarved)
      as (infos' & Hrun & _).
    exists (m_planeBuffer s), infos'. rewrite Hrun.
    destruct s. reflexivity.
Qed.

Lemma drain_step (r need k : Z) :
  0 < need -> 0 <= r -> 0 <= k ->
  let r1 := if need <=? r then r - need else r in
  r1 - Z.min k (r1 / need) * need
  = r - Z.min (k + 1) (r / need) * need.
Proof.
  intros Hneed Hr Hk r1. subst r1.
  destruct (Z.leb_spec need r) as [Hfed|Hstarved].
  - assert (Hd : (r - need) / need = r / need - 1).
    { replace (r - need) with (r + (-1) * need) by lia.
      rewrite Z.div_add by lia. lia. }
    rewrite Hd.
    destruct (Z.le_gt_cases k (r / need - 1)).
    + rewrite !Z.min_l by lia. lia.
    + rewrite !Z.min_r by lia. lia.
  - rewrite Z.div_small by lia. rewrite !Z.min_r by lia. lia.
Qed.

(** Draining.  With no [AddPackets] in between, [k] consecutive callbacks
    take [min k (r / need)] buffer halves from the [r] readable bytes of
    the queue; from [r / need] callbacks on the queue stays at
    [r mod need] bytes, which only a later [AddPackets] can move. *)
Theorem callbacks_drain (k : nat) :
  forall (s : CAESinkASIO) (doubleBufferIndex : bool),
  session_ok s = true ->
  0 < m_planeCount s ->
  let need := u32 (m_bufferSize s * m_sampleSize s) in
  let r := GetReadSize (m_planeBuffer s) in
  0 < need ->
  GetReadSize (m_planeBuffer (callbacks k doubleBufferIndex s))
  = r - Z.min (Z.of_nat k) (r / need) * need /\
  (r / need <= Z.of_nat k ->
   GetReadSize (m_planeBuffer (callbacks k doubleBufferIndex s))
   = r mod need).
Proof.
  assert (Hmain : forall (s : CAESinkASIO) (doubleBufferIndex : bool),
            session_ok s = true -> 0 < m_planeCount s ->
            0 < u32 (m_bufferSize s * m_sampleSize s) ->
            GetReadSize (m_planeBuffer (callbacks k doubleBufferIndex s))
            = GetReadSize (m_planeBuffer s)
              - Z.min (Z.of_nat k)
                  (GetReadSize (m_planeBuffer s)
                   / u32 (m_bufferSize s * m_sampleSize s))
                * u32 (m_bufferSize s * m_sampleSize s)).
  { induction k as [|k IH]; intros s doubleBufferIndex Hok Hplanes Hneed.
    - cbn [callbacks].
      pose proof (GetReadSize_nonneg (m_planeBuffer s)).
      rewrite Z.min_l; [lia|]. apply Z.div_pos; lia.
    - cbn [callbacks].
      destruct (bufferSwitch_frame s doubleBufferIndex Hok)
        as (q' & infos' & Hrun).
      pose proof (bufferSwitch_session_ok s doubleBufferIndex Hok) as Hok1.
      destruct (GetReadSize_after_bufferSwitch s doubleBufferIndex Hok Hplanes)
        as (_ & _ & Hr1).
      set (s1 := bufferSwitch s doubleBufferIndex) in *.
      assert (Hpc : m_planeCount s1 = m_planeCount s)
        by (rewrite Hrun; reflexivity).
      assert (Hnd : u32 (m_bufferSize s1 * m_sampleSize s1)
                    = u32 (m_bufferSize s * m_sampleSize s))
        by (rewrite Hrun; reflexivity).
      rewrite IH by (assumption || lia).
      rewrite Hnd, Hr1.
      pose proof (GetReadSize_nonneg (m_planeBuffer s)).
      rewrite (drain_step _ _ (Z.of_nat k)) by lia.
      replace (Z.of_nat (S k)) with (Z.of_nat k + 1) by lia. reflexivity. }
  intros s doubleBufferIndex Hok Hplanes need r Hneed.
  split; [apply Hmain; assumption|].
  intros Hk. rewrite Hmain by assumption. fold need r.
  rewrite Z.min_r by lia. rewrite Z.mod_eq by lia. lia.
Qed.

Lemma callbacks_drain_witness :
  let s := fed_session in
  let need := u32 (m_bufferSize s * m_sampleSize s) in
  let r := GetReadSize (m_planeBuffer s) in
  GetReadSize (m_planeBuffer (callbacks 3 false s))
  = r - Z.min (Z.of_nat 3) (r / need) * need /\
  (r / need <= Z.of_nat 3 ->
   GetReadSize (m_planeBuffer (callbacks 3 false s)) = r mod need).
Proof.
  apply (callbacks_drain 3 fed_session false).
  - vm_compute. reflexivity.
  - vm_compute. reflexivity.
  - vm_compute. reflexivity.
Defined.

(** A callback that arrives after the negotiation and before any
    [AddPackets] plays silence: it leaves the empty queue alone and writes
    the silence of the native type over the first [need] bytes of every
    plane's buffer half. *)
Theorem first_callback_is_silence (s0 : CAESinkASIO) (drv : Driver)
    (format : AEAudioFormat.t) (s : CAESinkASIO) (format' : AEAudioFormat.t)
    (doubleBufferIndex : bool) :
  Initialize s0 drv format = (true, s, format') ->
  m_sampleType s <> ASIOSTOther ->
  let need := u32 (m_bufferSize s * m_sampleSize s) in
  0 < need ->
  let s' := bufferSwitch s doubleBufferIndex in
  m_planeBuffer s' = m_planeBuffer s /\
  forall plane, (plane < length (m_bufferInfos s))%nat ->
    buffer_half s' doubleBufferIndex plane
    = silence (m_sampleType s) need
      ++ drop (Z.to_nat need) (buffer_half s doubleBufferIndex plane).
Proof.
  intros Hinit Htype need Hneed s'.
  pose proof (Initialize_session_ok _ _ _ _ _ Hinit Htype) as Hok.
  destruct (Initialize_success _ _ _ _ _ Hinit)
    as (? & ? & ? & ? & ? & ? & ? & ? & _ & _ & _ & _ & _ & _ & _ & _ & _ & _
        & _ & _ & Hq & _).
  assert (Hread : GetReadSize (m_planeBuffer s) = 0).
  { rewrite Hq. unfold GetReadSize, availableToRead.
    rewrite Create_planes. reflexivity. }
  destruct (bufferSwitch_starved s doubleBufferIndex Hok)
    as (infos' & Hrun & _ & Hin).
  { rewrite Hread. exact Hneed. }
  subst s'. rewrite Hrun. split; [reflexivity|].
  intros plane Hp. unfold buffer_half.
  change (m_bufferInfos (set_m_bufferInfos infos' s)) with infos'.
  destruct (length_planes_session s Hok) as [Hlq Hli].
  rewrite Hin, (proj2 (Nat.ltb_lt _ _)) by lia.
  destruct (lookup_lt_is_Some_2 (m_bufferInfos s) plane Hp) as [info Hi].
  rewrite Hi.
  cbn [fmap option_fmap option_map from_option id update_half buffers].
  rewrite (proj1 (half_set_half _ _ _)).
  pose proof (proj1 (session_ok_iff s) Hok)
    as (_ & _ & _ & _ & _ & _ & _ & Hsize & _ & Hb0 & Hb1).
  fold (sample_size (m_sampleType s)) in Hsize.
  subst need. rewrite Hsize.
  apply ZeroSamples_prefix. lia.
Qed.

Lemma first_callback_is_silence_witness :
  let s := stereo_session in
  let need := u32 (m_bufferSize s * m_sampleSize s) in
  let s' := bufferSwitch s false in
  m_planeBuffer s' = m_planeBuffer s /\
  forall plane, (plane < length (m_bufferInfos s))%nat ->
    buffer_half s' false plane
    = silence (m_sampleType s) need
      ++ drop (Z.to_nat need) (buffer_half s false plane).
Proof.
  apply (first_callback_is_silence new_sink (sample_driver 2 4 ASIOSTInt16MSB)
           stereo_float_48k stereo_session
           (set_geometry 8 640 stereo_float_48k) false).
  - vm_compute. reflexivity.
  - vm_compute. congruence.
  - vm_compute. reflexivity.
Defined.

(** The queue [Initialize] allocates holds [m_planeBytesPerSec / 75 * 225]
    bytes per plane, so that [GetCacheTotal] is at most 3, and exactly 3
    when [m_planeBytesPerSec] is a multiple of 75 (three times that rate
    fitting 32 bits). *)
Theorem GetCacheTotal_three_seconds (s : CAESinkASIO) (drv : Driver)
    (format : AEAudioFormat.t) (s' : CAESinkASIO) (format' : AEAudioFormat.t) :
  Initialize s drv format = (true, s', format') ->
  let bps := m_planeBytesPerSec s' in
  0 < bps -> 3 * bps < 2 ^ 32 ->
  GetMaxSize (m_planeBuffer s') = bps / 75 * 225 /\
  exists total : Q,
    GetCacheTotal s' = RFinite total /\
    (total <= 3)%Q /\
    (bps mod 75 = 0 -> (total == 3)%Q).
Proof.
  intros H bps Hpos Hsmall.
  destruct (Initialize_success _ _ _ _ _ H)
    as (? & ? & ? & ? & ? & ? & type & ? & _ & _ & _ & _ & _ & _ & _ & _
        & _ & _ & _ & Hbps & Hq & _).
  rewrite <- Hbps in Hq. fold bps in Hq.
  assert (Hdiv : 0 <= bps / 75) by (apply Z.div_pos; lia).
  assert (Hle : 75 * (bps / 75) <= bps) by (apply Z.mul_div_le; lia).
  assert (Hcap : GetMaxSize (m_planeBuffer s') = bps / 75 * 225).
  { rewrite Hq. cbn [GetMaxSize Create capacity].
    rewrite (u32_small (bps / 75 * 3)) by lia.
    rewrite u32_small by lia. lia. }
  split; [exact Hcap|].
  exists (inject_Z (bps / 75 * 225) / inject_Z bps)%Q.
  assert (Hq0 : (0 < inject_Z bps)%Q).
  { change 0%Q with (inject_Z 0). rewrite <- Zlt_Qlt. exact Hpos. }
  split.
  - unfold GetCacheTotal, seconds. fold bps. rewrite Hcap.
    destruct (Z.eqb_spec bps 0); [lia | reflexivity].
  - split.
    + apply Qle_shift_div_r; [exact Hq0|].
      change 3%Q with (inject_Z 3). rewrite <- inject_Z_mult, <- Zle_Qle. lia.
    + intros Hmod.
      assert (E : bps / 75 * 225 = 3 * bps).
      { pose proof (Z.div_mod bps 75 ltac:(lia)). lia. }
      rewrite E, inject_Z_mult. change (inject_Z 3) with 3%Q.
      field. intros Hz. rewrite Hz in Hq0. apply (Qlt_irrefl 0). exact Hq0.
Qed.

Lemma GetCacheTotal_three_seconds_witness :
  let bps := m_planeBytesPerSec stereo_session in
  GetMaxSize (m_planeBuffer stereo_session) = bps / 75 * 225 /\
  exists total : Q,
    GetCacheTotal stereo_session = RFinite total /\
    (total <= 3)%Q /\
    (bps mod 75 = 0 -> (total == 3)%Q).
Proof.
  apply (GetCacheTotal_three_seconds new_sink
           (sample_driver 2 4 ASIOSTInt16MSB) stereo_float_48k stereo_session
           (set_geometry 8 640 stereo_float_48k)).
  - vm_compute. reflexivity.
  - vm_compute. reflexivity.
  - vm_compute. reflexivity.
Defined.

(** ** Device probing *)

Lemma probe_rates_In (can : Z -> bool) (base i rate : Z) :
  In rate (probe_rates can base i) ->
  can rate = true /\
  (rate = u32 (base * 44100 * Z.shiftl 1 i) \/
   rate = u32 (base * 48000 * Z.shiftl 1 i)).
Proof.
  unfold probe_rates. intros H.
  apply list_elem_of_In, list_elem_of_filter in H as [Hcan H].
  split; [exact Hcan|].
  apply list_elem_of_In in H. cbn [In] in H.
  destruct H as [<-|[<-|[]]]; auto.
Qed.

Lemma probe_loop_In (can : Z -> bool) (base rate : Z) :
  In rate (concat (map (probe_rates can base) [0; 1; 2; 3; 4])) ->
  can rate = true /\
  exists i, 0 <= i <= 4 /\
            (rate = u32 (base * 44100 * Z.shiftl 1 i) \/
             rate = u32 (base * 48000 * Z.shiftl 1 i)).
Proof.
  intros H. apply in_concat in H as (l & Hl & Hin).
  apply in_map_iff in Hl as (i & <- & Hi).
  apply probe_rates_In in Hin as [Hcan Hrate].
  split; [exact Hcan|]. exists i. split; [|exact Hrate].
  cbn [In] in Hi. lia.
Qed.

(** Every sample rate the probe of [EnumerateDevicesEx] lists was accepted
    by the driver in the mode it was asked in, and the two modes do not
    mix: a rate listed in PCM mode is below [DSD_MIN_SAMPLERATE], a rate
    listed after the switch to the density format is at or above it, which
    is the threshold at which [Initialize] makes the same switch. *)
Theorem EnumerateDevicesEx_rates (drv : Probe) (rate : Z) :
  In rate (m_sampleRates (EnumerateDevicesEx_probe drv)) ->
  (44100 <= rate < DSD_MIN_SAMPLERATE /\
   probe_canSampleRate drv rate = true) \/
  (DSD_MIN_SAMPLERATE <= rate /\
   probe_future drv = true /\
   probe_canSampleRate_dsd drv rate = true).
Proof.
  intros H.
  assert (Hpcm : In rate (concat (map (probe_rates (probe_canSampleRate drv) 1)
                                    [0; 1; 2; 3; 4])) ->
                 44100 <= rate < DSD_MIN_SAMPLERATE /\
                 probe_canSampleRate drv rate = true).
  { intros Hin. apply probe_loop_In in Hin as (Hcan & i & Hi & Hrate).
    split; [|exact Hcan].
    assert (Hcases : i = 0 \/ i = 1 \/ i = 2 \/ i = 3 \/ i = 4) by lia.
    destruct Hcases as [-> | [-> | [-> | [-> | ->]]]];
      destruct Hrate as [-> | ->]; vm_compute; split; congruence. }
  assert (Hdsd : In rate (concat (map (probe_rates
                                         (probe_canSampleRate_dsd drv) 64)
                                    [0; 1; 2; 3; 4])) ->
                 DSD_MIN_SAMPLERATE <= rate /\
                 probe_canSampleRate_dsd drv rate = true).
  { intros Hin. apply probe_loop_In in Hin as (Hcan & i & Hi & Hrate).
    split; [|exact Hcan].
    assert (Hcases : i = 0 \/ i = 1 \/ i = 2 \/ i = 3 \/ i = 4) by lia.
    destruct Hcases as [-> | [-> | [-> | [-> | ->]]]];
      destruct Hrate as [-> | ->]; vm_compute; congruence. }
  unfold EnumerateDevicesEx_probe in H.
  destruct (probe_future drv) eqn:Hfuture; cbn [m_sampleRates] in H.
  - apply in_app_or in H as [H|H].
    + left. apply Hpcm, H.
    + right. destruct (Hdsd H). auto.
  - left. apply Hpcm, H.
Qed.

Lemma EnumerateDevicesEx_rates_witness :
  (44100 <= 96000 < DSD_MIN_SAMPLERATE /\
   probe_canSampleRate sample_probe 96000 = true) \/
  (DSD_MIN_SAMPLERATE <= 96000 /\
   probe_future sample_probe = true /\
   probe_canSampleRate_dsd sample_probe 96000 = true).
Proof.
  apply (EnumerateDevicesEx_rates sample_probe 96000).
  vm_compute. tauto.
Defined.

(** The probe of [EnumerateDevicesEx] misses no candidate: each of
    44100 * 2^i and 48000 * 2^i, i from 0 to 4, is listed when the driver
    accepts it, and so is each of their 64-fold multiples when the driver
    accepts the density format and the rate. *)
Theorem EnumerateDevicesEx_rates_complete (drv : Probe) (i : Z) :
  0 <= i <= 4 ->
  let pcm := [44100 * 2 ^ i; 48000 * 2 ^ i] in
  let dsd := [64 * 44100 * 2 ^ i; 64 * 48000 * 2 ^ i] in
  (forall rate, In rate pcm -> probe_canSampleRate drv rate = true ->
                In rate (m_sampleRates (EnumerateDevicesEx_probe drv))) /\
  (forall rate, In rate dsd -> probe_future drv = true ->
                probe_canSampleRate_dsd drv rate = true ->
                In rate (m_sampleRates (EnumerateDevicesEx_probe drv))).
Proof.
  intros Hi pcm dsd.
  assert (Hloop : forall can base rate,
            (base = 1 \/ base = 64) ->
            In rate [base * 44100 * 2 ^ i; base * 48000 * 2 ^ i] ->
            can rate = true ->
            In rate (concat (map (probe_rates can base) [0; 1; 2; 3; 4]))).
  { intros can base rate Hbase Hin Hcan.
    apply in_concat. exists (probe_rates can base i). split.
    - apply in_map. cbn [In]. lia.
    - unfold probe_rates.
      apply list_elem_of_In, list_elem_of_filter. split; [exact Hcan|].
      apply list_elem_of_In.
      assert (Hcases : i = 0 \/ i = 1 \/ i = 2 \/ i = 3 \/ i = 4) by lia.
      destruct Hbase as [-> | ->];
        destruct Hcases as [-> | [-> | [-> | [-> | ->]]]]; exact Hin. }
  unfold EnumerateDevicesEx_probe. split.
  - intros rate Hin Hcan.
    assert (In rate (concat (map (probe_rates (probe_canSampleRate drv) 1)
                               [0; 1; 2; 3; 4]))).
    { apply Hloop; [auto| |exact Hcan].
      subst pcm. rewrite !Z.mul_1_l. exact Hin. }
    destruct (probe_future drv); cbn [m_sampleRates];
      [apply in_or_app; left|]; assumption.
  - intros rate Hin Hfuture Hcan. rewrite Hfuture. cbn [m_sampleRates].
    apply in_or_app. right. apply Hloop; [auto|exact Hin|exact Hcan].
Qed.

Lemma EnumerateDevicesEx_rates_complete_witness :
  let pcm := [44100 * 2 ^ 2; 48000 * 2 ^ 2] in
  let dsd := [64 * 44100 * 2 ^ 2; 64 * 48000 * 2 ^ 2] in
  (forall rate, In rate pcm -> probe_canSampleRate sample_probe rate = true ->
                In rate (m_sampleRates (EnumerateDevicesEx_probe sample_probe)))
  /\
  (forall rate, In rate dsd -> probe_future sample_probe = true ->
                probe_canSampleRate_dsd sample_probe rate = true ->
                In rate (m_sampleRates (EnumerateDevicesEx_probe sample_probe))).
Proof.
  apply (EnumerateDevicesEx_rates_complete sample_probe 2). lia.
Defined.

(** The channel layout index the probe of [EnumerateDevicesEx] uses is
    between 2 and [ASIO_MAX_CHANNEL_COUNT] whatever count the driver
    reports, and is absent exactly when the channel query fails; the
    format list ends with [AE_FMT_U8] when the driver accepts the density
    format and otherwise holds at most the format of the PCM native
    type. *)
Theorem EnumerateDevicesEx_channels_and_formats (drv : Probe) :
  let info := EnumerateDevicesEx_probe drv in
  (forall c, m_channels info = Some c -> 2 <= c <= ASIO_MAX_CHANNEL_COUNT) /\
  (m_channels info = None <-> probe_getChannels drv = None) /\
  (probe_future drv = true -> last (m_dataFormats info) = Some AE_FMT_U8) /\
  (probe_future drv = false ->
   m_dataFormats info
   = match probe_getChannelInfo drv with
     | Some type => [GetAEDataFormatForASIOSampleType type]
     | None => []
     end).
Proof.
  cbv zeta. unfold EnumerateDevicesEx_probe, ASIO_MAX_CHANNEL_COUNT.
  destruct (probe_future drv); cbn [m_channels m_dataFormats];
    (split; [intros c Hc;
             destruct (probe_getChannels drv) as [[numIn numOut]|];
             [injection Hc as <-; lia | discriminate]|]);
    (split; [destruct (probe_getChannels drv) as [[numIn numOut]|];
             split; congruence|]);
    (split; [|congruence]).
  - intros _. rewrite !app_assoc. apply last_snoc.
  - discriminate.
Qed.

Lemma EnumerateDevicesEx_channels_and_formats_witness :
  m_channels (EnumerateDevicesEx_probe sample_probe) = Some 3 /\
  last (m_dataFormats (EnumerateDevicesEx_probe sample_probe))
  = Some AE_FMT_U8.
Proof.
  destruct (EnumerateDevicesEx_channels_and_formats sample_probe)
    as (_ & _ & Hlast & _).
  split; [reflexivity | apply Hlast; reflexivity].
Defined.

(** A sink [Create] hands out is initialized and running and is the
    callback target; its queue has one empty plane per output channel of
    the driver, and the caller's format carries the frame size and frame
    count stored in the sink. *)
Theorem CreateSink_returns_ready_sink (drv : Driver)
    (desiredFormat : AEAudioFormat.t) (s : CAESinkASIO)
    (format' : AEAudioFormat.t) :
  CreateSink drv desiredFormat = (Some s, format') ->
  m_initialized s = true /\ m_running s = true /\ s_this s = true /\
  NumPlanes (m_planeBuffer s) = m_planeCount s /\
  (forall plane, plane_bytes (m_planeBuffer s) plane = []) /\
  m_format s = format' /\
  AEAudioFormat.m_frameSize format' = m_frameSize s /\
  AEAudioFormat.m_frames format' = m_frameCount s.
Proof.
  unfold CreateSink. intros H.
  destruct (Initialize new_sink drv desiredFormat) as [[ok s1] f1] eqn:E.
  cbn [fst snd] in H. destruct ok; [|discriminate H].
  injection H as <- <-.
  destruct (Initialize_success _ _ _ _ _ E)
    as (? & numOut & ? & ? & ? & ? & ? & ? & _ & _ & _ & _ & Hpc & _ & _ & _
        & _ & _ & _ & _ & Hq & Hfmt & Hmf & _ & Hthis & Hinit & Hrun).
  pose proof (u32_range numOut).
  repeat split; try assumption.
  - rewrite Hq, Hpc. unfold NumPlanes, Create. cbn [planes].
    rewrite length_replicate. lia.
  - intros plane. rewrite Hq. apply Create_planes.
  - rewrite Hfmt. reflexivity.
  - rewrite Hfmt. reflexivity.
Qed.

Lemma CreateSink_returns_ready_sink_witness :
  let s := stereo_session in
  let format' := set_geometry 8 640 stereo_float_48k in
  m_initialized s = true /\ m_running s = true /\ s_this s = true /\
  NumPlanes (m_planeBuffer s) = m_planeCount s /\
  (forall plane, plane_bytes (m_planeBuffer s) plane = []) /\
  m_format s = format' /\
  AEAudioFormat.m_frameSize format' = m_frameSize s /\
  AEAudioFormat.m_frames format' = m_frameCount s.
Proof.
  apply (CreateSink_returns_ready_sink (sample_driver 2 4 ASIOSTInt16MSB)
           stereo_float_48k stereo_session
           (set_geometry 8 640 stereo_float_48k)).
  vm_compute. reflexivity.
Defined.

(** [Stop] clears the running flag and nothing else: the session stays
    initialized, its delay is unchanged, and [AddPackets] on the stopped
    sink consumes the same frames and queues the same bytes as before. *)
Theorem Stop_keeps_session (P : Platform) (s s' : CAESinkASIO)
    (data : list Z) (frames offset : Z) :
  Stop s = Some s' ->
  s' = set_m_running false s /\
  session_ok s' = session_ok s /\
  GetDelay s' = GetDelay s /\
  AddPackets P s' data frames offset
  = (fun r => (fst r, set_m_running false (snd r)))
    <$> AddPackets P s data frames offset.
Proof.
  unfold Stop. intros H. destruct (m_iasio s); [|discriminate H].
  injection H as <-.
  split; [reflexivity|]. split; [reflexivity|]. split; [reflexivity|].
  destruct s as [a1 a2 a3 a4 a5 a6 a7 a8 a9 a10 a11 a12 a13 a14 a15].
  unfold AddPackets.
  cbn [m_initialized set_m_running m_planeBuffer m_format m_sampleSize
       m_planePad m_sampleType m_frameSize].
  destruct a14; cbn [negb]; [|reflexivity].
  destruct (a8 =? 0); reflexivity.
Qed.

Lemma Stop_keeps_session_witness :
  let s' := set_m_running false fed_session in
  s' = set_m_running false fed_session /\
  session_ok s' = session_ok fed_session /\
  GetDelay s' = GetDelay fed_session /\
  AddPackets sample_platform s' two_frames 2 0
  = (fun r => (fst r, set_m_running false (snd r)))
    <$> AddPackets sample_platform fed_session two_frames 2 0.
Proof.
  apply (Stop_keeps_session sample_platform fed_session
           (set_m_running false fed_session) two_frames 2 0).
  reflexivity.
Defined.
